(** * DokuReader: the collection-PDF export pipeline

    A shallow embedding of the export code of [DokuReader.py]
    ([_create_collection_pdf_worker], [_txt_to_pdf], [_image_to_pdf],
    [_office_to_pdf], [_merge_pdfs]) and the properties of it that the
    specification states.

    The Python code works on the file system and calls external
    libraries (reportlab, Pillow, pypdf, a LibreOffice executable, Word
    automation).  The file system is an explicit store threaded through
    an exception monad; what the environment decides (which libraries are
    installed, what an external engine produces, which I/O operation
    breaks) is a field of the record [env].

    Around the pipeline the file covers the catalog ([State]: topics,
    documents, read flags), the parser of dropped paths
    ([_split_dnd_paths]), the size shown in the document list
    ([human_size]) and the handlers of the window, as transitions of the
    catalog and of the widgets the handlers read back. *)

From Stdlib Require Import ZArith QArith Qminmax Ascii String DecimalString.
From stdpp Require Import gmap strings list.
From Equations Require Import Equations.

Local Open Scope string_scope.
Local Open Scope Z_scope.

(** ** Strings and paths *)

Module Str.

(** The newline character *)
Definition nl : ascii := ascii_of_nat 10.

(** [s[:n]] *)
Fixpoint take (n : nat) (s : string) : string :=
  match n, s with
  | S n', String a s' => String a (take n' s')
  | _, _ => EmptyString
  end.

(** [s[n:]] *)
Fixpoint drop (n : nat) (s : string) : string :=
  match n, s with
  | S n', String _ s' => drop n' s'
  | _, _ => s
  end.

Definition lower_char (a : ascii) : ascii :=
  let n := nat_of_ascii a in
  if ((65 <=? n)%nat && (n <=? 90)%nat)%bool then ascii_of_nat (n + 32) else a.

(** [s.lower()], on the ASCII letters *)
Fixpoint lower (s : string) : string :=
  match s with
  | EmptyString => EmptyString
  | String a s' => String (lower_char a) (lower s')
  end.

(** Splits [s] at the last occurrence of [c]: the text before it, and
    the text from [c] on. *)
Fixpoint rsplit (c : ascii) (s : string) : option (string * string) :=
  match s with
  | EmptyString => None
  | String a s' =>
      match rsplit c s' with
      | Some (pre, suf) => Some (String a pre, suf)
      | None => if Ascii.eqb a c then Some (EmptyString, s) else None
      end
  end.

(** [s.rstrip("\n")] *)
Fixpoint rstrip_nl (s : string) : string :=
  match s with
  | EmptyString => EmptyString
  | String a s' =>
      match rstrip_nl s' with
      | EmptyString => if Ascii.eqb a nl then EmptyString else String a EmptyString
      | r => String a r
      end
  end.

(** The lines a text file object yields when iterated: each line keeps
    its terminating newline, the last one may lack it. *)
Fixpoint lines_from (cur : string -> string) (s : string) : list string :=
  match s with
  | EmptyString =>
      match cur EmptyString with
      | EmptyString => []
      | l => [l]
      end
  | String a s' =>
      if Ascii.eqb a nl
      then cur (String a EmptyString) :: lines_from (fun r => r) s'
      else lines_from (fun r => cur (String a r)) s'
  end.

Definition readlines (s : string) : list string := lines_from (fun r => r) s.

End Str.

Module PathLib.

(** [Path(p).name]: the last component of a normalised POSIX path. *)
Definition name (p : string) : string :=
  match Str.rsplit "/"%char p with
  | Some (_, String _ rest) => rest
  | _ => p
  end.

(** The index test of pathlib: the last dot counts when it is neither
    the first nor the last character of the name. *)
Definition split_ext (p : string) : string * string :=
  let n := name p in
  match Str.rsplit "."%char n with
  | Some (String a pre, String d (String b suf)) =>
      (String a pre, String d (String b suf))
  | _ => (n, EmptyString)
  end.

(** [Path(p).stem] *)
Definition stem (p : string) : string := fst (split_ext p).

(** [Path(p).suffix] *)
Definition suffix (p : string) : string := snd (split_ext p).

(** [str(d / x)]: an absolute [x] replaces [d]. *)
Definition join (d x : string) : string :=
  match x with
  | String "/" _ => x
  | _ => d ++ "/" ++ x
  end.

(** [p] lies below the directory [d]. *)
Definition under (d p : string) : bool := String.prefix (d ++ "/") p.

End PathLib.

(** ** Pages, files and the environment *)

(** Lengths are integers in units of 1/127 pt.  In this unit the
    constants of reportlab are whole numbers ([inch = 72.0],
    [cm = inch / 2.54], [mm = cm * 0.1], [A4 = (210 * mm, 297 * mm)]),
    and every comparison the text renderer makes is between values that
    differ by more than 3 pt, far above the rounding error of the
    floating-point numbers of the source. *)
Definition pt : Z := 127.
Definition inch : Z := 72 * pt.
Definition cm : Z := 3600.
Definition mm : Z := 360.
Definition A4 : Z * Z := (210 * mm, 297 * mm).

Record image := Img { iw : Z; ih : Z; pixels : N }.

(** What a page holds: the drawing operations recorded for it. *)
Inductive op :=
| SetFont (font : string) (size : Z)
| DrawString (x y : Z) (s : string)
| DrawImage (img : image) (x y w h : Q)
| Raster (img : image) (resolution : Z).

Definition page := list op.

(** A file is known through what the readers of the program make of its
    bytes: the text it decodes to (UTF-8, undecodable bytes replaced),
    the pages a PDF reader finds, the picture an image decoder finds. *)
Record file := File {
  as_text : string;
  as_pdf : option (list page);
  as_image : option image
}.

(** The I/O operations that can break for reasons outside the program. *)
Inductive io_op :=
| OpRead (p : string)
| OpCreate (p : string)
| OpWrite (p : string)
| OpUnlink (p : string).

(** What an external engine did: whether the call raised, the exit
    status it reported, and the pages it wrote to its output file. *)
Record engine_result := Engine {
  raised : option string;
  status : Z;
  output : option (list page)
}.

Record env := Env {
  REPORTLAB_AVAILABLE : bool;
  PIL_AVAILABLE : bool;
  PdfMerger : bool;
  which : string -> bool;
  platform_system : string;
  home : string;
  has_desktop : bool;
  mkdtemp : string;
  fault : io_op -> option string;
  pdf_text : list page -> string;
  office_engine : string -> string -> option file -> engine_result;
  word_engine : string -> option file -> engine_result
}.

Inductive event :=
| EvBusy (b : bool)
| EvInfo (title msg : string)
| EvMkdtemp (d : string)
| EvRmtree (d : string).

Record world := World {
  files : gmap string file;
  events : list event
}.

Definition set_files (f : gmap string file -> gmap string file) (w : world) : world :=
  World (f (files w)) (events w).

Definition emit (e : event) (w : world) : world :=
  World (files w) (events w ++ [e]).

(** ** The exception monad over the world *)

Inductive res (A : Type) :=
| Ok (a : A)
| Raise (e : string).
Arguments Ok {A} a.
Arguments Raise {A} e.

Definition M (A : Type) : Type := world -> res A * world.

Definition ret {A} (a : A) : M A := fun w => (Ok a, w).

Definition raise {A} (e : string) : M A := fun w => (Raise e, w).

Definition bind {A B} (m : M A) (k : A -> M B) : M B :=
  fun w =>
    match m w with
    | (Ok a, w') => k a w'
    | (Raise e, w') => (Raise e, w')
    end.

Notation "'let*' x ':=' m 'in' k" := (bind m (fun x => k))
  (at level 10, x name, m at level 100, k at level 200).
Notation "'let*' ' x ':=' m 'in' k" := (bind m (fun x => k))
  (at level 10, x strict pattern, m at level 100, k at level 200).
Notation "m ';;' k" := (bind m (fun _ => k))
  (at level 100, k at level 200, right associativity).

(** [try: m except Exception as e: h e] *)
Definition try_except {A} (m : M A) (h : string -> M A) : M A :=
  fun w =>
    match m w with
    | (Raise e, w') => h e w'
    | r => r
    end.

(** [try: m finally: f] *)
Definition try_finally {A} (m : M A) (f : M unit) : M A :=
  fun w =>
    match m w with
    | (r, w') =>
        match f w' with
        | (Ok _, w'') => (r, w'')
        | (Raise e, w'') => (Raise e, w'')
        end
    end.

(** ** File-system primitives *)

(** An empty file, as [open(p, "wb")] leaves it; also what is left of a
    file whose writing broke off. *)
Definition truncated : file := File "" None None.

Definition pdf_file (E : env) (pages : list page) : file :=
  File (pdf_text E pages) (Some pages) None.

Definition fs_read (E : env) (p : string) : M file :=
  fun w =>
    match fault E (OpRead p) with
    | Some e => (Raise e, w)
    | None =>
        match files w !! p with
        | Some f => (Ok f, w)
        | None => (Raise ("No such file or directory: " ++ p), w)
        end
    end.

Definition fs_create (E : env) (p : string) : M unit :=
  fun w =>
    match fault E (OpCreate p) with
    | Some e => (Raise e, w)
    | None => (Ok tt, set_files (insert p truncated) w)
    end.

Definition fs_write (E : env) (p : string) (data : file) : M unit :=
  fun w =>
    match fault E (OpWrite p) with
    | Some e => (Raise e, set_files (insert p truncated) w)
    | None => (Ok tt, set_files (insert p data) w)
    end.

Definition fs_exists (p : string) : M bool :=
  fun w => (Ok (bool_decide (is_Some (files w !! p))), w).

Definition fs_unlink (E : env) (p : string) : M unit :=
  fun w =>
    match fault E (OpUnlink p) with
    | Some e => (Raise e, w)
    | None =>
        match files w !! p with
        | Some _ => (Ok tt, set_files (delete p) w)
        | None => (Raise ("No such file or directory: " ++ p), w)
        end
    end.

(** ** The reportlab canvas *)

(** A canvas collects the finished pages and the operations of the page
    being drawn; nothing reaches the file system before [save]. *)
Record canvas := Canvas_ {
  c_file : string;
  c_pages : list page;
  c_code : list op
}.

Definition Canvas (out : string) : canvas := Canvas_ out [] [].

Definition setFont (c : canvas) (font : string) (size : Z) : canvas :=
  Canvas_ (c_file c) (c_pages c) (c_code c ++ [SetFont font size]).

Definition drawString (c : canvas) (x y : Z) (s : string) : canvas :=
  Canvas_ (c_file c) (c_pages c) (c_code c ++ [DrawString x y s]).

Definition drawImage (c : canvas) (img : image) (x y w h : Q) : canvas :=
  Canvas_ (c_file c) (c_pages c) (c_code c ++ [DrawImage img x y w h]).

(** [showPage] closes the current page, empty or not. *)
Definition showPage (c : canvas) : canvas :=
  Canvas_ (c_file c) (c_pages c ++ [c_code c]) [].

(** [save] closes a page that has pending operations, then writes the
    document. *)
Definition save (E : env) (c : canvas) : M unit :=
  let c := match c_code c with [] => c | _ => showPage c end in
  fs_create E (c_file c) ;;
  fs_write E (c_file c) (pdf_file E (c_pages c)).

(** ** [_txt_to_pdf] *)

Definition margin : Z := 2 * cm.
Definition line_height : Z := 12 * pt.

(** [int((width - 2 * margin) / 6)] *)
Definition max_chars : nat := Z.to_nat ((fst A4 - 2 * margin) / (6 * pt)).

(** The inner loop [while line: ...] of the text renderer. *)
#[local] Obligation Tactic := idtac.

Equations? draw_line (line : string) (cy : canvas * Z) : canvas * Z
  by wf (String.length line) lt :=
  draw_line EmptyString cy := cy;
  draw_line (String a s) cy :=
    let part := Str.take max_chars (String a s) in
    let c := drawString (fst cy) margin (snd cy) part in
    let y := snd cy - line_height in
    let line := Str.drop (String.length part) (String a s) in
    if y <? margin
    then draw_line line (setFont (showPage c) "Helvetica" 11, snd A4 - margin)
    else draw_line line (c, y).
Proof.
  all: subst line c y part; clear draw_line cy; change max_chars with (S 79);
    change (Str.take (S 79) (String a s)) with (String a (Str.take 79 s));
    generalize (Str.take 79 s); intros t;
    change (String.length (String a t)) with (S (String.length t));
    change (Str.drop (S (String.length t)) (String a s))
      with (Str.drop (String.length t) s);
    generalize (String.length t); intros k;
    cbn [String.length]; apply Nat.lt_succ_r;
    revert s; induction k as [|k IH]; intros [|b s]; cbn [Str.drop String.length];
    try lia; specialize (IH s); lia.
Qed.

(** The outer loop [for line in f: line = line.rstrip("\n"); ...]. *)
Definition draw_lines (lines : list string) (cy : canvas * Z) : canvas * Z :=
  fold_left (fun cy line => draw_line (Str.rstrip_nl line) cy) lines cy.

Definition render_text (out text : string) : canvas :=
  let c := Canvas out in
  let y := snd A4 - margin in
  let c := setFont c "Helvetica" 11 in
  let cy := draw_lines (Str.readlines text) (c, y) in
  showPage (fst cy).

(** The [except] branch of the text renderer: the output file goes, if
    it exists; a failure of the removal is ignored. *)
Definition cleanup (E : env) (out : string) : M (option string) :=
  try_except
    (let* ex := fs_exists out in
     if ex then fs_unlink E out else ret tt)
    (fun _ => ret tt) ;;
  ret None.

Definition _txt_to_pdf (E : env) (path tmpdir : string) : M (option string) :=
  if negb (REPORTLAB_AVAILABLE E) then ret None
  else
    let out := PathLib.join tmpdir (PathLib.stem path ++ "_txt.pdf") in
    try_except
      (let* f := fs_read E path in
       let c := render_text out (as_text f) in
       save E c ;;
       ret (Some out))
      (fun _ => cleanup E out).

(** ** [_image_to_pdf] *)

(** [ImageReader(path)] and [Image.open(path)]: the file must decode as a
    picture. *)
Definition read_image (E : env) (path : string) : M image :=
  let* f := fs_read E path in
  match as_image f with
  | Some img => ret img
  | None => raise ("cannot identify image file " ++ path)
  end.

(** The page of the reportlab strategy: the picture scaled by
    [min(max_w / iw, max_h / ih)] and centred. *)
Definition image_canvas (out : string) (img : image) : M canvas :=
  let c := Canvas out in
  let width := inject_Z (fst A4) in
  let height := inject_Z (snd A4) in
  if ((iw img =? 0) || (ih img =? 0))%bool then raise "float division by zero"
  else
    let max_w := Qminus width (inject_Z (2 * cm)) in
    let max_h := Qminus height (inject_Z (2 * cm)) in
    let scale := Qmin (Qdiv max_w (inject_Z (iw img))) (Qdiv max_h (inject_Z (ih img))) in
    let w := Qmult (inject_Z (iw img)) scale in
    let h := Qmult (inject_Z (ih img)) scale in
    let x := Qdiv (Qminus width w) (inject_Z 2) in
    let y := Qdiv (Qminus height h) (inject_Z 2) in
    ret (showPage (drawImage c img x y w h)).

(** [img.save(out, "PDF", resolution=150.0)] of Pillow *)
Definition pil_save (E : env) (img : image) (out : string) : M unit :=
  fs_create E out ;;
  fs_write E out (pdf_file E [[Raster img 150]]).

(** The first [try] block of the image renderer; [None] stands for
    falling through to the next block. *)
Definition reportlab_strategy (E : env) (path out : string) : M (option string) :=
  try_except
    (let* img := read_image E path in
     let* c := image_canvas out img in
     save E c ;;
     ret (Some out))
    (fun _ => ret None).

(** The second [try] block of the image renderer. *)
Definition pillow_strategy (E : env) (path out : string) : M (option string) :=
  try_except
    (let* img := read_image E path in
     pil_save E img out ;;
     ret (Some out))
    (fun _ => ret None).

Definition _image_to_pdf (E : env) (path tmpdir : string) : M (option string) :=
  let out := PathLib.join tmpdir (PathLib.stem path ++ "_img.pdf") in
  let* r := if REPORTLAB_AVAILABLE E then reportlab_strategy E path out else ret None in
  match r with
  | Some o => ret (Some o)
  | None => if PIL_AVAILABLE E then pillow_strategy E path out else ret None
  end.

(** ** [_office_to_pdf] *)

(** An external engine run on [src] that was told to write [out]: the
    pages it produced, if any, are written there; then the call raises or
    returns its exit status. *)
Definition run_engine (E : env) (r : engine_result) (out : string) : M Z :=
  fun w =>
    let w' := match output r with
              | Some pages => set_files (insert out (pdf_file E pages)) w
              | None => w
              end in
    match raised r with
    | Some e => (Raise e, w')
    | None => (Ok (status r), w')
    end.

(** [subprocess.run([cand, "--headless", "--convert-to", "pdf",
    "--outdir", str(tmpdir), path], ..., timeout=180, check=False)] *)
Definition subprocess_run (E : env) (cand tmpdir path : string) : M Z :=
  fun w =>
    run_engine E (office_engine E cand path (files w !! path))
      (PathLib.join tmpdir (PathLib.stem path ++ ".pdf")) w.

(** One round of the loop [for cand in ["soffice", "libreoffice"]]:
    [Some out] stands for the [return str(out)] inside it. *)
Definition try_candidate (E : env) (path tmpdir cand : string) : M (option string) :=
  if which E cand then
    try_except
      (subprocess_run E cand tmpdir path ;;
       let out := PathLib.join tmpdir (PathLib.stem path ++ ".pdf") in
       let* ex := fs_exists out in
       if ex then ret (Some out) else ret None)
      (fun _ => ret None)
  else ret None.

Fixpoint try_candidates (E : env) (path tmpdir : string) (cands : list string)
  : M (option string) :=
  match cands with
  | [] => ret None
  | cand :: rest =>
      let* r := try_candidate E path tmpdir cand in
      match r with
      | Some out => ret (Some out)
      | None => try_candidates E path tmpdir rest
      end
  end.

(** The Word automation sequence, from the import of [win32com.client]
    to [word.Quit()]. *)
Definition word_export (E : env) (path out_path : string) : M Z :=
  fun w => run_engine E (word_engine E path (files w !! path)) out_path w.

Definition word_strategy (E : env) (path tmpdir : string) : M (option string) :=
  if String.eqb (platform_system E) "Windows" then
    try_except
      (let out_path := PathLib.join tmpdir (PathLib.stem path ++ ".pdf") in
       word_export E path out_path ;;
       let* ex := fs_exists out_path in
       if ex then ret (Some out_path) else ret None)
      (fun _ => ret None)
  else ret None.

Definition _office_to_pdf (E : env) (path tmpdir : string) : M (option string) :=
  let* r := try_candidates E path tmpdir ["soffice"; "libreoffice"] in
  match r with
  | Some out => ret (Some out)
  | None => word_strategy E path tmpdir
  end.

(** ** [_merge_pdfs] *)

(** [merger.append(p)]: the pages of [p] join the merger, or the call
    raises and the merger stays as it was. *)
Definition merger_append (E : env) (merger : list page) (p : string) : M (list page) :=
  let* f := fs_read E p in
  match as_pdf f with
  | Some pages => ret (merger ++ pages)%list
  | None => raise ("EOF marker not found: " ++ p)
  end.

(** [for p in pdf_paths: try: merger.append(p) except Exception: continue] *)
Fixpoint append_all (E : env) (pdf_paths : list string) (merger : list page)
  : M (list page) :=
  match pdf_paths with
  | [] => ret merger
  | p :: rest =>
      let* merger' := try_except (merger_append E merger p) (fun _ => ret merger) in
      append_all E rest merger'
  end.

(** The closing [try: merger.close() except Exception: pass] has no
    effect on the file system or on the result and is left out. *)
Definition _merge_pdfs (E : env) (pdf_paths : list string) (out_path : string) : M bool :=
  if negb (PdfMerger E) then ret false
  else
    try_except
      (let* merger := append_all E pdf_paths [] in
       (* with open(out_path, "wb") as f: merger.write(f) *)
       fs_create E out_path ;;
       fs_write E out_path (pdf_file E merger) ;;
       ret true)
      (fun _ => ret false).

(** ** [_create_collection_pdf_worker] *)

(** A document reference: the dict [{"path": ..., "read": ...}]. *)
Record doc := Doc { path : string; read : bool }.

Definition IMAGE_EXTS : list string := [".jpg"; ".jpeg"; ".gif"; ".png"].
Definition WORD_EXTS : list string := [".doc"; ".docx"; ".odt"; ".rtf"].
Definition TXT_EXTS : list string := [".txt"].
Definition PDF_EXTS : list string := [".pdf"].

(** [ext in EXTS] *)
Definition ext_in (ext : string) (exts : list string) : bool :=
  existsb (String.eqb ext) exts.

(** [State.list_docs]: [self.topics.get(topic, [])] *)
Definition list_docs (topics : gmap string (list doc)) (topic : string) : list doc :=
  default [] (topics !! topic).

(** [desktop_path()] *)
Definition desktop_path (E : env) : string :=
  if has_desktop E then PathLib.join (home E) "Desktop" else home E.

(** [self.after(0, lambda: messagebox.showinfo(title, msg))] *)
Definition showinfo (title msg : string) : M unit :=
  fun w => (Ok tt, emit (EvInfo title msg) w).

Definition status_info (msg : string) : M unit := showinfo "Info" msg.

Definition _set_busy (busy : bool) : M unit :=
  fun w => (Ok tt, emit (EvBusy busy) w).

(** Removal of a directory tree: every file below [d] goes. *)
Definition rmtree (d : string) (fs : gmap string file) : gmap string file :=
  filter (fun kv : string * file => PathLib.under d kv.1 = false) fs.

(** [with tempfile.TemporaryDirectory() as tmpdir: body]: the directory
    is removed on every way out of the block. *)
Definition TemporaryDirectory {A} (E : env) (body : string -> M A) : M A :=
  fun w =>
    let d := mkdtemp E in
    match body d (emit (EvMkdtemp d) w) with
    | (r, w') => (r, emit (EvRmtree d) (set_files (rmtree d) w'))
    end.

(** The methods the worker calls on [self]. *)
Record methods := Methods {
  txt_to_pdf : string -> string -> M (option string);
  image_to_pdf : string -> string -> M (option string);
  office_to_pdf : string -> string -> M (option string);
  merge_pdfs : list string -> string -> M bool
}.

Section Worker.

Variable E : env.
Variable self : methods.

(** The two lists the loop appends to. *)
Definition lists : Type := list string * list string.

(** [l.append(x)] *)
Definition push (l : list string) (x : string) : list string := (l ++ [x])%list.

(** [if pdfp: append the part and an OK line, else: log the skip] *)
Definition append_or_log (acc : lists) (pdfp : option string) (ok skip : string)
  : M lists :=
  match pdfp with
  | Some (String a p) => ret (push acc.1 (String a p), push acc.2 ok)
  | _ => ret (acc.1, push acc.2 skip)
  end.

(** The body of [for d in docs]. *)
Definition process_doc (tmpdir : string) (acc : lists) (d : doc) : M lists :=
  let src := path d in
  let ext := Str.lower (PathLib.suffix src) in
  try_except
    (if ext_in ext PDF_EXTS then
       ret (push acc.1 src, push acc.2 ("OK: PDF übernommen: " ++ src))
     else if ext_in ext TXT_EXTS then
       let* pdfp := txt_to_pdf self src tmpdir in
       append_or_log acc pdfp
         ("OK: TXT -> PDF: " ++ src)
         ("Übersprungen (TXT ohne ReportLab): " ++ src)
     else if ext_in ext IMAGE_EXTS then
       let* pdfp := image_to_pdf self src tmpdir in
       append_or_log acc pdfp
         ("OK: Bild -> PDF: " ++ src)
         ("Übersprungen (Bild ohne ReportLab/Pillow): " ++ src)
     else if ext_in ext WORD_EXTS then
       let* pdfp := office_to_pdf self src tmpdir in
       append_or_log acc pdfp
         ("OK: Office -> PDF: " ++ src)
         ("Übersprungen (LibreOffice/Word nicht verfügbar): " ++ src)
     else
       ret (acc.1, push acc.2 ("Übersprungen (nicht unterstützt): " ++ src)))
    (fun e => ret (acc.1, push acc.2 ("Fehler bei " ++ src ++ ": " ++ e))).

Fixpoint collect (tmpdir : string) (docs : list doc) (acc : lists) : M lists :=
  match docs with
  | [] => ret acc
  | d :: rest =>
      let* acc' := process_doc tmpdir acc d in
      collect tmpdir rest acc'
  end.

(** The read-state filter on the documents of the topic. *)
Definition filter_docs (filter_mode : string) (docs : list doc) : list doc :=
  if String.eqb filter_mode "gelesene" then List.filter read docs
  else if String.eqb filter_mode "ungelesene" then List.filter (fun d => negb (read d)) docs
  else docs.

Definition out_path_of (topic filter_mode : string) : string :=
  PathLib.join (desktop_path E) (topic ++ "_" ++ filter_mode ++ ".pdf").

(** The part of the worker that runs once the filtered list is not
    empty. *)
Definition export_docs (docs : list doc) (out_path : string) : M unit :=
  TemporaryDirectory E (fun tmpdir =>
    let* acc := collect tmpdir docs ([], []) in
    match acc.1 with
    | [] => status_info "Keine Dateien konnten in PDF überführt werden."
    | pdf_parts =>
        let* ok := merge_pdfs self pdf_parts out_path in
        if negb ok
        then status_info "Konnte Sammel-PDF nicht erstellen (PDF-Merge-Bibliothek fehlt?)."
        else showinfo "Erfolg" ("Sammel-PDF erstellt:" ++ String Str.nl out_path)
    end).

Definition worker (topics : gmap string (list doc)) (topic filter_mode : string)
  : M unit :=
  _set_busy true ;;
  try_finally
    (let docs := filter_docs filter_mode (list_docs topics topic) in
     match docs with
     | [] => status_info "Keine passenden Dokumente für das Sammel-PDF."
     | _ => export_docs docs (out_path_of topic filter_mode)
     end)
    (_set_busy false).

End Worker.

(** The methods as [App] defines them. *)
Definition App (E : env) : methods :=
  Methods (_txt_to_pdf E) (_image_to_pdf E) (_office_to_pdf E) (_merge_pdfs E).

Definition _create_collection_pdf_worker (E : env)
    (topics : gmap string (list doc)) (topic filter_mode : string) : M unit :=
  worker E (App E) topics topic filter_mode.

(** ** Reading the job result off the notifications

    The worker reports through one message box.  The four messages are
    the job results of the specification. *)

Inductive JobResult :=
| NoInput
| NothingToMerge
| MergeFailed
| Success (summary : string).

Definition job_result_of (title msg : string) : option JobResult :=
  if String.eqb title "Erfolg" then Some (Success msg)
  else if String.eqb msg "Keine passenden Dokumente für das Sammel-PDF." then Some NoInput
  else if String.eqb msg "Keine Dateien konnten in PDF überführt werden." then Some NothingToMerge
  else if String.eqb msg "Konnte Sammel-PDF nicht erstellen (PDF-Merge-Bibliothek fehlt?)."
       then Some MergeFailed
  else None.

Definition job_results (evs : list event) : list JobResult :=
  omap (fun e => match e with
                 | EvInfo title msg => job_result_of title msg
                 | _ => None
                 end) evs.

(** The events a run added to the trace. *)
Definition new_events (w w' : world) : list event :=
  drop (length (events w)) (events w').

(** The temporary directories a run created. *)
Definition created_dirs (evs : list event) : list string :=
  omap (fun e => match e with EvMkdtemp d => Some d | _ => None end) evs.

(** The delegate the loop body calls for an extension; [None] for a PDF
    (taken as it is) and for an unsupported extension (never converted). *)
Definition converter_of (self : methods) (ext : string)
  : option (string -> string -> M (option string)) :=
  if ext_in ext PDF_EXTS then None
  else if ext_in ext TXT_EXTS then Some (txt_to_pdf self)
  else if ext_in ext IMAGE_EXTS then Some (image_to_pdf self)
  else if ext_in ext WORD_EXTS then Some (office_to_pdf self)
  else None.

(** [Path(src).suffix.lower()] of a document *)
Definition ext_of (d : doc) : string := Str.lower (PathLib.suffix (path d)).

(** The log line of a PDF that is taken as it is. *)
Definition pdf_line (d : doc) : string := "OK: PDF übernommen: " ++ path d.

(** The log line of a failed document. *)
Definition failed_line (d : doc) (e : string) : string :=
  "Fehler bei " ++ path d ++ ": " ++ e.

(** ** Pagination, in the words of the specification *)

(** The number of pieces a source line is cut into at [max_chars]
    characters per piece. *)
Definition rows (line : string) : nat :=
  ((String.length line + (max_chars - 1)) / max_chars)%nat.

(** The number of lines the renderer has to draw for a text. *)
Definition text_rows (text : string) : nat :=
  sum_list (map (fun l => rows (Str.rstrip_nl l)) (Str.readlines text)).

(** The height between the top and the bottom margin. *)
Definition printable_height : Z := snd A4 - 2 * margin.

(** The content overflows the printable area at the fixed line height. *)
Definition overflows (text : string) : Prop :=
  Z.of_nat (text_rows text) * line_height > printable_height.

(** The lines a page takes before the cursor crosses the bottom margin. *)
Definition per_page : nat := Z.to_nat (printable_height / line_height + 1).

(** The position of the first line of a page. *)
Definition top : Z := snd A4 - margin.

(** No string of the page is drawn below the bottom margin. *)
Definition above_margin (pg : page) : Prop :=
  Forall (fun o => match o with DrawString _ y _ => margin <= y | _ => True end) pg.

(** The number of strings drawn on a page. *)
Definition draws (pg : page) : nat :=
  length (List.filter (fun o => match o with DrawString _ _ _ => true | _ => false end) pg).

(** The state of the renderer after [n] rows: [q] full pages are
    closed, [r] rows are on the open page, the cursor is [r] lines
    below the top, and nothing was drawn below the bottom margin. *)
Definition paged (n : nat) (cy : canvas * Z) : Prop :=
  (exists q r, n = (per_page * q + r)%nat /\ (r < per_page)%nat /\
      length (c_pages cy.1) = q /\ draws (c_code cy.1) = r /\
      cy.2 = top - Z.of_nat r * line_height) /\
  Forall (fun pg => above_margin pg /\ draws pg = per_page) (c_pages cy.1) /\
  above_margin (c_code cy.1).

(** ** Strategy chains *)

(** Runs the strategies in list order and stops at the first that
    returns a path. *)
Fixpoint first_success (ms : list (M (option string))) : M (option string) :=
  match ms with
  | [] => ret None
  | m :: rest =>
      let* r := m in
      match r with
      | Some out => ret (Some out)
      | None => first_success rest
      end
  end.

(** The world after an engine that produced [outp] was told to write
    [out]. *)
Definition engine_world (E : env) (outp : option (list page)) (out : string)
    (w : world) : world :=
  match outp with
  | Some pages => set_files (insert out (pdf_file E pages)) w
  | None => w
  end.

(** [p] exists in the file system of [w]. *)
Definition exists_in (w : world) (p : string) : bool :=
  bool_decide (is_Some (files w !! p)).

(** The page of an image under the reportlab strategy and under the
    Pillow strategy. *)
Definition reportlab_image_pages (img : image) : list page :=
  let width := inject_Z (fst A4) in
  let height := inject_Z (snd A4) in
  let max_w := Qminus width (inject_Z (2 * cm)) in
  let max_h := Qminus height (inject_Z (2 * cm)) in
  let scale := Qmin (Qdiv max_w (inject_Z (iw img))) (Qdiv max_h (inject_Z (ih img))) in
  let w := Qmult (inject_Z (iw img)) scale in
  let h := Qmult (inject_Z (ih img)) scale in
  [[DrawImage img (Qdiv (Qminus width w) (inject_Z 2))
      (Qdiv (Qminus height h) (inject_Z 2)) w h]].

Definition pillow_image_pages (img : image) : list page := [[Raster img 150]].

(** ** Frames *)

(** Between [w] and [w'] nothing but the file [out] changed. *)
Definition only_touches (out : string) (w w' : world) : Prop :=
  events w' = events w /\ forall p, p <> out -> files w' !! p = files w !! p.

(** What a strategy of the image renderer leaves: nothing but [out]
    touched, and [out] returned only with a page of the picture in it. *)
Definition image_post (E : env) (path out : string) (w w' : world)
    (r : option string) : Prop :=
  only_touches out w w' /\
  (r = None \/
   r = Some out /\
     exists f img, files w !! path = Some f /\ as_image f = Some img /\
       (files w' !! out = Some (pdf_file E (reportlab_image_pages img)) \/
        files w' !! out = Some (pdf_file E (pillow_image_pages img)))).

(** ** Temporary names *)

Inductive category := CatText | CatImage | CatOffice.

Definition category_suffix (c : category) : string :=
  match c with
  | CatText => "_txt.pdf"
  | CatImage => "_img.pdf"
  | CatOffice => ".pdf"
  end.

(** The temporary PDF of a source file of category [c]. *)
Definition temp_pdf (c : category) (tmpdir path : string) : string :=
  PathLib.join tmpdir (PathLib.stem path ++ category_suffix c).

(** ** Outcomes of the loop and of the merge *)

(** A log line that reports a merged document. *)
Definition is_ok (line : string) : bool := String.prefix "OK: " line.

(** The category of the extensions that are converted. *)
Definition category_of (ext : string) : option category :=
  if ext_in ext TXT_EXTS then Some CatText
  else if ext_in ext IMAGE_EXTS then Some CatImage
  else if ext_in ext WORD_EXTS then Some CatOffice
  else None.

(** The entry a merged document has in the merge list: its own path for
    a PDF, its temporary PDF otherwise. *)
Definition part_of (tmpdir : string) (d : doc) : string :=
  if ext_in (ext_of d) PDF_EXTS then path d
  else match category_of (ext_of d) with
       | Some c => temp_pdf c tmpdir (path d)
       | None => path d
       end.

(** [Outcomes tmpdir docs log parts]: [log] has one line per document of
    [docs], in order, and [parts] has one entry for each document whose
    line reports it merged, no other entry, in the same order. *)
Inductive Outcomes (tmpdir : string) : list doc -> list string -> list string -> Prop :=
| Outcomes_nil : Outcomes tmpdir [] [] []
| Outcomes_merged d docs line log parts :
    is_ok line = true ->
    Outcomes tmpdir docs log parts ->
    Outcomes tmpdir (d :: docs) (line :: log) (part_of tmpdir d :: parts)
| Outcomes_other d docs line log parts :
    is_ok line = false ->
    Outcomes tmpdir docs log parts ->
    Outcomes tmpdir (d :: docs) (line :: log) parts.

(** The pages [merger.append(p)] adds to the merger when the files are
    [fs]: those of [p], or none when the call raises. *)
Definition appended (E : env) (fs : gmap string file) (p : string) : list page :=
  match fault E (OpRead p) with
  | Some _ => []
  | None =>
      match fs !! p with
      | Some f => default [] (as_pdf f)
      | None => []
      end
  end.

(** The pages of a merge of [parts]. *)
Definition merged_pages (E : env) (fs : gmap string file) (parts : list string) : list page :=
  concat (map (appended E fs) parts).

(** [merger.append(p)] raises. *)
Definition append_fails (E : env) (fs : gmap string file) (p : string) : Prop :=
  fault E (OpRead p) <> None \/ fs !! p = None \/
  exists f, fs !! p = Some f /\ as_pdf f = None.

(** Between [w] and [w'] no event was added and no file outside the
    directory [d] changed. *)
Definition outside (d : string) (w w' : world) : Prop :=
  events w' = events w /\
  forall p, PathLib.under d p = false -> files w' !! p = files w !! p.

(** ** The run of a job *)

(** How far the merge step gets for an output path. *)
Inductive merge_outcome :=
| MergeNoEngine
| MergeCannotOpen
| MergeBrokeOff
| MergeWritten.

Definition merge_outcome_of (E : env) (out : string) : merge_outcome :=
  if negb (PdfMerger E) then MergeNoEngine
  else match fault E (OpCreate out) with
       | Some _ => MergeCannotOpen
       | None =>
           match fault E (OpWrite out) with
           | Some _ => MergeBrokeOff
           | None => MergeWritten
           end
       end.

(** The messages of the worker. *)
Definition msg_no_input : string := "Keine passenden Dokumente für das Sammel-PDF.".
Definition msg_nothing : string := "Keine Dateien konnten in PDF überführt werden.".
Definition msg_merge_failed : string :=
  "Konnte Sammel-PDF nicht erstellen (PDF-Merge-Bibliothek fehlt?).".
Definition msg_success (out : string) : string :=
  "Sammel-PDF erstellt:" ++ String Str.nl out.

(** The world in which the loop of the worker starts. *)
Definition loop_start (E : env) (w : world) : world :=
  emit (EvMkdtemp (mkdtemp E)) (emit (EvBusy true) w).

(** The loop as the worker runs it on the documents [docs]. *)
Definition collected (E : env) (docs : list doc) (w : world) : res lists * world :=
  collect (App E) (mkdtemp E) docs ([], []) (loop_start E w).

(** The world after the steps that follow the loop, for the merge list
    [parts] and the world [w1] the loop ended in. *)
Definition after_loop (E : env) (out : string) (parts : list string) (w1 : world) : world :=
  match parts with
  | [] => emit (EvInfo "Info" msg_nothing) w1
  | _ =>
      match merge_outcome_of E out with
      | MergeWritten =>
          emit (EvInfo "Erfolg" (msg_success out))
            (set_files (insert out (pdf_file E (merged_pages E (files w1) parts))) w1)
      | MergeBrokeOff =>
          emit (EvInfo "Info" msg_merge_failed) (set_files (insert out truncated) w1)
      | _ => emit (EvInfo "Info" msg_merge_failed) w1
      end
  end.

(** The title and text of the message a run on a non-empty list ends
    with. *)
Definition notification (E : env) (out : string) (parts : list string) : string * string :=
  match parts with
  | [] => ("Info", msg_nothing)
  | _ =>
      match merge_outcome_of E out with
      | MergeWritten => ("Erfolg", msg_success out)
      | _ => ("Info", msg_merge_failed)
      end
  end.

(** The end of the worker: the temporary directory goes, the busy
    cursor is reset. *)
Definition finish (E : env) (w : world) : world :=
  emit (EvBusy false) (emit (EvRmtree (mkdtemp E)) (set_files (rmtree (mkdtemp E)) w)).

(** ** Conversions by category *)

(** The converter of a category. *)
Definition converter (E : env) (c : category) : string -> string -> M (option string) :=
  match c with
  | CatText => _txt_to_pdf E
  | CatImage => _image_to_pdf E
  | CatOffice => _office_to_pdf E
  end.


(** The conversion of [src] in the world [w] succeeds and writes the
    pages [X] to the temporary file. *)
Definition writes (E : env) (c : category) (tmpdir src : string) (w : world)
    (X : list page) : Prop :=
  converter E c src tmpdir w =
  (Ok (Some (temp_pdf c tmpdir src)),
   set_files (insert (temp_pdf c tmpdir src) (pdf_file E X)) w).

(** ** The [try] blocks of the renderers *)

(** What [_txt_to_pdf] runs inside its [try]: an exception that leaves
    this block is the error its [except] branch catches. *)
Definition txt_try (E : env) (path out : string) : M (option string) :=
  let* f := fs_read E path in
  let c := render_text out (as_text f) in
  save E c ;;
  ret (Some out).

(** The first [try] block of [_image_to_pdf]. *)
Definition reportlab_try (E : env) (path out : string) : M (option string) :=
  let* img := read_image E path in
  let* c := image_canvas out img in
  save E c ;;
  ret (Some out).

(** The second [try] block of [_image_to_pdf]. *)
Definition pillow_try (E : env) (path out : string) : M (option string) :=
  let* img := read_image E path in
  pil_save E img out ;;
  ret (Some out).

(** ** The catalog: [State] *)

Definition SUPPORTED_EXTS : list string :=
  [".txt"; ".doc"; ".docx"; ".pdf"; ".odt"; ".rtf"; ".jpg"; ".jpeg"; ".gif"; ".png"].

Module State.

(** The two attributes of a [State] object.  The state file and its
    JSON encoding ([load], [save]) are not part of the model. *)
Record t := Make {
  topics : gmap string (list doc);
  current_topic : option string
}.

(** [if topic not in self.topics: self.topics[topic] = []] *)
Definition ensure_topic (s : t) (topic : string) : t :=
  match topics s !! topic with
  | Some _ => s
  | None => Make (<[topic := []]> (topics s)) (current_topic s)
  end.

(** [os.path.isfile(p)] *)
Definition isfile (w : world) (p : string) : bool := bool_decide (is_Some (files w !! p)).

(** The test of the loop of [add_docs]; [known] is the set of paths
    computed before the loop and is not updated inside it. *)
Definition accepts (w : world) (known : list string) (p : string) : bool :=
  isfile w p && ext_in (Str.lower (PathLib.suffix p)) SUPPORTED_EXTS
  && negb (bool_decide (p ∈ known)).

(** [for p in paths: if ...: self.topics[topic].append(...); added += 1] *)
Fixpoint add_loop (w : world) (known paths : list string) (docs : list doc)
    (added : nat) : list doc * nat :=
  match paths with
  | [] => (docs, added)
  | p :: rest =>
      if accepts w known p
      then add_loop w known rest (docs ++ [Doc p false]) (S added)
      else add_loop w known rest docs added
  end.

Definition add_docs (w : world) (s : t) (topic : string) (paths : list string) : t * nat :=
  let s := ensure_topic s topic in
  let docs := list_docs (topics s) topic in
  let known := map path docs in
  let r := add_loop w known paths docs 0 in
  (Make (<[topic := r.1]> (topics s)) (current_topic s), r.2).

(** [self.topics[topic] = [d for d in self.topics.get(topic, [])
    if d["path"] != path]] *)
Definition remove_doc (s : t) (topic p : string) : t :=
  Make (<[topic := List.filter (fun d => negb (String.eqb (path d) p))
                     (list_docs (topics s) topic)]> (topics s))
       (current_topic s).

(** [d["read"] = is_read] on a document of path [p] *)
Definition mark (p : string) (is_read : bool) (d : doc) : doc :=
  if String.eqb (path d) p then Doc (path d) is_read else d.

(** [for d in self.topics.get(topic, []): if d["path"] == path:
    d["read"] = is_read] *)
Definition set_read (s : t) (topic p : string) (is_read : bool) : t :=
  match topics s !! topic with
  | Some docs => Make (<[topic := map (mark p is_read) docs]> (topics s)) (current_topic s)
  | None => s
  end.

End State.

(** A document the export loop does not skip as unsupported. *)
Definition exportable (d : doc) : Prop :=
  ext_in (ext_of d) PDF_EXTS = true \/ exists c, category_of (ext_of d) = Some c.

(** ** Dropped paths: [_split_dnd_paths] *)

Module Dnd.

(** The characters [str.strip()] removes, among the characters of code
    below 256 (a string is read as the sequence of its characters). *)
Definition is_space (a : ascii) : bool :=
  let n := nat_of_ascii a in
  ((9 <=? n) && (n <=? 13) || (28 <=? n) && (n <=? 32)
   || (n =? 133) || (n =? 160))%nat%bool.

Fixpoint lstrip (s : string) : string :=
  match s with
  | EmptyString => EmptyString
  | String a s' => if is_space a then lstrip s' else s
  end.

Fixpoint rstrip (s : string) : string :=
  match s with
  | EmptyString => EmptyString
  | String a s' =>
      match rstrip s' with
      | EmptyString => if is_space a then EmptyString else String a EmptyString
      | r => String a r
      end
  end.

(** [s.strip()] *)
Definition strip (s : string) : string := lstrip (rstrip s).

(** [if s:] on a string *)
Definition nonempty (s : string) : bool :=
  match s with
  | EmptyString => false
  | _ => true
  end.

(** The loop [for ch in data] with its three variables, and the
    [if cur: res.append("".join(cur))] that follows it. *)
Fixpoint split_loop (data : string) (res : list string) (cur : string)
    (in_brace : bool) : list string :=
  match data with
  | EmptyString => if nonempty cur then (res ++ [cur])%list else res
  | String ch rest =>
      if Ascii.eqb ch "{" then split_loop rest res EmptyString true
      else if Ascii.eqb ch "}" then split_loop rest (res ++ [cur])%list EmptyString false
      else if (Ascii.eqb ch " " && negb in_brace)%bool then
        if nonempty cur then split_loop rest (res ++ [cur])%list EmptyString in_brace
        else split_loop rest res cur in_brace
      else split_loop rest res (cur ++ String ch EmptyString) in_brace
  end.

(** [[p.strip() for p in res if p.strip()]] *)
Definition clean (res : list string) : list string :=
  map strip (List.filter (fun p => nonempty (strip p)) res).

Definition _split_dnd_paths (data : string) : list string :=
  clean (split_loop data [] EmptyString false).

(** The way a list of paths arrives in a drop event: an item with a
    space stands in braces, the items are separated by one space. *)
Definition has_char (c : ascii) (s : string) : bool :=
  existsb (Ascii.eqb c) (list_ascii_of_string s).

Definition item (p : string) : string :=
  if has_char " " p then "{" ++ p ++ "}" else p.

Fixpoint items (ps : list string) : string :=
  match ps with
  | [] => EmptyString
  | [p] => item p
  | p :: rest => item p ++ " " ++ items rest
  end.

(** A path that survives the way through a drop event: not empty, no
    brace in it, no white space at either end. *)
Definition plain (p : string) : Prop :=
  p <> EmptyString /\ has_char "{" p = false /\ has_char "}" p = false /\ strip p = p.

End Dnd.

(** ** Documents no tool can convert *)

(** No converter of this installation produces a PDF for the document:
    it is no PDF, and it is of no supported class, or a text without
    reportlab, or an image without reportlab and Pillow, or an office file
    with no LibreOffice on the search path and no Windows. *)
Definition no_tool (E : env) (d : doc) : Prop :=
  ext_in (ext_of d) PDF_EXTS = false /\
  match category_of (ext_of d) with
  | None => True
  | Some CatText => REPORTLAB_AVAILABLE E = false
  | Some CatImage => REPORTLAB_AVAILABLE E = false /\ PIL_AVAILABLE E = false
  | Some CatOffice =>
      which E "soffice" = false /\ which E "libreoffice" = false /\
      String.eqb (platform_system E) "Windows" = false
  end.

(** ** What the text renderer draws *)

(** The strings drawn on a page, in the order of the drawing. *)
Definition strings_of (pg : page) : list string :=
  omap (fun o => match o with DrawString _ _ s => Some s | _ => None end) pg.

(** The strings a canvas holds, closed pages first. *)
Definition drawn (c : canvas) : list string :=
  (concat (map strings_of (c_pages c)) ++ strings_of (c_code c))%list.

(** The characters of a list of strings, in order. *)
Definition joined (l : list string) : string :=
  fold_right String.append EmptyString l.

(** The pieces of one line: they make up the line, there is one for
    each row, none is empty and none is longer than [max_chars]. *)
Definition pieces_of (line : string) (ps : list string) : Prop :=
  joined ps = line /\ length ps = rows line /\
  Forall (fun s => (1 <= String.length s <= max_chars)%nat) ps.

(** A page of the text renderer: the font is set first, and every string
    starts at the left margin. *)
Definition text_page (pg : page) : Prop :=
  head pg = Some (SetFont "Helvetica" 11) /\
  Forall (fun o => match o with
                   | SetFont f s => f = "Helvetica" /\ s = 11
                   | DrawString x _ _ => x = margin
                   | _ => False
                   end) pg.

(** The pages of a canvas of the text renderer, the open one among
    them. *)
Definition text_canvas (c : canvas) : Prop :=
  Forall text_page (c_pages c) /\ text_page (c_code c).

(** ** [human_size] *)

(** The decimal digits of an integer, as [str] and the format
    specifications write them. *)
Definition decimal (z : Z) : string := NilZero.string_of_int (Z.to_int z).

(** The integer nearest to [num / den], the even one of two that are
    equally near: the rounding of the float formatting. *)
Definition round_half_even (num den : Z) : Z :=
  let q := num / den in
  let r2 := 2 * (num mod den) in
  if r2 <? den then q
  else if den <? r2 then q + 1
  else if Z.even q then q else q + 1.

(** [f"{x:.1f}"] for the number of tenths it rounds [x] to *)
Definition fixed1 (tenths : Z) : string :=
  decimal (tenths / 10) ++ "." ++ decimal (tenths mod 10).

Definition UNITS : list string := ["B"; "KB"; "MB"; "GB"].

(** The loop [for unit in ["B", "KB", "MB", "GB"]], with the number kept
    as the fraction [n / den]: a size below 2^53 and its quotients by
    1024 are floats without rounding error.  The result is the number
    of tenths shown and the unit. *)
Fixpoint human_loop (units : list string) (n den : Z) : Z * string :=
  match units with
  | [] => (round_half_even (10 * n) den, "TB")
  | unit :: rest =>
      if n <? 1024 * den then (round_half_even (10 * n) den, unit)
      else human_loop rest n (1024 * den)
  end.

Definition human_parts (num_bytes : Z) : Z * string := human_loop UNITS num_bytes 1.

Definition human_size (num_bytes : Z) : string :=
  fixed1 (human_parts num_bytes).1 ++ " " ++ (human_parts num_bytes).2.

(** ** The handlers of the window *)

(** The handlers work on the catalog and on three widgets.  Of the
    widgets the model keeps what the handlers read back or what can make
    a handler fail: the items of the topic list (as a set: a handler
    reads the selected item, never a position), and the item ids of the
    rows of the document tree (the path of the document).  It records
    the state handed to [State.save] last and the message boxes shown.
    The preview is display only and left out. *)

Module Gui.

Inductive note :=
| ShowWarning (title msg : string)
| ShowInfo (title msg : string).

Record t := Make {
  state_model : State.t;
  topic_list : gset string;
  doc_tree : list string;
  saved : option State.t;
  notes : list note
}.

Definition set_state (s : State.t) (g : t) : t :=
  Make s (topic_list g) (doc_tree g) (saved g) (notes g).

Definition set_tree (rows : list string) (g : t) : t :=
  Make (state_model g) (topic_list g) rows (saved g) (notes g).

(** [self.state_model.save()] *)
Definition save (g : t) : t :=
  Make (state_model g) (topic_list g) (doc_tree g) (Some (state_model g)) (notes g).

Definition show (n : note) (g : t) : t :=
  Make (state_model g) (topic_list g) (doc_tree g) (saved g) (notes g ++ [n]).

(** [if s:] on a value that is a string or [None]: the string, when it
    is there and not empty. *)
Definition truthy (s : option string) : option string :=
  match s with
  | Some (String a r) => Some (String a r)
  | _ => None
  end.

(** A handler returns or raises, and leaves the window in a state. *)
Definition outcome : Type := res unit * t.

Definition done (g : t) : outcome := (Ok tt, g).

Definition _reload_topics (g : t) : t :=
  Make (state_model g) (dom (State.topics (state_model g))) (doc_tree g) (saved g) (notes g).

Section Toolkit.

(** [doc_tree.insert("", "end", iid=path, ...)] on a tree that holds the
    rows [rows]: the error it raises, if it raises. *)
Variable insert_error : list string -> string -> option string.

(** The loop [for d in self.state_model.list_docs(topic)] *)
Fixpoint insert_rows (docs : list doc) (rows : list string) : res unit * list string :=
  match docs with
  | [] => (Ok tt, rows)
  | d :: rest =>
      match insert_error rows (path d) with
      | Some e => (Raise e, rows)
      | None => insert_rows rest (rows ++ [path d])
      end
  end.

Definition _reload_docs (g : t) : outcome :=
  match truthy (State.current_topic (state_model g)) with
  | None => (Ok tt, set_tree [] g)
  | Some topic =>
      let r := insert_rows (list_docs (State.topics (state_model g)) topic) [] in
      (r.1, set_tree r.2 g)
  end.

Definition _select_topic (topic : string) (g : t) : outcome :=
  _reload_docs (set_state (State.Make (State.topics (state_model g)) (Some topic)) g).

(** [sel] is the selected item of the topic list, if one is selected. *)
Definition on_topic_select (sel : option string) (g : t) : outcome :=
  match sel with
  | None => done g
  | Some topic =>
      match _select_topic topic g with
      | (Ok _, g') => done (save g')
      | r => r
      end
  end.

(** [answer] is what the dialog returned: [None] when it was
    cancelled. *)
Definition add_topic (answer : option string) (g : t) : outcome :=
  match truthy answer with
  | None => done g
  | Some name =>
      match truthy (Some (Dnd.strip name)) with
      | None => done g
      | Some name =>
          if bool_decide (is_Some (State.topics (state_model g) !! name)) then
            done (show (ShowWarning "Hinweis" "Thema existiert bereits.") g)
          else
            let g := set_state (State.ensure_topic (state_model g) name) g in
            _select_topic name (_reload_topics (save g))
      end
  end.

Definition rename_topic (sel answer : option string) (g : t) : outcome :=
  match sel with
  | None => done g
  | Some old =>
      match truthy answer with
      | None => done g
      | Some new =>
          let new := Dnd.strip new in
          if (negb (Dnd.nonempty new) || String.eqb new old)%bool then done g
          else if bool_decide (is_Some (State.topics (state_model g) !! new)) then
            done (show (ShowWarning "Hinweis" "Ein Thema mit diesem Namen existiert bereits.") g)
          else
            let s := state_model g in
            match State.topics s !! old with
            | None => (Raise ("KeyError: " ++ old), g)
            | Some docs =>
                let topics := <[new := docs]> (delete old (State.topics s)) in
                let current :=
                  if bool_decide (State.current_topic s = Some old) then Some new
                  else State.current_topic s in
                let g := set_state (State.Make topics current) g in
                _select_topic new (_reload_topics (save g))
            end
      end
  end.

(** [confirm] is the answer to the question the handler asks. *)
Definition delete_topic (sel : option string) (confirm : bool) (g : t) : outcome :=
  match sel with
  | None => done g
  | Some topic =>
      if confirm then
        let s := state_model g in
        let current :=
          if bool_decide (State.current_topic s = Some topic) then None
          else State.current_topic s in
        let g := set_state (State.Make (delete topic (State.topics s)) current) g in
        done (set_tree [] (_reload_topics (save g)))
      else done g
  end.

(** [w] is the file system at the time of the call, [paths] what the
    file dialog returned. *)
Definition add_files_dialog (w : world) (paths : list string) (g : t) : outcome :=
  match truthy (State.current_topic (state_model g)) with
  | None => done (show (ShowInfo "Hinweis" "Bitte zuerst ein Thema auswählen.") g)
  | Some topic =>
      match paths with
      | [] => done g
      | _ =>
          let r := State.add_docs w (state_model g) topic paths in
          match _reload_docs (save (set_state r.1 g)) with
          | (Ok _, g') =>
              if (r.2 =? 0)%nat
              then done (show (ShowInfo "Hinweis" "Keine neuen unterstützten Dateien hinzugefügt.") g')
              else done g'
          | e => e
          end
      end
  end.

Definition on_drop (w : world) (data : string) (g : t) : outcome :=
  match truthy (State.current_topic (state_model g)) with
  | None => done g
  | Some topic =>
      let paths := Dnd._split_dnd_paths data in
      let r := State.add_docs w (state_model g) topic paths in
      match _reload_docs (save (set_state r.1 g)) with
      | (Ok _, g') =>
          if (r.2 =? 0)%nat
          then done (show (ShowInfo "Info"
                       "Keine neuen unterstützten Dateien per Drag&Drop hinzugefügt.") g')
          else done g'
      | e => e
      end
  end.

(** [sel] is the item id of the selected row of the document tree, if
    one is selected. *)
Definition set_selected_read (sel : option string) (is_read : bool) (g : t) : outcome :=
  match truthy (State.current_topic (state_model g)), sel with
  | Some topic, Some p =>
      _reload_docs (save (set_state (State.set_read (state_model g) topic p is_read) g))
  | _, _ => done g
  end.

Definition remove_selected_doc (sel : option string) (confirm : bool) (g : t) : outcome :=
  match truthy (State.current_topic (state_model g)), sel with
  | Some topic, Some p =>
      if confirm then
        _reload_docs (save (set_state (State.remove_doc (state_model g) topic p) g))
      else done g
  | _, _ => done g
  end.

(** What the user does, with the answers of the dialogs and the file
    system of the moment. *)
Inductive action :=
| SelectTopic (sel : option string)
| AddTopic (answer : option string)
| RenameTopic (sel answer : option string)
| DeleteTopic (sel : option string) (confirm : bool)
| AddFiles (w : world) (paths : list string)
| DropData (w : world) (data : string)
| SetRead (sel : option string) (is_read : bool)
| RemoveDoc (sel : option string) (confirm : bool).

Definition handle (a : action) (g : t) : outcome :=
  match a with
  | SelectTopic sel => on_topic_select sel g
  | AddTopic answer => add_topic answer g
  | RenameTopic sel answer => rename_topic sel answer g
  | DeleteTopic sel confirm => delete_topic sel confirm g
  | AddFiles w paths => add_files_dialog w paths g
  | DropData w data => on_drop w data g
  | SetRead sel is_read => set_selected_read sel is_read g
  | RemoveDoc sel confirm => remove_selected_doc sel confirm g
  end.

(** The window after a sequence of actions: an exception of a handler is
    reported and the main loop goes on. *)
Fixpoint run (actions : list action) (g : t) : t :=
  match actions with
  | [] => g
  | a :: rest => run rest (handle a g).2
  end.

End Toolkit.

(** The window of an empty catalog: [State()] with nothing loaded. *)
Definition empty : t := Make (State.Make ∅ None) ∅ [] None [].

(** Every document of the catalog has a supported extension. *)
Definition all_supported (s : State.t) : Prop :=
  forall topic docs, State.topics s !! topic = Some docs ->
    Forall (fun d => ext_in (ext_of d) SUPPORTED_EXTS = true) docs.

(** The items of the topic list are topics of the catalog. *)
Definition listed_topics_exist (g : t) : Prop :=
  topic_list g ⊆ dom (State.topics (state_model g)).

(** The topic an action of the topic list picks, if it picks one. *)
Definition picked (a : action) : option string :=
  match a with
  | SelectTopic sel | RenameTopic sel _ | DeleteTopic sel _ => sel
  | _ => None
  end.

(** What a handler can make of the catalog. *)
Inductive change (s : State.t) : State.t -> Prop :=
| change_current c : change s (State.Make (State.topics s) c)
| change_new name c :
    State.topics s !! name = None ->
    change s (State.Make (<[name := []]> (State.topics s)) c)
| change_rename old new docs c :
    State.topics s !! old = Some docs -> State.topics s !! new = None ->
    change s (State.Make (<[new := docs]> (delete old (State.topics s))) c)
| change_delete topic c :
    change s (State.Make (delete topic (State.topics s)) c)
| change_add w topic paths :
    change s (State.add_docs w s topic paths).1
| change_read topic p b :
    change s (State.set_read s topic p b)
| change_remove topic p :
    change s (State.remove_doc s topic p).

(** The state handed to [save] last has the topics of the catalog. *)
Definition topics_saved (g : t) : Prop :=
  exists s, saved g = Some s /\ State.topics s = State.topics (state_model g).

(** The three facts a step of the window is judged by: what became of
    the catalog, of the topic list, and of the saved state. *)
Definition stepped (g g' : t) : Prop :=
  let s := state_model g in
  let s' := state_model g' in
  change s s' /\
  (topic_list g' = dom (State.topics s') \/
   topic_list g' = topic_list g /\ dom (State.topics s) ⊆ dom (State.topics s')) /\
  (State.topics s' = State.topics s /\ saved g' = saved g \/ topics_saved g').

(** The rule of the tree of the toolkit: an item id is used once. *)
Definition unique_ids (rows : list string) (iid : string) : option string :=
  if bool_decide (iid ∈ rows) then Some ("Item " ++ iid ++ " already exists") else None.

End Gui.

(** * Properties *)

(** ** Sample environment *)

Module Sample.

Definition quiet_engine : engine_result := Engine None 0 None.

(** Every library present, no office engine, nothing breaks. *)
Definition E : env :=
  Env true true true (fun _ => false) "Linux" "/home/u" true "/tmp/tmpx"
    (fun _ => None) (fun _ => "%PDF")
    (fun _ _ _ => quiet_engine) (fun _ _ => quiet_engine).

Definition pg (s : string) : page := [DrawString 0 0 s].

Definition a_pdf : file := File "%PDF" (Some [pg "a1"; pg "a2"]) None.
Definition b_pdf : file := File "%PDF" (Some [pg "b1"]) None.

Definition fs : gmap string file :=
  <["/d/a.pdf" := a_pdf]> (<["/d/b.pdf" := b_pdf]> ∅).

Definition w : world := World fs [].

Definition topics : gmap string (list doc) :=
  {[ "T" := [Doc "/d/b.pdf" true; Doc "/d/a.pdf" false] ]}.

(** An office engine that reports exit status 1 and yet writes its
    output. *)
Definition E_office : env :=
  Env true true true (String.eqb "soffice") "Linux" "/home/u" true "/tmp/tmpx"
    (fun _ => None) (fun _ => "%PDF")
    (fun _ _ _ => Engine None 1 (Some [pg "doc"])) (fun _ _ => quiet_engine).

(** No reportlab. *)
Definition E_bare : env :=
  Env false true true (fun _ => false) "Linux" "/home/u" true "/tmp/tmpx"
    (fun _ => None) (fun _ => "%PDF")
    (fun _ _ _ => quiet_engine) (fun _ _ => quiet_engine).

(** Writing to [p] breaks off. *)
Definition E_write_fault (p : string) : env :=
  Env true false true (fun _ => false) "Linux" "/home/u" true "/tmp/tmpx"
    (fun o => match o with
              | OpWrite q => if String.eqb q p then Some "No space left on device" else None
              | _ => None
              end)
    (fun _ => "%PDF")
    (fun _ _ _ => quiet_engine) (fun _ _ => quiet_engine).

Definition c_png : file := File "" None (Some (Img 100 200 7)).

Definition w_img : world := World (<["/d/c.png" := c_png]> fs) [].


(** The output path of topic T with the filter alle, and a world in
    which a file is already there. *)
Definition out : string := "/home/u/Desktop/T_alle.pdf".


(** Two files with the extension of a PDF that no PDF reader can
    parse. *)
Definition junk : file := File "junk" None None.

Definition w_junk : world :=
  World (<["/d/a.pdf" := junk]> (<["/d/b.pdf" := junk]> ∅)) [].



(** A text of [n] lines. *)
Fixpoint text_of_lines (n : nat) : string :=
  match n with
  | O => EmptyString
  | S n' => "line" ++ String Str.nl (text_of_lines n')
  end.

Definition txt (n : nat) : file := File (text_of_lines n) None None.

Definition w_txt (n : nat) : world := World (<["/d/n.txt" := txt n]> fs) [].

(** Opening [p] for writing fails, as it does when its directory does
    not exist. *)
Definition E_open_fault (p : string) : env :=
  Env true true true (fun _ => false) "Linux" "/home/u" true "/tmp/tmpx"
    (fun o => match o with
              | OpCreate q => if String.eqb q p then Some "No such file or directory" else None
              | _ => None
              end)
    (fun _ => "%PDF")
    (fun _ _ _ => quiet_engine) (fun _ _ => quiet_engine).


End Sample.

(** ** Paths and lines on examples *)

Example stem_ex : PathLib.stem "/home/u/docs/Report.final.TXT" = "Report.final".
Proof. reflexivity. Qed.

Example suffix_ex : Str.lower (PathLib.suffix "/home/u/docs/Report.final.TXT") = ".txt".
Proof. reflexivity. Qed.

Example suffix_hidden_ex : PathLib.suffix "/home/u/.bashrc" = "".
Proof. reflexivity. Qed.

Example readlines_ex :
  Str.readlines ("ab" ++ String Str.nl (String Str.nl "c")) =
  ["ab" ++ String Str.nl ""; String Str.nl ""; "c"].
Proof. reflexivity. Qed.

Example rstrip_ex : Str.rstrip_nl ("ab" ++ String Str.nl "") = "ab".
Proof. reflexivity. Qed.

Example temp_pdf_ex : temp_pdf CatText "/tmp/tmpx" "/home/u/docs/Report.final.TXT"
                      = "/tmp/tmpx/Report.final_txt.pdf".
Proof. reflexivity. Qed.

(** ** Frames *)

Section Frames.

Lemma only_touches_refl out w : only_touches out w w.
Proof. split; auto. Qed.

Lemma only_touches_trans out w1 w2 w3 :
  only_touches out w1 w2 -> only_touches out w2 w3 -> only_touches out w1 w3.
Proof.
  intros [He1 Hf1] [He2 Hf2]. split; [congruence|].
  intros p Hp. rewrite Hf2, Hf1; auto.
Qed.

Lemma only_touches_insert out (f : file) w :
  only_touches out w (set_files (insert out f) w).
Proof.
  split; [reflexivity|]. intros p Hp. cbn [set_files files].
  apply lookup_insert_ne. congruence.
Qed.

Lemma only_touches_delete out w :
  only_touches out w (set_files (delete out) w).
Proof.
  split; [reflexivity|]. intros p Hp. cbn [set_files files].
  apply lookup_delete_ne. congruence.
Qed.

End Frames.

Ltac frame_insert :=
  split; [reflexivity|];
  let p := fresh "p" in let Hp := fresh "Hp" in
  intros p Hp; cbn [set_files files];
  rewrite ?lookup_insert_ne by congruence; reflexivity.

(** ** Paths *)

Section Paths.

Lemma rsplit_none_head c a s : Str.rsplit c (String a s) = None -> a <> c.
Proof.
  cbn. destruct (Str.rsplit c s) as [[pre suf]|]; [discriminate|].
  destruct (Ascii.eqb_spec a c); [discriminate|auto].
Qed.

Lemma rsplit_suffix c s : forall pre suf,
  Str.rsplit c s = Some (pre, suf) ->
  s = pre ++ suf /\ exists rest, suf = String c rest /\ Str.rsplit c rest = None.
Proof.
  induction s as [|a s IH]; intros pre suf; cbn; [discriminate|].
  destruct (Str.rsplit c s) as [[p q]|] eqn:Hr.
  - intros [= <- <-]. destruct (IH p q eq_refl) as (-> & Hrest).
    split; [reflexivity|exact Hrest].
  - destruct (Ascii.eqb_spec a c) as [->|]; [|discriminate].
    intros [= <- <-]. split; [reflexivity|]. eauto.
Qed.

Lemma name_head p a s : PathLib.name p = String a s -> a <> "/"%char.
Proof.
  unfold PathLib.name. destruct (Str.rsplit "/" p) as [[pre suf]|] eqn:Hr.
  - apply rsplit_suffix in Hr as (_ & rest & -> & Hnone).
    intros ->. eapply rsplit_none_head, Hnone.
  - intros ->. eapply rsplit_none_head, Hr.
Qed.

Lemma stem_head p a s : PathLib.stem p = String a s -> a <> "/"%char.
Proof.
  unfold PathLib.stem, PathLib.split_ext.
  destruct (Str.rsplit "." (PathLib.name p)) as [[pre suf]|] eqn:Hr.
  - apply rsplit_suffix in Hr as (Hname & _).
    destruct pre as [|a0 pre]; [cbn; apply name_head|].
    destruct suf as [|d [|b suf]]; cbn; try apply name_head.
    intros [= <- <-]. eapply name_head. rewrite Hname. reflexivity.
  - cbn. apply name_head.
Qed.

Lemma append_cons a (s t : string) : String a s ++ t = String a (s ++ t).
Proof. reflexivity. Qed.

Lemma join_relative d a x :
  a <> "/"%char -> PathLib.join d (String a x) = d ++ "/" ++ String a x.
Proof.
  intros Ha. unfold PathLib.join.
  destruct a as [[] [] [] [] [] [] [] []]; try reflexivity. contradiction.
Qed.

(** The temporary name is the work directory, a slash, the stem and
    the suffix of the category. *)
Lemma temp_pdf_eq c tmpdir p :
  temp_pdf c tmpdir p = tmpdir ++ "/" ++ PathLib.stem p ++ category_suffix c.
Proof.
  unfold temp_pdf. destruct (PathLib.stem p) as [|a s] eqn:Hs.
  - destruct c; reflexivity.
  - rewrite append_cons. apply join_relative. eapply stem_head, Hs.
Qed.

Lemma append_assoc3 (s t u : string) : (s ++ t) ++ u = s ++ t ++ u.
Proof.
  induction s as [|a s IH]; [reflexivity|].
  rewrite !append_cons. congruence.
Qed.

Lemma prefix_app s t : String.prefix s (s ++ t) = true.
Proof.
  induction s as [|a s IH]; [destruct t; reflexivity|].
  rewrite append_cons.
  change (match ascii_dec a a with
          | left _ => String.prefix s (s ++ t)
          | right _ => false
          end = true).
  destruct (ascii_dec a a); [exact IH|contradiction].
Qed.

Lemma temp_under c tmpdir p : PathLib.under tmpdir (temp_pdf c tmpdir p) = true.
Proof.
  rewrite temp_pdf_eq. unfold PathLib.under.
  rewrite <- append_assoc3. apply prefix_app.
Qed.

(** A temporary name is a non-empty string. *)
Lemma temp_nonempty c tmpdir p : exists a s, temp_pdf c tmpdir p = String a s.
Proof.
  rewrite temp_pdf_eq. destruct tmpdir; [change ("" ++ ?x) with x|rewrite append_cons]; eauto.
Qed.

Lemma rmtree_outside d p (fs : gmap string file) :
  PathLib.under d p = false -> rmtree d fs !! p = fs !! p.
Proof.
  intros Hp. unfold rmtree. rewrite map_lookup_filter.
  destruct (fs !! p) as [f|]; [|reflexivity]. cbn.
  rewrite option_guard_True by exact Hp. reflexivity.
Qed.

End Paths.

(** ** C4: an empty filtered list *)

(** C4. When the filtered document list is empty the worker returns at
    once: its only notification is the no-input message, the file
    system is exactly as before (so no output file appears), and no
    temporary directory was created. *)
Theorem empty_list_no_input (E : env) (topics : gmap string (list doc))
    (topic filter_mode : string) (w : world) :
  filter_docs filter_mode (list_docs topics topic) = [] ->
  let r := _create_collection_pdf_worker E topics topic filter_mode w in
  r.1 = Ok tt /\
  files r.2 = files w /\
  job_results (new_events w r.2) = [NoInput] /\
  created_dirs (new_events w r.2) = [] /\
  new_events w r.2 =
    [EvBusy true; EvInfo "Info" "Keine passenden Dokumente für das Sammel-PDF.";
     EvBusy false].
Proof.
  intros Hnil r. subst r.
  unfold _create_collection_pdf_worker, worker, bind, try_finally, _set_busy,
    status_info, showinfo, new_events.
  rewrite Hnil. cbn [fst snd files events emit].
  rewrite <- !app_assoc, drop_app_length. cbn [app].
  repeat split; reflexivity.
Qed.

Lemma empty_list_no_input_witness :
  filter_docs "ungelesene" (list_docs Sample.topics "nowhere") = [] /\
  files (_create_collection_pdf_worker Sample.E Sample.topics "nowhere" "ungelesene"
           Sample.w).2 = files Sample.w.
Proof.
  split; [reflexivity|].
  apply (empty_list_no_input Sample.E Sample.topics "nowhere" "ungelesene" Sample.w).
  reflexivity.
Defined.

(** ** C3: failures stay at the document boundary *)

Section Containment.

Variable self : methods.

Lemma append_or_log_ok acc pdfp ok skip w :
  exists acc', append_or_log acc pdfp ok skip w = (Ok acc', w) /\
               length acc'.2 = S (length acc.2).
Proof.
  unfold append_or_log, ret, push.
  destruct pdfp as [[|a p]|]; eexists; (split; [reflexivity|]);
    cbn [snd]; rewrite length_app; cbn; lia.
Qed.

Lemma process_doc_ok tmpdir acc d w :
  exists acc' w', process_doc self tmpdir acc d w = (Ok acc', w') /\
                  length acc'.2 = S (length acc.2).
Proof.
  assert (Hpush : forall x, length (push acc.2 x) = S (length acc.2))
    by (intros x; unfold push; rewrite length_app; cbn; lia).
  assert (Hconv : forall (conv : string -> string -> M (option string)) ok skip,
    exists acc' w',
      try_except
        (let* pdfp := conv (path d) tmpdir in append_or_log acc pdfp ok skip)
        (fun e => ret (acc.1, push acc.2 ("Fehler bei " ++ path d ++ ": " ++ e))) w
      = (Ok acc', w') /\ length acc'.2 = S (length acc.2)).
  { intros conv ok skip. unfold try_except, bind.
    destruct (conv (path d) tmpdir w) as [[pdfp|e] w1].
    - destruct (append_or_log_ok acc pdfp ok skip w1) as (acc' & -> & Hl).
      eauto.
    - unfold ret. do 2 eexists. split; [reflexivity|]. apply Hpush. }
  unfold process_doc.
  destruct (ext_in _ PDF_EXTS).
  { unfold try_except, ret. do 2 eexists. split; [reflexivity|]. apply Hpush. }
  destruct (ext_in _ TXT_EXTS); [apply Hconv|].
  destruct (ext_in _ IMAGE_EXTS); [apply Hconv|].
  destruct (ext_in _ WORD_EXTS); [apply Hconv|].
  unfold try_except, ret. do 2 eexists. split; [reflexivity|]. apply Hpush.
Qed.

Lemma process_doc_raise tmpdir acc d conv e w w' :
  converter_of self (ext_of d) = Some conv ->
  conv (path d) tmpdir w = (Raise e, w') ->
  process_doc self tmpdir acc d w = (Ok (acc.1, push acc.2 (failed_line d e)), w').
Proof.
  unfold converter_of, process_doc, ext_of, failed_line. intros Hc Hr.
  destruct (ext_in _ PDF_EXTS); [discriminate|].
  destruct (ext_in _ TXT_EXTS);
    [injection Hc as <-; unfold try_except, bind; rewrite Hr; reflexivity|].
  destruct (ext_in _ IMAGE_EXTS);
    [injection Hc as <-; unfold try_except, bind; rewrite Hr; reflexivity|].
  destruct (ext_in _ WORD_EXTS);
    [injection Hc as <-; unfold try_except, bind; rewrite Hr; reflexivity|].
  discriminate.
Qed.

Lemma collect_ok tmpdir docs : forall acc w,
  exists acc' w', collect self tmpdir docs acc w = (Ok acc', w') /\
                  length acc'.2 = (length acc.2 + length docs)%nat.
Proof.
  induction docs as [|d rest IH]; intros acc w; cbn [collect].
  - unfold ret. do 2 eexists. split; [reflexivity|]. cbn; lia.
  - unfold bind.
    destruct (process_doc_ok tmpdir acc d w) as (acc1 & w1 & -> & Hl1).
    destruct (IH acc1 w1) as (acc2 & w2 & -> & Hl2).
    do 2 eexists. split; [reflexivity|]. cbn [length]; lia.
Qed.

End Containment.

Lemma merge_pdfs_ok (E : env) pdf_paths out_path w :
  exists b w', _merge_pdfs E pdf_paths out_path w = (Ok b, w').
Proof.
  unfold _merge_pdfs. destruct (negb (PdfMerger E)); [unfold ret; eauto|].
  unfold try_except.
  destruct (bind _ _ w) as [[b|e] w']; unfold ret; eauto.
Qed.

(** C3. Whatever the per-document converters are and whatever they
    raise: when the converter called for a document raises [e], the loop
    records the failure line of that document, appends nothing to the
    merge list, and goes on with the remaining documents; the loop as a
    whole never raises and logs one line per document; and no run of the
    worker raises. *)
Theorem converter_failure_contained (E : env)
    (t i o : string -> string -> M (option string)) :
  let self := Methods t i o (_merge_pdfs E) in
  (forall tmpdir d rest acc conv e w w',
      converter_of self (ext_of d) = Some conv ->
      conv (path d) tmpdir w = (Raise e, w') ->
      collect self tmpdir (d :: rest) acc w =
      collect self tmpdir rest (acc.1, push acc.2 (failed_line d e)) w') /\
  (forall tmpdir docs acc w,
      exists acc' w', collect self tmpdir docs acc w = (Ok acc', w') /\
                      length acc'.2 = (length acc.2 + length docs)%nat) /\
  (forall topics topic filter_mode w,
      exists w', worker E self topics topic filter_mode w = (Ok tt, w')).
Proof.
  intros self. split; [|split].
  - intros tmpdir d rest acc conv e w w' Hc Hr. cbn [collect]. unfold bind at 1.
    rewrite (process_doc_raise self tmpdir acc d conv e w w' Hc Hr). reflexivity.
  - intros. apply collect_ok.
  - intros topics topic filter_mode w.
    unfold worker, bind, _set_busy, try_finally.
    destruct (filter_docs filter_mode (list_docs topics topic)) as [|d ds].
    + unfold status_info, showinfo. eauto.
    + unfold export_docs, TemporaryDirectory, bind.
      set (w0 := emit (EvMkdtemp (mkdtemp E)) (emit (EvBusy true) w)).
      destruct (collect_ok self (mkdtemp E) (d :: ds) ([], []) w0)
        as (acc & w1 & -> & _).
      destruct acc.1 as [|p ps].
      * unfold status_info, showinfo. eauto.
      * cbn [merge_pdfs self].
        destruct (merge_pdfs_ok E (p :: ps) (out_path_of E topic filter_mode) w1)
          as (b & w2 & ->).
        destruct b; unfold status_info, showinfo; cbn; eauto.
Qed.

Lemma converter_failure_contained_witness :
  let boom : string -> string -> M (option string) := fun _ _ => raise "boom" in
  let self := Methods boom boom boom (_merge_pdfs Sample.E) in
  collect self "/tmp/tmpx" [Doc "/d/x.txt" false; Doc "/d/a.pdf" false] ([], []) Sample.w
  = (Ok (["/d/a.pdf"], ["Fehler bei /d/x.txt: boom"; "OK: PDF übernommen: /d/a.pdf"]),
     Sample.w).
Proof.
  intros boom self. subst self.
  rewrite (proj1 (converter_failure_contained Sample.E boom boom boom)
             "/tmp/tmpx" (Doc "/d/x.txt" false) [Doc "/d/a.pdf" false] ([], [])
             boom "boom" Sample.w Sample.w eq_refl eq_refl).
  reflexivity.
Defined.

(** ** C7 and C8: pagination of the text renderer *)

Section Pagination.

Lemma take_length n s : String.length (Str.take n s) = Nat.min n (String.length s).
Proof. revert s; induction n as [|n IH]; intros [|a s]; cbn; auto. Qed.

Lemma drop_length n s : String.length (Str.drop n s) = (String.length s - n)%nat.
Proof. revert s; induction n as [|n IH]; intros [|a s]; cbn; auto. Qed.

(** A non-empty line takes one row more than what is left of it after
    the first piece. *)
Lemma rows_step a s :
  rows (String a s) =
  S (rows (Str.drop (String.length (Str.take max_chars (String a s))) (String a s))).
Proof.
  unfold rows. rewrite drop_length, take_length.
  change max_chars with 80%nat. cbn [String.length].
  generalize (String.length s); intros n.
  destruct (Nat.le_gt_cases (S n) 80) as [H|H].
  - rewrite Nat.min_r by lia. replace (S n - S n)%nat with 0%nat by lia.
    change ((0 + (80 - 1)) / 80)%nat with 0%nat.
    symmetry. apply (Nat.div_unique _ _ _ n); lia.
  - rewrite Nat.min_l by lia.
    replace (S n + (80 - 1))%nat with ((S n - 80 + (80 - 1)) + 1 * 80)%nat by lia.
    rewrite Nat.div_add by lia. lia.
Qed.

Ltac numbers :=
  unfold top, line_height, margin, A4, cm, mm, pt in *;
  change per_page with 61%nat in *; cbn [fst snd] in *.

Lemma draws_app (pg : page) (o : op) :
  draws (pg ++ [o])%list =
  (draws pg + match o with DrawString _ _ _ => 1 | _ => 0 end)%nat.
Proof.
  unfold draws. rewrite List.filter_app, length_app. destruct o; reflexivity.
Qed.

Lemma draw_line_paged line cy :
  forall n, paged n cy -> paged (n + rows line) (draw_line line cy).
Proof.
  funelim (draw_line line cy); intros n Hinv.
  - change (rows "") with 0%nat. rewrite Nat.add_0_r. exact Hinv.
  - rewrite rows_step.
    destruct Hinv as ((q & r & Hn & Hr & Hq & Hd & Hy) & Hpages & Hcode).
    destruct cy as [c y]. cbn [fst snd] in *.
    set (line := Str.drop _ _) in *.
    replace (n + S (rows line))%nat with (S n + rows line)%nat by lia.
    destruct (Z.ltb_spec (y - line_height) margin) as [Hlt|Hge].
    + apply H. unfold paged.
      cbn [fst snd setFont showPage drawString c_pages c_code c_file].
      split; [|split].
      * exists (S q), 0%nat. rewrite length_app, Hq. cbn [length].
        numbers. repeat split; try lia.
      * apply Forall_app. split; [exact Hpages|]. constructor; [|constructor].
        split.
        -- apply Forall_app. split; [exact Hcode|]. constructor; [|constructor].
           numbers. lia.
        -- rewrite draws_app, Hd. numbers. lia.
      * constructor; [exact I|constructor].
    + apply H0. unfold paged.
      cbn [fst snd setFont showPage drawString c_pages c_code c_file].
      split; [|split].
      * exists q, (S r). rewrite draws_app, Hd. numbers. repeat split; try lia.
      * exact Hpages.
      * apply Forall_app. split; [exact Hcode|]. constructor; [|constructor].
        numbers. lia.
Qed.

Lemma draw_lines_paged lines : forall cy n,
  paged n cy ->
  paged (n + sum_list (map (fun l => rows (Str.rstrip_nl l)) lines))
        (draw_lines lines cy).
Proof.
  induction lines as [|l ls IH]; intros cy n Hinv; cbn [draw_lines fold_left map sum_list].
  - rewrite Nat.add_0_r. exact Hinv.
  - rewrite Nat.add_assoc. apply IH. apply draw_line_paged. exact Hinv.
Qed.

Lemma draw_line_file line cy : c_file (draw_line line cy).1 = c_file cy.1.
Proof.
  funelim (draw_line line cy); [reflexivity|].
  destruct (_ <? _); [rewrite H|rewrite H0]; reflexivity.
Qed.

Lemma draw_lines_file lines : forall cy, c_file (draw_lines lines cy).1 = c_file cy.1.
Proof.
  induction lines as [|l ls IH]; intros cy; cbn [draw_lines fold_left]; [reflexivity|].
  etransitivity; [apply IH|]. apply draw_line_file.
Qed.

(** What the renderer hands to [save]. *)
Lemma render_text_pages out text :
  let c := render_text out text in
  c_file c = out /\ c_code c = [] /\
  length (c_pages c) = (text_rows text / per_page + 1)%nat /\
  Forall (fun pg => above_margin pg /\ (draws pg <= per_page)%nat) (c_pages c).
Proof.
  unfold render_text.
  set (c0 := setFont (Canvas out) "Helvetica" 11).
  assert (H0 : paged 0 (c0, snd A4 - margin)).
  { unfold paged. cbn [fst snd c0 setFont Canvas c_pages c_code].
    split; [|split].
    - exists 0%nat, 0%nat. numbers. repeat split; lia.
    - constructor.
    - constructor; [exact I|constructor]. }
  apply (draw_lines_paged (Str.readlines text)) in H0. cbn [Nat.add] in H0.
  fold (text_rows text) in H0.
  pose proof (draw_lines_file (Str.readlines text) (c0, snd A4 - margin)) as Hf.
  destruct (draw_lines _ _) as [c y]. cbn [fst snd] in *.
  destruct H0 as ((q & r & Hn & Hr & Hq & Hd & Hy) & Hpages & Hcode).
  cbn [fst snd] in *.
  cbn [showPage c_file c_pages c_code]. repeat split.
  - exact Hf.
  - rewrite length_app, Hq. cbn [length]. f_equal.
    apply (Nat.div_unique _ _ _ r); lia.
  - apply Forall_app. split.
    + eapply Forall_impl; [exact Hpages|]. cbn. intros pg [? ->]. split; [done|lia].
    + constructor; [|constructor]. split; [exact Hcode|lia].
Qed.

End Pagination.

Lemma save_runs (E : env) (c : canvas) (w : world) :
  c_code c = [] ->
  fault E (OpCreate (c_file c)) = None ->
  fault E (OpWrite (c_file c)) = None ->
  save E c w = (Ok tt, set_files (insert (c_file c) (pdf_file E (c_pages c))) w).
Proof.
  intros Hcode Hc Hw. unfold save. rewrite Hcode.
  unfold bind, fs_create, fs_write. rewrite Hc, Hw.
  unfold set_files. cbn [files events]. do 2 f_equal.
  apply insert_insert_eq.
Qed.

Lemma txt_to_pdf_runs (E : env) (path tmpdir : string) (w : world) (f : file) :
  let out := temp_pdf CatText tmpdir path in
  REPORTLAB_AVAILABLE E = true ->
  files w !! path = Some f ->
  fault E (OpRead path) = None ->
  fault E (OpCreate out) = None ->
  fault E (OpWrite out) = None ->
  _txt_to_pdf E path tmpdir w =
  (Ok (Some out),
   set_files (insert out (pdf_file E (c_pages (render_text out (as_text f))))) w).
Proof.
  intros out. subst out. unfold temp_pdf. cbn [category_suffix].
  set (out := PathLib.join _ _).
  intros Hrl Hf Hr Hc Hw. unfold _txt_to_pdf. rewrite Hrl. cbn [negb]. fold out.
  destruct (render_text_pages out (as_text f)) as (Hfile & Hcode & _).
  unfold try_except, bind, fs_read. rewrite Hr, Hf.
  rewrite save_runs by (rewrite ?Hfile; assumption).
  rewrite Hfile. reflexivity.
Qed.



(** The boundary between fitting and overflowing: 60 rows leave the
    cursor above the bottom margin; with 61 rows the last one is still
    drawn on the first page, the cursor then lies below the margin, and
    a second page without text follows. *)
Example sixty_rows_fit :
  ~ overflows (Sample.text_of_lines 60) /\
  length (c_pages (render_text "o" (Sample.text_of_lines 60))) = 1%nat.
Proof. split; [vm_compute; discriminate|vm_compute; reflexivity]. Qed.

Example sixty_one_rows_overflow :
  overflows (Sample.text_of_lines 61) /\
  map draws (c_pages (render_text "o" (Sample.text_of_lines 61))) = [61%nat; 0%nat].
Proof. split; vm_compute; reflexivity. Qed.

(** C8. The renderer always emits at least one page, and a text that
    does not overflow the printable area, the empty text included, comes
    out as a PDF of exactly one page. *)
Theorem short_text_one_page (E : env) (path tmpdir : string) (w : world) (f : file) :
  let out := temp_pdf CatText tmpdir path in
  REPORTLAB_AVAILABLE E = true ->
  files w !! path = Some f ->
  fault E (OpRead path) = None ->
  fault E (OpCreate out) = None ->
  fault E (OpWrite out) = None ->
  exists pages,
    _txt_to_pdf E path tmpdir w =
      (Ok (Some out), set_files (insert out (pdf_file E pages)) w) /\
    (1 <= length pages)%nat /\
    (~ overflows (as_text f) -> length pages = 1%nat) /\
    (as_text f = "" -> pages = [[SetFont "Helvetica" 11]]).
Proof.
  intros out Hrl Hf Hr Hc Hw.
  exists (c_pages (render_text out (as_text f))).
  destruct (render_text_pages out (as_text f)) as (_ & _ & Hlen & _).
  split; [apply txt_to_pdf_runs; assumption|].
  split; [lia|]. split.
  - intros Hfit. rewrite Hlen.
    unfold overflows, printable_height, line_height, margin, A4, cm, mm, pt in Hfit.
    cbn [fst snd] in Hfit. change per_page with 61%nat.
    rewrite Nat.div_small by lia. reflexivity.
  - intros ->. reflexivity.
Qed.

Lemma short_text_one_page_witness :
  ~ overflows (as_text (Sample.txt 60)) /\
  exists pages,
    _txt_to_pdf Sample.E "/d/n.txt" "/tmp/tmpx" (Sample.w_txt 60) =
      (Ok (Some "/tmp/tmpx/n_txt.pdf"),
       set_files (insert "/tmp/tmpx/n_txt.pdf" (pdf_file Sample.E pages)) (Sample.w_txt 60)) /\
    length pages = 1%nat.
Proof.
  assert (Hfit : ~ overflows (as_text (Sample.txt 60))) by (vm_compute; discriminate).
  split; [exact Hfit|].
  destruct (short_text_one_page Sample.E "/d/n.txt" "/tmp/tmpx" (Sample.w_txt 60)
              (Sample.txt 60))
    as (pages & Hrun & _ & Hone & _);
    [reflexivity|reflexivity|reflexivity|reflexivity|reflexivity|].
  exists pages. split; [exact Hrun|exact (Hone Hfit)].
Defined.

(** ** C6: the office converter *)

Section Office.

Variable E : env.
Variables path tmpdir : string.

Let out := temp_pdf CatOffice tmpdir path.

Lemma try_candidate_returned cand w st outp :
  which E cand = true ->
  office_engine E cand path (files w !! path) = Engine None st outp ->
  try_candidate E path tmpdir cand w =
  (Ok (if exists_in (engine_world E outp out w) out then Some out else None),
   engine_world E outp out w).
Proof.
  intros Hwhich Heng. unfold try_candidate. rewrite Hwhich.
  unfold try_candidate, try_except, bind, subprocess_run, run_engine.
  rewrite Heng. cbn [raised output status].
  subst out. unfold temp_pdf, engine_world, exists_in, fs_exists.
  cbn [category_suffix].
  destruct (bool_decide _); reflexivity.
Qed.

Lemma try_candidate_raised cand w e st outp :
  which E cand = true ->
  office_engine E cand path (files w !! path) = Engine (Some e) st outp ->
  try_candidate E path tmpdir cand w = (Ok None, engine_world E outp out w).
Proof.
  intros Hwhich Heng. unfold try_candidate. rewrite Hwhich.
  unfold try_candidate, try_except, bind, subprocess_run, run_engine.
  rewrite Heng. reflexivity.
Qed.

Lemma try_candidate_absent cand w :
  which E cand = false -> try_candidate E path tmpdir cand w = (Ok None, w).
Proof. intros Hwhich. unfold try_candidate. rewrite Hwhich. reflexivity. Qed.

Lemma engine_world_frame outp w : only_touches out w (engine_world E outp out w).
Proof.
  destruct outp; [apply only_touches_insert|apply only_touches_refl].
Qed.

(** A round of the candidate loop never raises; what it returns is the
    expected output path, and then that file exists. *)
Lemma try_candidate_ok cand w :
  exists r w', try_candidate E path tmpdir cand w = (Ok r, w') /\
               only_touches out w w' /\
               (r = None \/ r = Some out /\ exists_in w' out = true).
Proof.
  destruct (which E cand) eqn:Hwhich.
  - destruct (office_engine E cand path (files w !! path)) as [[e|] st outp] eqn:Heng.
    + rewrite (try_candidate_raised cand w e st outp Hwhich Heng).
      do 2 eexists. split; [reflexivity|]. split; [apply engine_world_frame|auto].
    + rewrite (try_candidate_returned cand w st outp Hwhich Heng).
      do 2 eexists. split; [reflexivity|]. split; [apply engine_world_frame|].
      destruct (exists_in _ _) eqn:Hex; auto.
  - rewrite try_candidate_absent by assumption.
    do 2 eexists. split; [reflexivity|]. split; [apply only_touches_refl|auto].
Qed.

Lemma word_strategy_ok w :
  exists r w', word_strategy E path tmpdir w = (Ok r, w') /\
               only_touches out w w' /\
               (r = None \/ r = Some out /\ exists_in w' out = true).
Proof.
  unfold word_strategy.
  destruct (String.eqb _ _).
  2:{ do 2 eexists. split; [reflexivity|]. split; [apply only_touches_refl|auto]. }
  unfold try_except, bind, word_export, run_engine.
  change (PathLib.join tmpdir (PathLib.stem path ++ ".pdf")) with out.
  fold (engine_world E (output (word_engine E path (files w !! path))) out w).
  pose proof (engine_world_frame (output (word_engine E path (files w !! path))) w) as Hfr.
  destruct (raised _).
  { do 2 eexists. split; [reflexivity|]. split; [exact Hfr|auto]. }
  unfold fs_exists. fold (exists_in (engine_world E (output (word_engine E path (files w !! path))) out w) out).
  destruct (exists_in _ _) eqn:Hex;
    (do 2 eexists; split; [reflexivity|]; split; [exact Hfr|auto]).
Qed.

(** The office converter never raises, touches nothing but its
    temporary file, and returns the path only when the file exists. *)
Lemma office_to_pdf_spec w :
  exists r w', _office_to_pdf E path tmpdir w = (Ok r, w') /\
               only_touches out w w' /\
               (r = None \/ r = Some out /\ exists_in w' out = true).
Proof.
  unfold _office_to_pdf. cbn [try_candidates]. unfold bind, ret.
  destruct (try_candidate_ok "soffice" w) as (r1 & w1 & -> & Ht1 & H1).
  destruct r1 as [o|].
  { do 2 eexists. split; [reflexivity|]. split; [exact Ht1|].
    destruct H1 as [|[]]; [discriminate|auto]. }
  destruct (try_candidate_ok "libreoffice" w1) as (r2 & w2 & -> & Ht2 & H2).
  pose proof (only_touches_trans _ _ _ _ Ht1 Ht2) as Ht12.
  destruct r2 as [o|].
  { do 2 eexists. split; [reflexivity|]. split; [exact Ht12|].
    destruct H2 as [|[]]; [discriminate|auto]. }
  destruct (word_strategy_ok w2) as (r3 & w3 & -> & Ht3 & H3).
  do 2 eexists. split; [reflexivity|].
  split; [eapply only_touches_trans; eassumption|exact H3].
Qed.

Lemma office_chain w :
  _office_to_pdf E path tmpdir w =
  first_success [try_candidate E path tmpdir "soffice";
                 try_candidate E path tmpdir "libreoffice";
                 word_strategy E path tmpdir] w.
Proof.
  unfold _office_to_pdf. cbn [try_candidates first_success]. unfold bind, ret.
  destruct (try_candidate_ok "soffice" w) as (r1 & w1 & -> & _).
  destruct r1 as [o|]; [reflexivity|].
  destruct (try_candidate_ok "libreoffice" w1) as (r2 & w2 & -> & _).
  destruct r2 as [o|]; [reflexivity|].
  destruct (word_strategy_ok w2) as (r3 & w3 & -> & _).
  destruct r3; reflexivity.
Qed.

End Office.

(** C6. The office converter is the chain of the two engine candidates
    and the Word bridge, in that order, stopped at the first success.  A
    candidate whose call returns succeeds exactly when the expected PDF
    exists afterwards, whatever exit status was reported.  The Word
    bridge is tried on Windows only.  The converter never raises; it
    returns the expected path (and then the file exists) or [None], and
    [None] when no engine is there. *)
Theorem office_two_strategies (E : env) (path tmpdir : string) :
  let out := temp_pdf CatOffice tmpdir path in
  (forall w,
      _office_to_pdf E path tmpdir w =
      first_success [try_candidate E path tmpdir "soffice";
                     try_candidate E path tmpdir "libreoffice";
                     word_strategy E path tmpdir] w) /\
  (forall cand w st outp,
      which E cand = true ->
      office_engine E cand path (files w !! path) = Engine None st outp ->
      let w1 := engine_world E outp out w in
      try_candidate E path tmpdir cand w =
        (Ok (if exists_in w1 out then Some out else None), w1) /\
      ((try_candidate E path tmpdir cand w).1 = Ok (Some out) <->
       exists_in w1 out = true)) /\
  (forall w, platform_system E <> "Windows" ->
             word_strategy E path tmpdir w = (Ok None, w)) /\
  (forall w, exists r w',
      _office_to_pdf E path tmpdir w = (Ok r, w') /\
      (r = None \/ r = Some out /\ exists_in w' out = true)) /\
  (forall w, which E "soffice" = false -> which E "libreoffice" = false ->
             platform_system E <> "Windows" ->
             _office_to_pdf E path tmpdir w = (Ok None, w)).
Proof.
  intros out.
  assert (Hword : forall w, platform_system E <> "Windows" ->
                            word_strategy E path tmpdir w = (Ok None, w)).
  { intros w Hp. unfold word_strategy.
    destruct (String.eqb_spec (platform_system E) "Windows"); [contradiction|reflexivity]. }
  split; [apply office_chain|]. split; [|split; [exact Hword|split]].
  - intros cand w st outp Hwhich Heng w1.
    pose proof (try_candidate_returned E path tmpdir cand w st outp Hwhich Heng) as Hrun.
    split; [exact Hrun|]. rewrite Hrun. cbn [fst]. fold out. fold w1.
    destruct (exists_in w1 out); split; intros H; try reflexivity; discriminate.
  - intros w. destruct (office_to_pdf_spec E path tmpdir w) as (r & w' & Hrun & _ & Hr).
    eauto.
  - intros w Hs Hl Hp. rewrite office_chain. cbn [first_success]. unfold bind.
    rewrite !try_candidate_absent by assumption. rewrite Hword by assumption.
    reflexivity.
Qed.

Lemma office_two_strategies_witness :
  which Sample.E_office "soffice" = true /\
  status (office_engine Sample.E_office "soffice" "/d/r.docx" None) = 1 /\
  try_candidate Sample.E_office "/d/r.docx" "/tmp/tmpx" "soffice" Sample.w =
  (Ok (Some "/tmp/tmpx/r.pdf"),
   engine_world Sample.E_office (Some [Sample.pg "doc"]) "/tmp/tmpx/r.pdf" Sample.w).
Proof.
  split; [reflexivity|]. split; [reflexivity|].
  apply (proj1 (proj2 (office_two_strategies Sample.E_office "/d/r.docx" "/tmp/tmpx"))
           "soffice" Sample.w 1 (Some [Sample.pg "doc"]) eq_refl eq_refl).
Defined.

(** ** C5: errors inside the renderers *)


Section TextErrors.

Variable E : env.
Variables path tmpdir : string.

Let out := temp_pdf CatText tmpdir path.

Lemma cleanup_spec w :
  exists w', cleanup E out w = (Ok None, w') /\ only_touches out w w' /\
             (fault E (OpUnlink out) = None -> files w' !! out = None).
Proof.
  unfold cleanup, bind, try_except, fs_exists, fs_unlink, ret.
  destruct (files w !! out) as [f|] eqn:Hout.
  - rewrite bool_decide_true by eauto.
    destruct (fault E (OpUnlink out)) as [e|] eqn:Hu.
    + exists w. split; [reflexivity|]. split; [apply only_touches_refl|discriminate].
    + rewrite Hout. eexists. split; [reflexivity|].
      split; [apply only_touches_delete|]. intros _. apply lookup_delete_eq.
  - rewrite bool_decide_false by (intros [? ?]; congruence).
    exists w. split; [reflexivity|]. split; [apply only_touches_refl|]. auto.
Qed.

(** Every way through the text renderer: it returns, touches nothing
    but its temporary file, and either wrote the pages of the source
    and returns the path, or returns [None] with the temporary file
    removed. *)
Lemma txt_to_pdf_spec w :
  exists r w',
    _txt_to_pdf E path tmpdir w = (Ok r, w') /\ only_touches out w w' /\
    (r = Some out /\
       (exists f, files w !! path = Some f /\
          files w' !! out = Some (pdf_file E (c_pages (render_text out (as_text f)))))
     \/
     r = None /\
       (REPORTLAB_AVAILABLE E = false /\ w' = w \/
        REPORTLAB_AVAILABLE E = true /\
          (fault E (OpUnlink out) = None -> files w' !! out = None))).
Proof.
  unfold _txt_to_pdf.
  destruct (REPORTLAB_AVAILABLE E) eqn:Hrl; cbn [negb].
  2:{ exists None, w. split; [reflexivity|]. split; [apply only_touches_refl|]. auto. }
  change (PathLib.join tmpdir (PathLib.stem path ++ "_txt.pdf")) with out.
  assert (Hfail : forall w1, only_touches out w w1 ->
    exists r w', cleanup E out w1 = (Ok r, w') /\ only_touches out w w' /\
      (r = Some out /\
       (exists f, files w !! path = Some f /\
          files w' !! out = Some (pdf_file E (c_pages (render_text out (as_text f)))))
       \/ r = None /\
         (true = false /\ w' = w \/
          true = true /\ (fault E (OpUnlink out) = None -> files w' !! out = None)))).
  { intros w1 H1. destruct (cleanup_spec w1) as (w' & -> & Ht & Hgone).
    exists None, w'. split; [reflexivity|].
    split; [eapply only_touches_trans; eassumption|]. right. auto. }
  unfold try_except at 1, bind at 1, fs_read.
  destruct (fault E (OpRead path)) as [e|]; [apply Hfail, only_touches_refl|].
  destruct (files w !! path) as [f|] eqn:Hf; [|apply Hfail, only_touches_refl].
  destruct (render_text_pages out (as_text f)) as (Hfile & Hcode & _).
  unfold bind at 1, save. rewrite Hcode, Hfile.
  unfold bind at 1, fs_create.
  destruct (fault E (OpCreate out)) as [e|]; [apply Hfail, only_touches_refl|].
  unfold fs_write.
  destruct (fault E (OpWrite out)) as [e|].
  - apply Hfail. unfold set_files; cbn [files events].
    split; [reflexivity|]. intros p Hp. cbn [files].
    rewrite !lookup_insert_ne by congruence. reflexivity.
  - unfold ret. do 2 eexists. split; [reflexivity|]. split.
    + unfold set_files; cbn [files events].
      split; [reflexivity|]. intros p Hp. cbn [files].
      rewrite !lookup_insert_ne by congruence. reflexivity.
    + left. split; [reflexivity|]. exists f. split; [reflexivity|].
      cbn [set_files files]. apply lookup_insert_eq.
Qed.

End TextErrors.

Section ImageErrors.

Variable E : env.
Variables path tmpdir : string.

Let out := temp_pdf CatImage tmpdir path.

Lemma read_image_inv w r w1 :
  read_image E path w = (r, w1) ->
  w1 = w /\
  forall img, r = Ok img ->
    exists f, files w !! path = Some f /\ as_image f = Some img.
Proof.
  unfold read_image, bind, fs_read, ret, raise.
  destruct (fault E (OpRead path)); [intros [= <- <-]; split; [done|discriminate]|].
  destruct (files w !! path) as [f|]; [|intros [= <- <-]; split; [done|discriminate]].
  destruct (as_image f) as [img|] eqn:Him; intros [= <- <-];
    (split; [done|]); [|discriminate].
  intros ? [= <-]. eauto.
Qed.

(** Opening a file for writing and writing [data]: on success the file
    holds [data]; nothing but the file is touched either way. *)
Lemma write_file_inv p data w r w1 :
  (fs_create E p ;; fs_write E p data) w = (r, w1) ->
  only_touches p w w1 /\ (r = Ok tt -> files w1 !! p = Some data).
Proof.
  unfold bind, fs_create, fs_write.
  destruct (fault E (OpCreate p));
    [intros [= <- <-]; split; [apply only_touches_refl|discriminate]|].
  destruct (fault E (OpWrite p)); intros [= <- <-];
    (split; [frame_insert|]); [discriminate|].
  intros _. cbn [set_files files]. apply lookup_insert_eq.
Qed.

Lemma image_canvas_inv img w r w1 :
  image_canvas out img w = (r, w1) ->
  w1 = w /\
  forall c, r = Ok c -> c = Canvas_ out (reportlab_image_pages img) [].
Proof.
  unfold image_canvas, raise, ret.
  destruct ((iw img =? 0) || (ih img =? 0))%bool; intros [= <- <-];
    (split; [done|]); [discriminate|].
  intros ? [= <-]. reflexivity.
Qed.

Lemma reportlab_strategy_spec w :
  exists r w', reportlab_strategy E path out w = (Ok r, w') /\
               image_post E path out w w' r.
Proof.
  unfold reportlab_strategy, try_except, bind at 1.
  destruct (read_image E path w) as [[img|e] w1] eqn:Hread;
    apply read_image_inv in Hread as [-> Hsrc].
  2:{ exists None, w. split; [reflexivity|]. split; [apply only_touches_refl|auto]. }
  destruct (Hsrc img eq_refl) as (f & Hf & Him).
  unfold bind at 1.
  destruct (image_canvas out img w) as [[c|e] w1] eqn:Hc;
    apply image_canvas_inv in Hc as [-> Hc].
  2:{ exists None, w. split; [reflexivity|]. split; [apply only_touches_refl|auto]. }
  rewrite (Hc c eq_refl). unfold save. cbn [c_code c_file c_pages].
  unfold bind at 1.
  destruct ((fs_create E out ;; fs_write E out _) w) as [[[]|e] w1] eqn:Hw;
    apply write_file_inv in Hw as [Ht Hdata]; unfold ret.
  - exists (Some out), w1. split; [reflexivity|]. split; [exact Ht|].
    right. split; [reflexivity|]. exists f, img. auto.
  - exists None, w1. split; [reflexivity|]. split; [exact Ht|auto].
Qed.

Lemma pillow_strategy_spec w0 w :
  only_touches out w0 w ->
  exists r w', pillow_strategy E path out w = (Ok r, w') /\
    only_touches out w0 w' /\
    (r = None \/
     r = Some out /\
       exists f img, files w !! path = Some f /\ as_image f = Some img /\
         files w' !! out = Some (pdf_file E (pillow_image_pages img))).
Proof.
  intros H0.
  unfold pillow_strategy, try_except, bind at 1.
  destruct (read_image E path w) as [[img|e] w1] eqn:Hread;
    apply read_image_inv in Hread as [-> Hsrc].
  2:{ exists None, w. split; [reflexivity|]. split; [exact H0|auto]. }
  destruct (Hsrc img eq_refl) as (f & Hf & Him).
  unfold bind at 1, pil_save.
  destruct ((fs_create E out ;; fs_write E out _) w) as [[[]|e] w1] eqn:Hw;
    apply write_file_inv in Hw as [Ht Hdata]; unfold ret.
  - exists (Some out), w1. split; [reflexivity|].
    split; [eapply only_touches_trans; eassumption|].
    right. split; [reflexivity|]. exists f, img. auto.
  - exists None, w1. split; [reflexivity|].
    split; [eapply only_touches_trans; eassumption|auto].
Qed.

(** Every way through the image renderer: it returns, and touches
    nothing but its temporary file. *)
Lemma image_to_pdf_spec w :
  exists r w',
    _image_to_pdf E path tmpdir w = (Ok r, w') /\ only_touches out w w' /\
    (r = None \/ r = Some out /\ exists pages, files w' !! out = Some (pdf_file E pages)).
Proof.
  unfold _image_to_pdf.
  change (PathLib.join tmpdir (PathLib.stem path ++ "_img.pdf")) with out.
  assert (Hpil : forall w1, only_touches out w w1 ->
    exists r w',
      (if PIL_AVAILABLE E then pillow_strategy E path out else ret None) w1 = (Ok r, w') /\
      only_touches out w w' /\
      (r = None \/ r = Some out /\ exists pages, files w' !! out = Some (pdf_file E pages))).
  { intros w1 H1. destruct (PIL_AVAILABLE E).
    - destruct (pillow_strategy_spec w w1 H1) as (r & w' & -> & Ht & Hr).
      exists r, w'. split; [reflexivity|]. split; [exact Ht|].
      destruct Hr as [|(-> & f & img & _ & _ & Hout)]; eauto.
    - exists None, w1. unfold ret. auto. }
  unfold bind.
  destruct (REPORTLAB_AVAILABLE E).
  - destruct (reportlab_strategy_spec w) as (r & w1 & -> & Ht & Hr).
    destruct r as [o|]; [|apply Hpil, Ht].
    unfold ret. exists (Some o), w1. split; [reflexivity|]. split; [exact Ht|].
    destruct Hr as [|(-> & f & img & _ & _ & [Hout|Hout])]; [discriminate|eauto..].
  - unfold ret at 1. apply Hpil, only_touches_refl.
Qed.

End ImageErrors.

(** The [except] branch of the text renderer: it returns [None]; the
    temporary file is gone afterwards, unless its removal breaks, which
    leaves everything as it was. *)
Lemma cleanup_result (E : env) (out : string) (w : world) :
  exists w', cleanup E out w = (Ok None, w') /\
             (fault E (OpUnlink out) = None -> files w' !! out = None) /\
             (fault E (OpUnlink out) <> None -> w' = w).
Proof.
  unfold cleanup, bind, try_except, fs_exists, fs_unlink, ret.
  destruct (files w !! out) as [f|] eqn:Hout.
  - rewrite bool_decide_true by eauto.
    destruct (fault E (OpUnlink out)) as [e|] eqn:Hu.
    + exists w. split; [reflexivity|]. split; [discriminate|reflexivity].
    + rewrite Hout. eexists. split; [reflexivity|].
      split; [intros _; apply lookup_delete_eq|contradiction].
  - rewrite bool_decide_false by (intros [? ?]; congruence).
    exists w. split; [reflexivity|]. split; [intros _; exact Hout|reflexivity].
Qed.

Lemma image_ext_cases ext :
  ext_in ext IMAGE_EXTS = true ->
  ext = ".jpg" \/ ext = ".jpeg" \/ ext = ".gif" \/ ext = ".png".
Proof.
  unfold ext_in, IMAGE_EXTS. cbn [existsb].
  repeat match goal with
         | |- context [String.eqb ext ?l] => destruct (String.eqb_spec ext l) as [->|?]
         end; cbn [orb]; intros H; try discriminate; auto.
Qed.

(** C5, as the code has it.  The renderers run their work in [try]
    blocks ([txt_try], [reportlab_try], [pillow_try]) and catch what
    leaves them: both renderers always return.  A failed text rendering
    returns [None], and the temporary file is gone unless its removal
    itself breaks, in which case everything stays as the failure left it.
    A failed image strategy returns [None] to the renderer, which goes on
    to Pillow when that is installed; the renderer returns [None] when no
    installed strategy succeeds.  [None] is also what both return when no
    tool is installed, and the loop logs such a document as skipped. *)
Theorem render_errors_caught (E : env) (src tmpdir : string) (w : world) :
  let t := temp_pdf CatText tmpdir src in
  let i := temp_pdf CatImage tmpdir src in
  (_txt_to_pdf E src tmpdir =
     (if negb (REPORTLAB_AVAILABLE E) then ret None
      else try_except (txt_try E src t) (fun _ => cleanup E t)) /\
   reportlab_strategy E src i = try_except (reportlab_try E src i) (fun _ => ret None) /\
   pillow_strategy E src i = try_except (pillow_try E src i) (fun _ => ret None)) /\
  ((exists r w', _txt_to_pdf E src tmpdir w = (Ok r, w')) /\
   (exists r w', _image_to_pdf E src tmpdir w = (Ok r, w'))) /\
  (forall e w1,
      REPORTLAB_AVAILABLE E = true ->
      txt_try E src t w = (Raise e, w1) ->
      exists w', _txt_to_pdf E src tmpdir w = (Ok None, w') /\
                 (fault E (OpUnlink t) = None -> files w' !! t = None) /\
                 (fault E (OpUnlink t) <> None -> w' = w1)) /\
  (forall e w0 w1,
      (reportlab_try E src i w0 = (Raise e, w1) ->
       reportlab_strategy E src i w0 = (Ok None, w1)) /\
      (pillow_try E src i w0 = (Raise e, w1) ->
       pillow_strategy E src i w0 = (Ok None, w1))) /\
  (forall e w1 r w2,
      REPORTLAB_AVAILABLE E = true -> PIL_AVAILABLE E = true ->
      reportlab_try E src i w = (Raise e, w1) ->
      pillow_strategy E src i w1 = (Ok r, w2) ->
      _image_to_pdf E src tmpdir w = (Ok r, w2)) /\
  (forall w1 w2,
      (if REPORTLAB_AVAILABLE E
       then exists e, reportlab_try E src i w = (Raise e, w1) else w1 = w) ->
      (if PIL_AVAILABLE E
       then exists e, pillow_try E src i w1 = (Raise e, w2) else w2 = w1) ->
      _image_to_pdf E src tmpdir w = (Ok None, w2)) /\
  (REPORTLAB_AVAILABLE E = false ->
   _txt_to_pdf E src tmpdir w = (Ok None, w)) /\
  (REPORTLAB_AVAILABLE E = false -> PIL_AVAILABLE E = false ->
   _image_to_pdf E src tmpdir w = (Ok None, w)) /\
  (forall acc d w1 w2,
      (ext_of d = ".txt" ->
       _txt_to_pdf E (path d) tmpdir w1 = (Ok None, w2) ->
       process_doc (App E) tmpdir acc d w1 =
       (Ok (acc.1, push acc.2 ("Übersprungen (TXT ohne ReportLab): " ++ path d)), w2)) /\
      (ext_in (ext_of d) IMAGE_EXTS = true ->
       _image_to_pdf E (path d) tmpdir w1 = (Ok None, w2) ->
       process_doc (App E) tmpdir acc d w1 =
       (Ok (acc.1, push acc.2 ("Übersprungen (Bild ohne ReportLab/Pillow): " ++ path d)),
        w2))).
Proof.
  intros t i.
  assert (Hrl_fail : forall e w0 w1,
             reportlab_try E src i w0 = (Raise e, w1) ->
             reportlab_strategy E src i w0 = (Ok None, w1)).
  { intros e w0 w1 H. change (reportlab_strategy E src i)
      with (try_except (reportlab_try E src i) (fun _ => ret None)).
    unfold try_except. rewrite H. reflexivity. }
  assert (Hpil_fail : forall e w0 w1,
             pillow_try E src i w0 = (Raise e, w1) ->
             pillow_strategy E src i w0 = (Ok None, w1)).
  { intros e w0 w1 H. change (pillow_strategy E src i)
      with (try_except (pillow_try E src i) (fun _ => ret None)).
    unfold try_except. rewrite H. reflexivity. }
  assert (Himg : _image_to_pdf E src tmpdir =
                 (let* r := if REPORTLAB_AVAILABLE E then reportlab_strategy E src i
                            else ret None in
                  match r with
                  | Some o => ret (Some o)
                  | None => if PIL_AVAILABLE E then pillow_strategy E src i else ret None
                  end)) by reflexivity.
  split; [repeat split|]. split; [split|].
  { destruct (txt_to_pdf_spec E src tmpdir w) as (r & w' & Hrun & _). eauto. }
  { destruct (image_to_pdf_spec E src tmpdir w) as (r & w' & Hrun & _). eauto. }
  split; [|split; [|split; [|split; [|split; [|split]]]]].
  - intros e w1 Hrl Htry.
    change (_txt_to_pdf E src tmpdir)
      with (if negb (REPORTLAB_AVAILABLE E) then ret None
            else try_except (txt_try E src t) (fun _ => cleanup E t)).
    rewrite Hrl. cbn [negb]. unfold try_except. rewrite Htry.
    apply cleanup_result.
  - intros e w0 w1. split; [apply Hrl_fail|apply Hpil_fail].
  - intros e w1 r w2 Hrl Hpil Htry Hp. rewrite Himg. unfold bind.
    rewrite Hrl, (Hrl_fail e w w1 Htry), Hpil. exact Hp.
  - intros w1 w2 H1 H2. rewrite Himg. unfold bind.
    destruct (REPORTLAB_AVAILABLE E).
    + destruct H1 as [e H1]. rewrite (Hrl_fail e w w1 H1).
      destruct (PIL_AVAILABLE E).
      * destruct H2 as [e' H2]. exact (Hpil_fail e' w1 w2 H2).
      * subst w2. reflexivity.
    + subst w1. unfold ret at 1.
      destruct (PIL_AVAILABLE E).
      * destruct H2 as [e' H2]. exact (Hpil_fail e' w w2 H2).
      * subst w2. reflexivity.
  - intros Hrl. unfold _txt_to_pdf. rewrite Hrl. reflexivity.
  - intros Hrl Hpil. unfold _image_to_pdf, bind. rewrite Hrl, Hpil. reflexivity.
  - intros acc d w1 w2. split.
    + intros Hext Hrun. unfold process_doc. fold (ext_of d). rewrite Hext.
      cbn [ext_in existsb PDF_EXTS TXT_EXTS String.eqb Ascii.eqb Bool.eqb orb].
      cbn [App txt_to_pdf]. unfold try_except, bind. rewrite Hrun. reflexivity.
    + intros Hext Hrun. unfold process_doc. fold (ext_of d).
      destruct (image_ext_cases _ Hext) as [He|[He|[He|He]]]; rewrite He;
        cbn [ext_in existsb PDF_EXTS TXT_EXTS IMAGE_EXTS String.eqb Ascii.eqb Bool.eqb orb];
        cbn [App image_to_pdf]; unfold try_except, bind; rewrite Hrun; reflexivity.
Qed.

Lemma render_errors_caught_witness :
  let t := temp_pdf CatText "/tmp/tmpx" "/d/gone.txt" in
  REPORTLAB_AVAILABLE Sample.E = true /\
  txt_try Sample.E "/d/gone.txt" t Sample.w =
    (Raise "No such file or directory: /d/gone.txt", Sample.w) /\
  exists w', _txt_to_pdf Sample.E "/d/gone.txt" "/tmp/tmpx" Sample.w = (Ok None, w') /\
             files w' !! t = None.
Proof.
  intros t. split; [reflexivity|]. split; [reflexivity|].
  pose proof (render_errors_caught Sample.E "/d/gone.txt" "/tmp/tmpx" Sample.w) as H.
  cbv zeta in H. destruct H as (_ & _ & Hfail & _).
  destruct (Hfail "No such file or directory: /d/gone.txt" Sample.w eq_refl eq_refl)
    as (w' & Hrun & Hgone & _).
  exists w'. split; [exact Hrun|]. apply Hgone. reflexivity.
Defined.

(** C5, as the claim states it, fails.  The source file of a text
    document is missing, so opening it raises inside the renderer; what the
    renderer returns, and what the loop logs, is the same as when
    reportlab is not installed: there is no separate failure outcome. *)
Lemma render_failure_not_distinct :
  let d := Doc "/d/gone.txt" false in
  REPORTLAB_AVAILABLE Sample.E = true /\
  REPORTLAB_AVAILABLE Sample.E_bare = false /\
  fs_read Sample.E "/d/gone.txt" Sample.w =
    (Raise "No such file or directory: /d/gone.txt", Sample.w) /\
  _txt_to_pdf Sample.E "/d/gone.txt" "/tmp/tmpx" Sample.w =
  _txt_to_pdf Sample.E_bare "/d/gone.txt" "/tmp/tmpx" Sample.w /\
  process_doc (App Sample.E) "/tmp/tmpx" ([], []) d Sample.w =
  process_doc (App Sample.E_bare) "/tmp/tmpx" ([], []) d Sample.w /\
  process_doc (App Sample.E) "/tmp/tmpx" ([], []) d Sample.w =
  (Ok ([], ["Übersprungen (TXT ohne ReportLab): /d/gone.txt"]), Sample.w).
Proof. repeat split; reflexivity. Qed.

(** The image renderer has no clean-up: when writing breaks off, the
    partial temporary file stays. *)
Example image_partial_output_stays :
  let E := Sample.E_write_fault "/tmp/tmpx/c_img.pdf" in
  let r := _image_to_pdf E "/d/c.png" "/tmp/tmpx" Sample.w_img in
  r.1 = Ok None /\ files r.2 !! "/tmp/tmpx/c_img.pdf" = Some truncated.
Proof. split; reflexivity. Qed.

(** ** The merge step *)

Section Merge.

Variable E : env.

Lemma merger_append_run m p w :
  merger_append E m p w = (Ok (m ++ appended E (files w) p)%list, w) \/
  (exists e, merger_append E m p w = (Raise e, w)) /\ appended E (files w) p = [].
Proof.
  unfold merger_append, appended, bind, fs_read, ret, raise.
  destruct (fault E (OpRead p)); [right; eauto|].
  destruct (files w !! p) as [f|]; [|right; eauto].
  destruct (as_pdf f); cbn; [left; reflexivity|right; eauto].
Qed.

(** The loop over the inputs reads files and changes nothing. *)
Lemma append_all_run paths : forall m w,
  append_all E paths m w = (Ok (m ++ merged_pages E (files w) paths)%list, w).
Proof.
  induction paths as [|p rest IH]; intros m w; cbn [append_all].
  - unfold ret, merged_pages. cbn. rewrite app_nil_r. reflexivity.
  - unfold bind, try_except.
    destruct (merger_append_run m p w) as [->|[[e ->] Hnone]].
    + rewrite IH. unfold merged_pages. cbn [map concat].
      rewrite <- app_assoc. reflexivity.
    + unfold ret. rewrite IH. unfold merged_pages. cbn [map concat].
      rewrite Hnone. reflexivity.
Qed.

(** The four ways through [_merge_pdfs]. *)
Lemma merge_pdfs_run parts out w :
  _merge_pdfs E parts out w =
  if negb (PdfMerger E) then (Ok false, w)
  else match fault E (OpCreate out) with
       | Some _ => (Ok false, w)
       | None =>
           match fault E (OpWrite out) with
           | Some _ => (Ok false, set_files (insert out truncated) w)
           | None =>
               (Ok true,
                set_files (insert out (pdf_file E (merged_pages E (files w) parts))) w)
           end
       end.
Proof.
  unfold _merge_pdfs. destruct (negb (PdfMerger E)); [reflexivity|].
  unfold try_except, bind. rewrite append_all_run.
  unfold fs_create. destruct (fault E (OpCreate out)); [reflexivity|].
  unfold fs_write. cbn [app].
  destruct (fault E (OpWrite out)); unfold ret, set_files; cbn [files events];
    rewrite insert_insert_eq; reflexivity.
Qed.

Lemma append_fails_none fs p : append_fails E fs p -> appended E fs p = [].
Proof.
  unfold append_fails, appended.
  intros [H|[H|(f & Hf & Hpdf)]].
  - destruct (fault E (OpRead p)); [reflexivity|contradiction].
  - rewrite H. destruct (fault E (OpRead p)); reflexivity.
  - rewrite Hf, Hpdf. destruct (fault E (OpRead p)); reflexivity.
Qed.

Lemma append_fails_raises fs p m evs :
  append_fails E fs p ->
  exists e, merger_append E m p (World fs evs) = (Raise e, World fs evs).
Proof.
  unfold append_fails, merger_append, bind, fs_read, raise. cbn [files].
  intros [H|[H|(f & Hf & Hpdf)]].
  - destruct (fault E (OpRead p)); [eauto|contradiction].
  - rewrite H. destruct (fault E (OpRead p)); eauto.
  - rewrite Hf. destruct (fault E (OpRead p)); [eauto|]. rewrite Hpdf. eauto.
Qed.

End Merge.

(** ** The loop over the documents *)

Section Loop.

Variable E : env.
Variable tmpdir : string.

Lemma outside_refl w : outside tmpdir w w.
Proof. split; auto. Qed.

Lemma outside_trans w1 w2 w3 :
  outside tmpdir w1 w2 -> outside tmpdir w2 w3 -> outside tmpdir w1 w3.
Proof.
  intros [He1 Hf1] [He2 Hf2]. split; [congruence|].
  intros p Hp. rewrite Hf2, Hf1; auto.
Qed.

Lemma only_touches_outside c src w w' :
  only_touches (temp_pdf c tmpdir src) w w' -> outside tmpdir w w'.
Proof.
  intros [He Hf]. split; [exact He|]. intros p Hp. apply Hf.
  intros ->. rewrite temp_under in Hp. discriminate.
Qed.

(** What a converter call leaves in the two lists. *)
Lemma converted_outcome c (conv : string -> string -> M (option string))
    acc d ok skip w :
  is_ok ok = true -> is_ok skip = false ->
  (exists r w', conv (path d) tmpdir w = (Ok r, w') /\
                only_touches (temp_pdf c tmpdir (path d)) w w' /\
                (r = None \/ r = Some (temp_pdf c tmpdir (path d)))) ->
  exists line w',
    outside tmpdir w w' /\
    (try_except
       (let* pdfp := conv (path d) tmpdir in append_or_log acc pdfp ok skip)
       (fun e => ret (acc.1, push acc.2 (failed_line d e))) w
     = (Ok (push acc.1 (temp_pdf c tmpdir (path d)), push acc.2 line), w') /\
     is_ok line = true
     \/
     try_except
       (let* pdfp := conv (path d) tmpdir in append_or_log acc pdfp ok skip)
       (fun e => ret (acc.1, push acc.2 (failed_line d e))) w
     = (Ok (acc.1, push acc.2 line), w') /\
     is_ok line = false).
Proof.
  intros Hok Hskip (r & w' & Hrun & Ht & Hr).
  apply only_touches_outside in Ht.
  unfold try_except, bind. rewrite Hrun.
  destruct Hr as [->| ->].
  - exists skip, w'. split; [exact Ht|]. right. split; [reflexivity|exact Hskip].
  - exists ok, w'. split; [exact Ht|]. left. split; [|exact Hok].
    destruct (temp_nonempty c tmpdir (path d)) as (a & s & ->). reflexivity.
Qed.

Lemma process_doc_outcome acc d w :
  exists line w',
    outside tmpdir w w' /\
    (process_doc (App E) tmpdir acc d w
       = (Ok (push acc.1 (part_of tmpdir d), push acc.2 line), w') /\
     is_ok line = true
     \/
     process_doc (App E) tmpdir acc d w = (Ok (acc.1, push acc.2 line), w') /\
     is_ok line = false).
Proof.
  unfold process_doc, part_of, category_of. fold (ext_of d).
  change (fun e : string => ret (acc.1, push acc.2 ("Fehler bei " ++ path d ++ ": " ++ e)))
    with (fun e : string => ret (A:=lists) (acc.1, push acc.2 (failed_line d e))).
  destruct (ext_in (ext_of d) PDF_EXTS).
  { do 2 eexists. split; [apply outside_refl|]. left. split; reflexivity. }
  destruct (ext_in (ext_of d) TXT_EXTS).
  { apply (converted_outcome CatText); [reflexivity|reflexivity|].
    cbn [App txt_to_pdf].
    destruct (txt_to_pdf_spec E (path d) tmpdir w) as (r & w' & Hrun & Ht & Hr).
    exists r, w'. split; [exact Hrun|]. split; [exact Ht|].
    destruct Hr as [[-> _]|[-> _]]; auto. }
  destruct (ext_in (ext_of d) IMAGE_EXTS).
  { apply (converted_outcome CatImage); [reflexivity|reflexivity|].
    cbn [App image_to_pdf].
    destruct (image_to_pdf_spec E (path d) tmpdir w) as (r & w' & Hrun & Ht & Hr).
    exists r, w'. split; [exact Hrun|]. split; [exact Ht|].
    destruct Hr as [->|[-> _]]; auto. }
  destruct (ext_in (ext_of d) WORD_EXTS).
  { apply (converted_outcome CatOffice); [reflexivity|reflexivity|].
    cbn [App office_to_pdf].
    destruct (office_to_pdf_spec E (path d) tmpdir w) as (r & w' & Hrun & Ht & Hr).
    exists r, w'. split; [exact Hrun|]. split; [exact Ht|].
    destruct Hr as [->|[-> _]]; auto. }
  do 2 eexists. split; [apply outside_refl|]. right. split; reflexivity.
Qed.

Lemma collect_outcomes docs : forall acc w,
  exists parts log w',
    collect (App E) tmpdir docs acc w = (Ok ((acc.1 ++ parts)%list, (acc.2 ++ log)%list), w') /\
    Outcomes tmpdir docs log parts /\
    outside tmpdir w w'.
Proof.
  induction docs as [|d rest IH]; intros acc w; cbn [collect].
  - exists [], [], w. rewrite !app_nil_r. destruct acc.
    split; [reflexivity|]. split; [constructor|apply outside_refl].
  - unfold bind.
    destruct (process_doc_outcome acc d w) as (line & w1 & Ho1 & [[-> Hok]|[-> Hok]]).
    + destruct (IH (push acc.1 (part_of tmpdir d), push acc.2 line) w1)
        as (parts & log & w2 & -> & Hout & Ho2).
      exists (part_of tmpdir d :: parts), (line :: log), w2.
      cbn [fst snd]. unfold push. rewrite <- !app_assoc.
      split; [reflexivity|]. split; [constructor; assumption|].
      eapply outside_trans; eassumption.
    + destruct (IH (acc.1, push acc.2 line) w1)
        as (parts & log & w2 & -> & Hout & Ho2).
      exists parts, (line :: log), w2.
      cbn [fst snd]. unfold push. rewrite <- !app_assoc.
      split; [reflexivity|]. split; [apply Outcomes_other; assumption|].
      eapply outside_trans; eassumption.
Qed.

(** What the relation says in numbers. *)
Lemma Outcomes_count docs log parts :
  Outcomes tmpdir docs log parts ->
  length log = length docs /\
  length parts = length (List.filter is_ok log).
Proof.
  induction 1 as [|d docs line log parts Hok _ [IH1 IH2]
                  |d docs line log parts Hok _ [IH1 IH2]]; cbn [length List.filter].
  - auto.
  - rewrite Hok. cbn [length]. auto.
  - rewrite Hok. auto.
Qed.

(** A list of PDFs goes into the merge list as it is. *)
Lemma collect_pdfs docs : forall acc w,
  Forall (fun d => ext_of d = ".pdf") docs ->
  collect (App E) tmpdir docs acc w =
  (Ok ((acc.1 ++ map path docs)%list,
       (acc.2 ++ map pdf_line docs)%list), w).
Proof.
  induction docs as [|d rest IH]; intros acc w Hall; cbn [collect map].
  - rewrite !app_nil_r. destruct acc. reflexivity.
  - inversion Hall as [|? ? Hd Hrest]; subst.
    unfold bind, process_doc. fold (ext_of d). rewrite Hd.
    cbn [ext_in existsb PDF_EXTS]. unfold try_except, ret.
    change (String.eqb ".pdf" ".pdf") with true. cbn [orb].
    rewrite IH by assumption. cbn [fst snd]. unfold push.
    rewrite <- !app_assoc. reflexivity.
Qed.

End Loop.

(** ** The run of the worker *)

Section Run.

Variable E : env.

Lemma merge_pdfs_outcome parts out w :
  _merge_pdfs E parts out w =
  match merge_outcome_of E out with
  | MergeWritten =>
      (Ok true, set_files (insert out (pdf_file E (merged_pages E (files w) parts))) w)
  | MergeBrokeOff => (Ok false, set_files (insert out truncated) w)
  | _ => (Ok false, w)
  end.
Proof.
  rewrite merge_pdfs_run. unfold merge_outcome_of.
  destruct (negb (PdfMerger E)); [reflexivity|].
  destruct (fault E (OpCreate out)); [reflexivity|].
  destruct (fault E (OpWrite out)); reflexivity.
Qed.

(** The worker on a non-empty filtered list, given what its loop
    returns. *)
Lemma worker_run topics topic filter_mode w parts log w1 :
  let docs := filter_docs filter_mode (list_docs topics topic) in
  docs <> [] ->
  collected E docs w = (Ok (parts, log), w1) ->
  _create_collection_pdf_worker E topics topic filter_mode w =
  (Ok tt, finish E (after_loop E (out_path_of E topic filter_mode) parts w1)).
Proof.
  intros docs Hne Hloop. unfold _create_collection_pdf_worker, worker.
  fold docs. destruct docs as [|d ds] eqn:Hdocs; [contradiction|].
  unfold bind at 1, _set_busy, try_finally, export_docs, TemporaryDirectory.
  unfold collected, loop_start in Hloop.
  unfold bind at 1. rewrite Hloop. cbn [fst snd].
  unfold after_loop, finish.
  destruct parts as [|p ps]; [reflexivity|].
  cbn [App merge_pdfs]. unfold bind. rewrite merge_pdfs_outcome.
  destruct (merge_outcome_of E (out_path_of E topic filter_mode)); reflexivity.
Qed.

(** The loop of the worker always returns, with the outcomes of the
    documents, and leaves events and files outside the temporary
    directory alone. *)
Lemma collected_outcomes docs w :
  exists parts log w1,
    collected E docs w = (Ok (parts, log), w1) /\
    Outcomes (mkdtemp E) docs log parts /\
    outside (mkdtemp E) (loop_start E w) w1.
Proof.
  destruct (collect_outcomes E (mkdtemp E) docs ([], []) (loop_start E w))
    as (parts & log & w1 & Hrun & Hout & Hfr).
  exists parts, log, w1. auto.
Qed.

Lemma new_events_app w w' evs :
  events w' = (events w ++ evs)%list -> new_events w w' = evs.
Proof. intros H. unfold new_events. rewrite H. apply drop_app_length. Qed.

(** The events of a run on a non-empty list: the notification stands
    between the creation and the removal of the temporary directory. *)
Lemma finish_events out parts w w1 :
  events w1 = events (loop_start E w) ->
  new_events w (finish E (after_loop E out parts w1)) =
    [EvBusy true; EvMkdtemp (mkdtemp E);
     EvInfo (notification E out parts).1 (notification E out parts).2;
     EvRmtree (mkdtemp E); EvBusy false].
Proof.
  intros Hev.
  assert (Hstart : events (loop_start E w) =
                   (events w ++ [EvBusy true; EvMkdtemp (mkdtemp E)])%list).
  { unfold loop_start, emit. cbn [events]. rewrite <- app_assoc. reflexivity. }
  assert (H : events (after_loop E out parts w1) =
              (events w1 ++ [EvInfo (notification E out parts).1
                               (notification E out parts).2])%list).
  { unfold after_loop, notification. destruct parts; [reflexivity|].
    destruct (merge_outcome_of E out); reflexivity. }
  apply new_events_app. unfold finish, emit. cbn [events set_files].
  rewrite H, Hev, Hstart. rewrite <- !app_assoc. reflexivity.
Qed.

(** The one job result of a run on a non-empty list. *)
Lemma notification_result out parts :
  job_result_of (notification E out parts).1 (notification E out parts).2 =
  Some match parts with
       | [] => NothingToMerge
       | _ => match merge_outcome_of E out with
              | MergeWritten => Success (msg_success out)
              | _ => MergeFailed
              end
       end.
Proof.
  unfold notification. destruct parts; [reflexivity|].
  destruct (merge_outcome_of E out); reflexivity.
Qed.

Lemma job_results_run d title msg :
  job_results [EvBusy true; EvMkdtemp d; EvInfo title msg; EvRmtree d; EvBusy false] =
  match job_result_of title msg with
  | Some r => [r]
  | None => []
  end.
Proof.
  unfold job_results. cbn. destruct (job_result_of title msg); reflexivity.
Qed.

Lemma worker_empty topics topic filter_mode w :
  filter_docs filter_mode (list_docs topics topic) = [] ->
  _create_collection_pdf_worker E topics topic filter_mode w =
  (Ok tt, emit (EvBusy false) (emit (EvInfo "Info" msg_no_input) (emit (EvBusy true) w))).
Proof.
  intros Hnil. unfold _create_collection_pdf_worker, worker. rewrite Hnil.
  reflexivity.
Qed.

(** What the files are at a path outside the temporary directory when
    the steps after the loop are done. *)
Lemma after_loop_lookup out parts w w1 :
  outside (mkdtemp E) (loop_start E w) w1 ->
  PathLib.under (mkdtemp E) out = false ->
  files (after_loop E out parts w1) !! out =
  match parts with
  | [] => files w !! out
  | _ =>
      match merge_outcome_of E out with
      | MergeWritten => Some (pdf_file E (merged_pages E (files w1) parts))
      | MergeBrokeOff => Some truncated
      | _ => files w !! out
      end
  end.
Proof.
  intros [_ Hfr] Hout. specialize (Hfr out Hout). cbn [loop_start emit files] in Hfr.
  unfold after_loop. destruct parts; [exact Hfr|].
  destruct (merge_outcome_of E out); cbn [emit set_files files];
    rewrite ?lookup_insert_eq; auto.
Qed.

(** What the finished run left at a path outside the temporary
    directory. *)
Lemma finish_lookup p w :
  PathLib.under (mkdtemp E) p = false ->
  files (finish E w) !! p = files w !! p.
Proof.
  intros Hp. unfold finish, emit, set_files. cbn [files].
  apply rmtree_outside, Hp.
Qed.

End Run.

(** ** C1: the output file on a run that does not succeed *)




(** ** C2: the merge list and the order of the pages *)

(** C2. The loop always returns; its merge list has one entry for each
    document whose log line reports it merged, no other entry, in the
    order of the documents ([Outcomes]).  A merge that succeeds writes the
    pages of the entries in list order.  For a non-empty list of PDFs
    every document is merged, the merge list is the list of their paths
    in input order, and the output of a successful job holds their pages
    in that order. *)
Theorem merge_list_follows_documents (E : env) :
  (forall tmpdir docs w,
      exists parts log w',
        collect (App E) tmpdir docs ([], []) w = (Ok (parts, log), w') /\
        Outcomes tmpdir docs log parts /\
        length log = length docs /\
        length parts = length (List.filter is_ok log)) /\
  (forall parts out w w',
      _merge_pdfs E parts out w = (Ok true, w') ->
      files w' !! out = Some (pdf_file E (concat (map (appended E (files w)) parts)))) /\
  (forall topics topic filter_mode w,
      let docs := filter_docs filter_mode (list_docs topics topic) in
      let out := out_path_of E topic filter_mode in
      let r := _create_collection_pdf_worker E topics topic filter_mode w in
      docs <> [] ->
      Forall (fun d => ext_of d = ".pdf") docs ->
      collected E docs w = (Ok (map path docs, map pdf_line docs), loop_start E w) /\
      Forall (fun line => is_ok line = true) (map pdf_line docs) /\
      (merge_outcome_of E out = MergeWritten ->
       PathLib.under (mkdtemp E) out = false ->
       job_results (new_events w r.2) = [Success (msg_success out)] /\
       files r.2 !! out =
         Some (pdf_file E (concat (map (appended E (files w)) (map path docs)))))).
Proof.
  split; [|split].
  - intros tmpdir docs w.
    destruct (collect_outcomes E tmpdir docs ([], []) w)
      as (parts & log & w' & Hrun & Hout & _).
    destruct (Outcomes_count tmpdir docs log parts Hout) as [Hl Hp].
    exists parts, log, w'. auto.
  - intros parts out w w'. rewrite merge_pdfs_outcome.
    destruct (merge_outcome_of E out); intros [= <-].
    cbn [set_files files]. apply lookup_insert_eq.
  - intros topics topic filter_mode w docs out r Hne Hpdf.
    assert (Hrun : collected E docs w =
                   (Ok (map path docs, map pdf_line docs), loop_start E w)).
    { unfold collected. rewrite (collect_pdfs E (mkdtemp E) docs ([], [])) by assumption.
      reflexivity. }
    split; [exact Hrun|]. split.
    { apply Forall_map. apply Forall_forall. intros d _. reflexivity. }
    intros Hmerge Hout. subst r.
    rewrite (worker_run E topics topic filter_mode w _ _ _ Hne Hrun).
    cbn [snd]. fold out.
    rewrite finish_events by reflexivity.
    rewrite finish_lookup by assumption.
    rewrite (after_loop_lookup E out _ w _ (outside_refl _ _) Hout).
    rewrite job_results_run, notification_result.
    fold docs.
    destruct (map path docs) eqn:Hparts.
    { destruct docs; [contradiction|discriminate]. }
    rewrite Hmerge. split; reflexivity.
Qed.

Lemma merge_list_follows_documents_witness :
  let r := _create_collection_pdf_worker Sample.E Sample.topics "T" "alle" Sample.w in
  map path (filter_docs "alle" (list_docs Sample.topics "T")) = ["/d/b.pdf"; "/d/a.pdf"] /\
  files r.2 !! Sample.out =
    Some (pdf_file Sample.E [Sample.pg "b1"; Sample.pg "a1"; Sample.pg "a2"]).
Proof.
  intros r. split; [reflexivity|].
  destruct (proj2 (proj2 (merge_list_follows_documents Sample.E))
              Sample.topics "T" "alle" Sample.w) as (_ & _ & Hjob).
  - discriminate.
  - repeat constructor.
  - destruct (Hjob eq_refl eq_refl) as [_ Hfile]. exact Hfile.
Defined.

(** ** C9: a merge in which no input could be appended *)

(** C9, as the code has it.  An input fails to append when
    [merger.append] raises on it.
    With a merge library, a non-empty merge list and an output file that
    can be written, the merge step returns [True] and the job reports
    success with the output path, whatever happens to the single inputs;
    when every input fails to append, the output it wrote has no
    pages. *)
Theorem failed_appends_still_success (E : env) :
  (forall fs evs p m,
      append_fails E fs p ->
      exists e, merger_append E m p (World fs evs) = (Raise e, World fs evs)) /\
  (forall parts out w,
      PdfMerger E = true -> parts <> [] ->
      fault E (OpCreate out) = None -> fault E (OpWrite out) = None ->
      (exists w', _merge_pdfs E parts out w = (Ok true, w')) /\
      (Forall (append_fails E (files w)) parts ->
       _merge_pdfs E parts out w = (Ok true, set_files (insert out (pdf_file E [])) w))) /\
  (forall topics topic filter_mode w parts log w1,
      let docs := filter_docs filter_mode (list_docs topics topic) in
      let out := out_path_of E topic filter_mode in
      let r := _create_collection_pdf_worker E topics topic filter_mode w in
      docs <> [] ->
      collected E docs w = (Ok (parts, log), w1) ->
      PdfMerger E = true -> parts <> [] ->
      fault E (OpCreate out) = None -> fault E (OpWrite out) = None ->
      job_results (new_events w r.2) = [Success (msg_success out)] /\
      (Forall (append_fails E (files w1)) parts ->
       PathLib.under (mkdtemp E) out = false ->
       files r.2 !! out = Some (pdf_file E []))).
Proof.
  assert (Hnone : forall fs parts,
             Forall (append_fails E fs) parts -> merged_pages E fs parts = []).
  { intros fs parts Hall. unfold merged_pages.
    induction Hall as [|p ps Hp _ IH]; cbn [map concat]; [reflexivity|].
    rewrite (append_fails_none E fs p Hp), IH. reflexivity. }
  assert (Hwritten : forall out, PdfMerger E = true ->
             fault E (OpCreate out) = None -> fault E (OpWrite out) = None ->
             merge_outcome_of E out = MergeWritten).
  { intros out Hm Hc Hw. unfold merge_outcome_of. rewrite Hm, Hc, Hw. reflexivity. }
  split; [intros fs evs p m; apply append_fails_raises|]. split.
  - intros parts out w Hm Hne Hc Hw. rewrite merge_pdfs_outcome.
    rewrite (Hwritten out Hm Hc Hw). split; [eauto|].
    intros Hall. rewrite (Hnone _ _ Hall). reflexivity.
  - intros topics topic filter_mode w parts log w1 docs out r Hdocs Hrun Hm Hne Hc Hw.
    subst r.
    rewrite (worker_run E topics topic filter_mode w parts log w1 Hdocs Hrun).
    cbn [snd]. fold out.
    destruct (collected_outcomes E docs w) as (parts' & log' & w1' & Hrun' & _ & Hfr).
    rewrite Hrun in Hrun'. injection Hrun' as <- <- <-.
    rewrite finish_events by apply Hfr.
    rewrite job_results_run, notification_result.
    rewrite (Hwritten out Hm Hc Hw).
    destruct parts as [|p ps]; [contradiction|]. split; [reflexivity|].
    intros Hall Hout.
    rewrite finish_lookup by assumption.
    rewrite (after_loop_lookup E out _ w _ Hfr Hout).
    rewrite (Hwritten out Hm Hc Hw), (Hnone _ _ Hall). reflexivity.
Qed.

Lemma failed_appends_still_success_witness :
  let r := _create_collection_pdf_worker Sample.E Sample.topics "T" "alle" Sample.w_junk in
  Forall (append_fails Sample.E (files Sample.w_junk)) ["/d/b.pdf"; "/d/a.pdf"] /\
  job_results (new_events Sample.w_junk r.2) = [Success (msg_success Sample.out)] /\
  files r.2 !! Sample.out = Some (pdf_file Sample.E []).
Proof.
  intros r.
  assert (Hfail : Forall (append_fails Sample.E (files Sample.w_junk))
                    ["/d/b.pdf"; "/d/a.pdf"]).
  { constructor; [right; right; exists Sample.junk; split; reflexivity|].
    constructor; [right; right; exists Sample.junk; split; reflexivity|].
    constructor. }
  split; [exact Hfail|].
  pose proof (proj2 (proj2 (failed_appends_still_success Sample.E))
                Sample.topics "T" "alle" Sample.w_junk
                ["/d/b.pdf"; "/d/a.pdf"]
                ["OK: PDF übernommen: /d/b.pdf"; "OK: PDF übernommen: /d/a.pdf"]
                (loop_start Sample.E Sample.w_junk)) as H.
  cbv zeta in H.
  specialize (H ltac:(discriminate) eq_refl eq_refl ltac:(discriminate) eq_refl eq_refl).
  destruct H as [Hres Hfile].
  split; [exact Hres|]. apply Hfile; [exact Hfail|reflexivity].
Defined.

(** C9, as the claim states it, fails.  The merge library is there and
    the merge list has two entries, both of which append; the output
    file cannot be opened, so the merge step returns [False] and the job
    reports a failed merge. *)
Lemma unwritable_output_fails_merge :
  let E := Sample.E_open_fault Sample.out in
  let r := _create_collection_pdf_worker E Sample.topics "T" "alle" Sample.w in
  PdfMerger E = true /\
  out_path_of E "T" "alle" = Sample.out /\
  collected E (filter_docs "alle" (list_docs Sample.topics "T")) Sample.w =
    (Ok (["/d/b.pdf"; "/d/a.pdf"],
         ["OK: PDF übernommen: /d/b.pdf"; "OK: PDF übernommen: /d/a.pdf"]),
     loop_start E Sample.w) /\
  _merge_pdfs E ["/d/b.pdf"; "/d/a.pdf"] Sample.out (loop_start E Sample.w) =
    (Ok false, loop_start E Sample.w) /\
  job_results (new_events Sample.w r.2) = [MergeFailed] /\
  job_results (new_events Sample.w r.2) <> [Success (msg_success Sample.out)].
Proof.
  intros E r. split; [reflexivity|]. split; [reflexivity|]. split; [reflexivity|].
  split; [reflexivity|].
  assert (H : job_results (new_events Sample.w r.2) = [MergeFailed]) by reflexivity.
  split; [exact H|]. rewrite H. discriminate.
Qed.

(** ** C10: sources with the same stem *)

Section Collision.

Variable E : env.
Variable tmpdir : string.







(** The pages of the merge after [t] was overwritten with [X]: every
    entry that names [t] gives [X]. *)
Lemma merged_pages_overwritten (fs : gmap string file) t X parts :
  fault E (OpRead t) = None ->
  merged_pages E (<[t := pdf_file E X]> fs) parts =
  concat (map (fun p => if decide (p = t) then X else appended E fs p) parts).
Proof.
  intros Hr. unfold merged_pages. f_equal. apply map_ext. intros p.
  unfold appended. destruct (decide (p = t)) as [->|Hne].
  - rewrite Hr, lookup_insert_eq. reflexivity.
  - rewrite lookup_insert_ne by congruence. reflexivity.
Qed.

End Collision.

(** ** The loop, piece by piece *)

Section Segments.

Variable E : env.
Variable tmpdir : string.








End Segments.




(** The hypothesis of C10 in the other two categories: an image that
    reportlab draws, an office file that the first engine converts. *)
Lemma image_writes (E : env) (tmpdir src : string) (w : world) (f : file) (img : image) :
  let t := temp_pdf CatImage tmpdir src in
  REPORTLAB_AVAILABLE E = true ->
  files w !! src = Some f ->
  as_image f = Some img ->
  iw img <> 0 -> ih img <> 0 ->
  fault E (OpRead src) = None ->
  fault E (OpCreate t) = None ->
  fault E (OpWrite t) = None ->
  writes E CatImage tmpdir src w (reportlab_image_pages img).
Proof.
  intros t Hrl Hf Him Hw Hh Hr Hc Hwr. unfold writes. cbn [converter].
  unfold _image_to_pdf. fold (temp_pdf CatImage tmpdir src). fold t. rewrite Hrl.
  unfold bind at 1, reportlab_strategy, try_except, bind at 1, read_image, bind at 1,
    fs_read.
  rewrite Hr, Hf, Him. unfold ret at 1.
  unfold bind at 1, image_canvas.
  destruct (Z.eqb_spec (iw img) 0) as [|_]; [contradiction|].
  destruct (Z.eqb_spec (ih img) 0) as [|_]; [contradiction|].
  cbn [orb]. unfold ret at 1.
  unfold bind at 1. rewrite save_runs by (try reflexivity; assumption).
  reflexivity.
Qed.

Lemma office_writes (E : env) (tmpdir src : string) (w : world) (st : Z)
    (X : list page) :
  which E "soffice" = true ->
  office_engine E "soffice" src (files w !! src) = Engine None st (Some X) ->
  writes E CatOffice tmpdir src w X.
Proof.
  intros Hwhich Heng. unfold writes. cbn [converter].
  unfold _office_to_pdf. cbn [try_candidates]. unfold bind.
  rewrite (try_candidate_returned E src tmpdir "soffice" w st (Some X) Hwhich Heng).
  unfold exists_in, engine_world. cbn [set_files files].
  rewrite lookup_insert_eq. rewrite bool_decide_true by eauto. reflexivity.
Qed.

(** ** A mixed job

    The scenario of the specification: a PDF, a text file and an image,
    no office engine, reportlab and Pillow installed.  All three are
    merged, in the order of the list. *)

Example mixed_job :
  let fs := <["/d/b.txt" := Sample.txt 1]> (<["/d/c.png" := Sample.c_png]> Sample.fs) in
  let topics : gmap string (list doc) :=
    {[ "T" := [Doc "/d/a.pdf" true; Doc "/d/b.txt" false; Doc "/d/c.png" false] ]} in
  let r := _create_collection_pdf_worker Sample.E topics "T" "alle" (World fs []) in
  job_results (events r.2) = [Success (msg_success Sample.out)] /\
  files r.2 !! Sample.out =
    Some (pdf_file Sample.E
            ([Sample.pg "a1"; Sample.pg "a2";
              [SetFont "Helvetica" 11; DrawString 7200 99720 "line"]]
             ++ reportlab_image_pages (Img 100 200 7))) /\
  files r.2 !! "/tmp/tmpx/b_txt.pdf" = None /\
  files r.2 !! "/tmp/tmpx/c_img.pdf" = None.
Proof. repeat split; vm_compute; reflexivity. Qed.

(** * Further properties of the code *)

(** ** The catalog *)

Section Catalog.

Variable w : world.

Lemma add_loop_spec known paths : forall docs added,
  State.add_loop w known paths docs added =
  ((docs ++ map (fun p => Doc p false) (List.filter (State.accepts w known) paths))%list,
   (added + length (List.filter (State.accepts w known) paths))%nat).
Proof.
  induction paths as [|p rest IH]; intros docs added; cbn [State.add_loop List.filter].
  - cbn. rewrite app_nil_r, Nat.add_0_r. reflexivity.
  - destruct (State.accepts w known p); rewrite IH; cbn [map length].
    + rewrite <- app_assoc. f_equal. lia.
    + reflexivity.
Qed.

Lemma ensure_topic_docs s topic :
  list_docs (State.topics (State.ensure_topic s topic)) topic =
  list_docs (State.topics s) topic.
Proof.
  unfold State.ensure_topic, list_docs.
  destruct (State.topics s !! topic) eqn:H; [rewrite H; reflexivity|].
  cbn [State.topics]. rewrite lookup_insert_eq. reflexivity.
Qed.

Lemma ensure_topic_other s topic other :
  other <> topic ->
  State.topics (State.ensure_topic s topic) !! other = State.topics s !! other.
Proof.
  intros Hne. unfold State.ensure_topic.
  destruct (State.topics s !! topic); [reflexivity|].
  cbn [State.topics]. apply lookup_insert_ne. congruence.
Qed.

Lemma ensure_topic_current s topic :
  State.current_topic (State.ensure_topic s topic) = State.current_topic s.
Proof. unfold State.ensure_topic. destruct (State.topics s !! topic); reflexivity. Qed.

Lemma add_docs_docs s topic paths :
  list_docs (State.topics (State.add_docs w s topic paths).1) topic =
  (list_docs (State.topics s) topic ++
   map (fun p => Doc p false)
     (List.filter (State.accepts w (map path (list_docs (State.topics s) topic))) paths))%list.
Proof.
  unfold State.add_docs. cbn [fst State.topics]. rewrite add_loop_spec. cbn [fst].
  unfold list_docs at 1. rewrite lookup_insert_eq. cbn [default].
  rewrite ensure_topic_docs. reflexivity.
Qed.

End Catalog.

(** X1. [add_docs] appends to the documents of the topic, in the order
    of [paths], one unread document for each path that is an existing
    file with a supported extension and was not in the topic before the
    call; it returns the number of documents appended, keeps the earlier
    documents in place and leaves the other topics and the current topic
    alone. *)
Theorem add_docs_appends (w : world) (s : State.t) (topic : string) (paths : list string) :
  let r := State.add_docs w s topic paths in
  let old := list_docs (State.topics s) topic in
  let new := List.filter (State.accepts w (map path old)) paths in
  list_docs (State.topics r.1) topic = (old ++ map (fun p => Doc p false) new)%list /\
  r.2 = length new /\
  length (list_docs (State.topics r.1) topic) = (length old + r.2)%nat /\
  (forall p, p ∈ new <->
             p ∈ paths /\ State.isfile w p = true /\
             ext_in (Str.lower (PathLib.suffix p)) SUPPORTED_EXTS = true /\
             (p ∉ map path old)) /\
  (forall other, other <> topic ->
                 State.topics r.1 !! other = State.topics s !! other) /\
  State.current_topic r.1 = State.current_topic s.
Proof.
  intros r old new. subst r.
  assert (Hcount : (State.add_docs w s topic paths).2 = length new).
  { unfold State.add_docs. cbn [snd]. rewrite add_loop_spec. cbn [snd].
    rewrite ensure_topic_docs. reflexivity. }
  split; [apply add_docs_docs|]. split; [exact Hcount|]. split; [|split; [|split]].
  - rewrite add_docs_docs, Hcount. fold old. fold new.
    rewrite length_app, length_map. reflexivity.
  - intros p. subst new. rewrite list_elem_of_In, filter_In, <- list_elem_of_In.
    unfold State.accepts. rewrite !andb_true_iff, negb_true_iff, bool_decide_eq_false.
    tauto.
  - intros other Hne. unfold State.add_docs. cbn [fst State.topics].
    rewrite lookup_insert_ne by congruence. apply ensure_topic_other, Hne.
  - unfold State.add_docs. cbn [fst State.current_topic]. apply ensure_topic_current.
Qed.

(** X2. [add_docs] keeps the paths of a topic free of duplicates when
    the paths handed to it are themselves free of duplicates. *)
Theorem add_docs_no_duplicates (w : world) (s : State.t) (topic : string)
    (paths : list string) :
  NoDup (map path (list_docs (State.topics s) topic)) ->
  NoDup paths ->
  NoDup (map path (list_docs (State.topics (State.add_docs w s topic paths).1) topic)).
Proof.
  intros Hold Hpaths. rewrite add_docs_docs, map_app, map_map. cbn [path].
  rewrite map_id. apply NoDup_app. split; [exact Hold|]. split.
  - intros p Hp Hnew. apply list_elem_of_In, filter_In in Hnew as [_ Hacc].
    unfold State.accepts in Hacc. rewrite !andb_true_iff, negb_true_iff in Hacc.
    destruct Hacc as [_ Hknown]. apply bool_decide_eq_false in Hknown. contradiction.
  - apply NoDup_ListNoDup, List.NoDup_filter, NoDup_ListNoDup, Hpaths.
Qed.

Lemma add_docs_no_duplicates_witness :
  NoDup ["/d/b.pdf"; "/d/a.pdf"; "/d/zzz.pdf"] /\
  map path (list_docs
              (State.topics
                 (State.add_docs Sample.w (State.Make Sample.topics None) "T"
                    ["/d/b.pdf"; "/d/a.pdf"; "/d/zzz.pdf"]).1) "T")
  = ["/d/b.pdf"; "/d/a.pdf"] /\
  NoDup (map path (list_docs
                     (State.topics
                        (State.add_docs Sample.w (State.Make Sample.topics None) "T"
                           ["/d/b.pdf"; "/d/a.pdf"; "/d/zzz.pdf"]).1) "T")).
Proof.
  assert (Hp : NoDup ["/d/b.pdf"; "/d/a.pdf"; "/d/zzz.pdf"]).
  { apply NoDup_ListNoDup. repeat constructor; cbn; intuition discriminate. }
  split; [exact Hp|]. split; [reflexivity|].
  apply add_docs_no_duplicates; [|exact Hp].
  apply NoDup_ListNoDup. repeat constructor; cbn; intuition discriminate.
Defined.

(** X3. The set of known paths is computed once, before the loop: a new
    path that occurs twice in one call is added twice, so the paths of
    the topic are no longer free of duplicates. *)
Theorem add_docs_repeated_path (w : world) (s : State.t) (topic p : string) :
  State.accepts w (map path (list_docs (State.topics s) topic)) p = true ->
  let r := State.add_docs w s topic [p; p] in
  list_docs (State.topics r.1) topic =
    (list_docs (State.topics s) topic ++ [Doc p false; Doc p false])%list /\
  r.2 = 2%nat /\
  ~ NoDup (map path (list_docs (State.topics r.1) topic)).
Proof.
  intros Hacc r. subst r.
  assert (Hdocs : list_docs (State.topics (State.add_docs w s topic [p; p]).1) topic =
                  (list_docs (State.topics s) topic ++ [Doc p false; Doc p false])%list).
  { rewrite add_docs_docs. cbn [List.filter]. rewrite Hacc. reflexivity. }
  split; [exact Hdocs|]. split.
  - unfold State.add_docs. cbn [snd]. rewrite add_loop_spec, ensure_topic_docs.
    cbn [snd List.filter]. rewrite Hacc. reflexivity.
  - rewrite Hdocs, map_app. cbn [map path]. intros Hnd.
    apply NoDup_app in Hnd as (_ & _ & Hnd).
    apply NoDup_cons in Hnd as [Hnotin _]. apply Hnotin. left.
Qed.

Lemma add_docs_repeated_path_witness :
  let r := State.add_docs Sample.w (State.Make ∅ None) "T" ["/d/a.pdf"; "/d/a.pdf"] in
  State.accepts Sample.w [] "/d/a.pdf" = true /\
  list_docs (State.topics r.1) "T" = [Doc "/d/a.pdf" false; Doc "/d/a.pdf" false] /\
  r.2 = 2%nat.
Proof.
  intros r.
  assert (Hacc : State.accepts Sample.w
                   (map path (list_docs (State.topics (State.Make ∅ None)) "T"))
                   "/d/a.pdf" = true) by reflexivity.
  split; [reflexivity|].
  destruct (add_docs_repeated_path Sample.w (State.Make ∅ None) "T" "/d/a.pdf" Hacc)
    as (Hdocs & Hcount & _).
  split; [exact Hdocs|exact Hcount].
Defined.

Lemma supported_exportable e :
  ext_in e SUPPORTED_EXTS = true <->
  ext_in e PDF_EXTS = true \/ exists c, category_of e = Some c.
Proof.
  unfold category_of, ext_in, SUPPORTED_EXTS, TXT_EXTS, IMAGE_EXTS, WORD_EXTS, PDF_EXTS.
  cbn [existsb].
  repeat match goal with
         | |- context [String.eqb e ?l] => destruct (String.eqb_spec e l) as [->|?]
         end; cbn [orb]; split; intros H; try reflexivity; try discriminate; eauto.
  destruct H as [H|[c H]]; discriminate.
Qed.

(** X4. Every document [add_docs] adds is of a class the export loop
    handles (a PDF, a text, an image or an office file): the supported
    extensions are exactly those of the four classes, [add_docs] keeps a
    topic of such documents a topic of such documents, and the loop,
    whatever the converters are, never logs such a document as
    unsupported. *)
Theorem added_docs_are_exportable (w : world) (s : State.t) (topic : string)
    (paths : list string) :
  (forall e, ext_in e SUPPORTED_EXTS = true <->
             ext_in e PDF_EXTS = true \/ exists c, category_of e = Some c) /\
  (Forall exportable (list_docs (State.topics s) topic) ->
   Forall exportable (list_docs (State.topics (State.add_docs w s topic paths).1) topic)) /\
  (forall self tmpdir acc d w0 acc' w',
      exportable d ->
      process_doc self tmpdir acc d w0 = (Ok acc', w') ->
      acc'.2 <> push acc.2 ("Übersprungen (nicht unterstützt): " ++ path d)).
Proof.
  split; [apply supported_exportable|]. split.
  - intros Hold. rewrite add_docs_docs. apply Forall_app. split; [exact Hold|].
    apply Forall_map, Forall_forall. intros p Hp.
    apply list_elem_of_In, filter_In in Hp as [_ Hacc].
    unfold State.accepts in Hacc. rewrite !andb_true_iff in Hacc.
    destruct Hacc as [[_ Hext] _]. unfold exportable, ext_of. cbn [path].
    apply supported_exportable, Hext.
  - intros self tmpdir acc d w0 acc' w' Hexp.
    assert (Hline : forall x : string,
               (exists a s, (x = String a s /\ a <> ascii_of_nat 195) \/
                            (exists t, x = "Übersprungen (" ++ String a t /\ a <> "n"%char)) ->
               push acc.2 x <> push acc.2 ("Übersprungen (nicht unterstützt): " ++ path d)).
    { intros x (a & t & Hx) Heq. unfold push in Heq.
      apply app_inj_tail in Heq as [_ Heq].
      destruct Hx as [[-> Ha]|(t' & -> & Ha)]; injection Heq; intros; subst; contradiction. }
    assert (Hconv : forall (conv : string -> string -> M (option string)) ok skip,
               (exists t, ok = "OK: " ++ t) ->
               (exists a t, skip = "Übersprungen (" ++ String a t /\ a <> "n"%char) ->
               try_except
                 (let* pdfp := conv (path d) tmpdir in append_or_log acc pdfp ok skip)
                 (fun e => ret (acc.1, push acc.2 ("Fehler bei " ++ path d ++ ": " ++ e))) w0
               = (Ok acc', w') ->
               acc'.2 <> push acc.2 ("Übersprungen (nicht unterstützt): " ++ path d)).
    { intros conv ok skip [t ->] (a & t' & -> & Ha).
      unfold try_except, bind, append_or_log, ret.
      destruct (conv (path d) tmpdir w0) as [[[[|b p]|]|e] w1]; intros [= <- <-]; cbn [snd];
        apply Hline.
      - exists a, t'. right. eauto.
      - exists "O"%char, ("K: " ++ t). left. split; [reflexivity|discriminate].
      - exists a, t'. right. eauto.
      - exists "F"%char, ("ehler bei " ++ path d ++ ": " ++ e). left.
        split; [reflexivity|discriminate]. }
    unfold process_doc. fold (ext_of d).
    destruct (ext_in (ext_of d) PDF_EXTS) eqn:Hpdf.
    { unfold try_except, ret. intros [= <- <-]. cbn [snd]. apply Hline.
      exists "O"%char, ("K: PDF übernommen: " ++ path d). left.
      split; [reflexivity|discriminate]. }
    destruct Hexp as [Hp|[c Hc]]; [congruence|]. unfold category_of in Hc.
    destruct (ext_in (ext_of d) TXT_EXTS).
    { apply Hconv; [eauto|]. exists "T"%char. eexists. split; [reflexivity|discriminate]. }
    destruct (ext_in (ext_of d) IMAGE_EXTS).
    { apply Hconv; [eauto|]. exists "B"%char. eexists. split; [reflexivity|discriminate]. }
    destruct (ext_in (ext_of d) WORD_EXTS); [|discriminate].
    apply Hconv; [eauto|]. exists "L"%char. eexists. split; [reflexivity|discriminate].
Qed.

Lemma added_docs_are_exportable_witness :
  let s := State.Make Sample.topics None in
  Forall exportable (list_docs (State.topics s) "T") /\
  Forall exportable
    (list_docs (State.topics (State.add_docs Sample.w s "T" ["/d/a.pdf"; "/d/x.exe"]).1) "T").
Proof.
  intros s.
  assert (H : Forall exportable (list_docs (State.topics s) "T")).
  { repeat constructor; left; reflexivity. }
  split; [exact H|].
  apply (proj1 (proj2 (added_docs_are_exportable Sample.w s "T" ["/d/a.pdf"; "/d/x.exe"]))).
  exact H.
Defined.

(** X5. [remove_doc] leaves in the topic exactly the documents with another
    path, in their order; no document of the removed path remains;
    other topics are untouched; removing twice is removing once; and the
    topic exists afterwards, with no documents, even if it did not exist
    before. *)
Theorem remove_doc_removes (s : State.t) (topic p : string) :
  let s' := State.remove_doc s topic p in
  (p ∉ map path (list_docs (State.topics s') topic)) /\
  (forall d, d ∈ list_docs (State.topics s') topic <->
             d ∈ list_docs (State.topics s) topic /\ path d <> p) /\
  sublist (list_docs (State.topics s') topic) (list_docs (State.topics s) topic) /\
  (forall other, other <> topic ->
                 State.topics s' !! other = State.topics s !! other) /\
  State.remove_doc s' topic p = s' /\
  is_Some (State.topics s' !! topic) /\
  (State.topics s !! topic = None -> State.topics s' !! topic = Some []).
Proof.
  intros s'. subst s'.
  set (keep := fun d : doc => negb (String.eqb (path d) p)).
  assert (Hdocs : list_docs (State.topics (State.remove_doc s topic p)) topic =
                  List.filter keep (list_docs (State.topics s) topic)).
  { unfold State.remove_doc, list_docs at 1. cbn [State.topics].
    rewrite lookup_insert_eq. reflexivity. }
  assert (Hkeep : forall d, keep d = true <-> path d <> p).
  { intros d. unfold keep. destruct (String.eqb_spec (path d) p); split;
      intros; try discriminate; try reflexivity; congruence. }
  split; [|split; [|split; [|split; [|split; [|split]]]]].
  - rewrite Hdocs. intros Hin. apply list_elem_of_fmap in Hin as (d & Hp & Hd).
    apply list_elem_of_In, filter_In in Hd as [_ Hd]. apply Hkeep in Hd. congruence.
  - intros d. rewrite Hdocs, list_elem_of_In, filter_In, <- list_elem_of_In, Hkeep.
    reflexivity.
  - rewrite Hdocs. generalize (list_docs (State.topics s) topic). intros l.
    induction l as [|d l IH]; cbn [List.filter]; [constructor|].
    destruct (keep d); [apply sublist_skip|apply sublist_cons]; exact IH.
  - intros other Hne. unfold State.remove_doc. cbn [State.topics].
    apply lookup_insert_ne. congruence.
  - unfold State.remove_doc at 1. rewrite Hdocs. fold keep.
    unfold State.remove_doc. cbn [State.topics State.current_topic]. f_equal.
    rewrite insert_insert_eq. f_equal.
    change (List.filter keep (List.filter keep (list_docs (State.topics s) topic)) =
            List.filter keep (list_docs (State.topics s) topic)).
    generalize (list_docs (State.topics s) topic). intros l.
    induction l as [|d l IH]; cbn [List.filter]; [reflexivity|].
    destruct (keep d) eqn:Hd; cbn [List.filter]; [rewrite Hd; f_equal|]; exact IH.
  - unfold State.remove_doc. cbn [State.topics]. rewrite lookup_insert_eq. eauto.
  - intros Hnone. unfold State.remove_doc, list_docs. cbn [State.topics].
    rewrite lookup_insert_eq, Hnone. reflexivity.
Qed.

Lemma remove_doc_removes_witness :
  State.topics (State.Make Sample.topics None) !! "nowhere" = None /\
  State.topics (State.remove_doc (State.Make Sample.topics None) "nowhere" "/d/a.pdf")
    !! "nowhere" = Some [].
Proof.
  split; [reflexivity|].
  apply (remove_doc_removes (State.Make Sample.topics None) "nowhere" "/d/a.pdf").
  reflexivity.
Defined.

Lemma mark_path p b d : path (State.mark p b d) = path d.
Proof. unfold State.mark. destruct (String.eqb (path d) p); reflexivity. Qed.

Lemma mark_mark p b1 b2 d : State.mark p b2 (State.mark p b1 d) = State.mark p b2 d.
Proof.
  unfold State.mark. destruct (String.eqb (path d) p) eqn:H; cbn [path]; rewrite H;
    reflexivity.
Qed.

Lemma set_read_docs s topic p b :
  list_docs (State.topics (State.set_read s topic p b)) topic =
  map (State.mark p b) (list_docs (State.topics s) topic).
Proof.
  unfold State.set_read, list_docs.
  destruct (State.topics s !! topic) as [docs|] eqn:H.
  - cbn [State.topics]. rewrite lookup_insert_eq. reflexivity.
  - rewrite H. reflexivity.
Qed.

Lemma set_read_paths s topic p b :
  map path (list_docs (State.topics (State.set_read s topic p b)) topic) =
  map path (list_docs (State.topics s) topic).
Proof.
  rewrite set_read_docs, map_map. apply map_ext. intros d. apply mark_path.
Qed.

Lemma set_read_flag s topic p b d :
  d ∈ list_docs (State.topics (State.set_read s topic p b)) topic ->
  path d = p -> read d = b.
Proof.
  rewrite set_read_docs. intros Hd Hp.
  apply list_elem_of_fmap in Hd as (d0 & -> & _). unfold State.mark in *.
  destruct (String.eqb_spec (path d0) p) as [He|Hne]; [reflexivity|].
  contradiction.
Qed.

(** X6. [set_read] changes nothing but the read flag of the documents of
    the given path in the given topic: the paths and their order stay,
    the documents of that path carry the new flag, the other documents
    and the other topics are as before, an unknown topic is not created,
    and of two calls for the same path the later one decides. *)
Theorem set_read_marks (s : State.t) (topic p : string) (b : bool) :
  let s' := State.set_read s topic p b in
  map path (list_docs (State.topics s') topic) =
    map path (list_docs (State.topics s) topic) /\
  (forall d, d ∈ list_docs (State.topics s') topic -> path d = p -> read d = b) /\
  (forall i d, list_docs (State.topics s) topic !! i = Some d -> path d <> p ->
               list_docs (State.topics s') topic !! i = Some d) /\
  (forall other, other <> topic ->
                 State.topics s' !! other = State.topics s !! other) /\
  (State.topics s !! topic = None -> s' = s) /\
  (forall b0, State.set_read (State.set_read s topic p b0) topic p b = s') /\
  State.current_topic s' = State.current_topic s.
Proof.
  intros s'. subst s'.
  split; [|split; [|split; [|split; [|split; [|split]]]]].
  - apply set_read_paths.
  - intros d. apply set_read_flag.
  - intros i d Hi Hne. rewrite set_read_docs, list_lookup_fmap, Hi. cbn.
    unfold State.mark. destruct (String.eqb_spec (path d) p); [contradiction|reflexivity].
  - intros other Hne. unfold State.set_read.
    destruct (State.topics s !! topic); [|reflexivity].
    cbn [State.topics]. apply lookup_insert_ne. congruence.
  - intros Hnone. unfold State.set_read. rewrite Hnone. reflexivity.
  - intros b0. unfold State.set_read.
    destruct (State.topics s !! topic) as [docs|] eqn:H.
    + cbn [State.topics State.current_topic]. rewrite lookup_insert_eq.
      rewrite insert_insert_eq, map_map. do 2 f_equal.
      apply map_ext. intros d. apply mark_mark.
    + rewrite H. reflexivity.
  - unfold State.set_read. destruct (State.topics s !! topic); reflexivity.
Qed.

Lemma set_read_marks_witness :
  let s := State.Make Sample.topics None in
  list_docs (State.topics s) "T" !! 0%nat = Some (Doc "/d/b.pdf" true) /\
  list_docs (State.topics (State.set_read s "T" "/d/a.pdf" true)) "T" !! 0%nat
  = Some (Doc "/d/b.pdf" true).
Proof.
  intros s. split; [reflexivity|].
  apply (proj1 (proj2 (proj2 (set_read_marks s "T" "/d/a.pdf" true)))
           0%nat (Doc "/d/b.pdf" true)); [reflexivity|discriminate].
Defined.

Lemma filter_docs_gelesene docs : filter_docs "gelesene" docs = List.filter read docs.
Proof. reflexivity. Qed.

Lemma filter_docs_ungelesene docs :
  filter_docs "ungelesene" docs = List.filter (fun d => negb (read d)) docs.
Proof. reflexivity. Qed.

(** X7. Marking and the export filters fit together: after
    [set_read topic p b], a document of path [p] in the topic is
    selected by the filter of its new state ("gelesene" for read,
    "ungelesene" for unread) and by no means by the other one. *)
Theorem set_read_then_filter (s : State.t) (topic p : string) (b : bool) :
  let docs := list_docs (State.topics (State.set_read s topic p b)) topic in
  let mine := if b then "gelesene" else "ungelesene" in
  let other := if b then "ungelesene" else "gelesene" in
  p ∈ map path (list_docs (State.topics s) topic) ->
  p ∈ map path (filter_docs mine docs) /\
  (p ∉ map path (filter_docs other docs)).
Proof.
  intros docs mine other Hin.
  assert (Hflag : forall d, d ∈ docs -> path d = p -> read d = b).
  { intros d. apply set_read_flag. }
  assert (Hp : p ∈ map path docs).
  { subst docs. rewrite set_read_paths. exact Hin. }
  apply list_elem_of_fmap in Hp as (d & Hpd & Hd).
  specialize (Hflag d Hd (eq_sym Hpd)) as Hrd.
  split.
  - apply list_elem_of_fmap. exists d. split; [exact Hpd|].
    subst mine. destruct b; [rewrite filter_docs_gelesene|rewrite filter_docs_ungelesene];
      apply list_elem_of_In, filter_In; rewrite <- list_elem_of_In;
      (split; [exact Hd|]); rewrite Hrd; reflexivity.
  - intros Hq. apply list_elem_of_fmap in Hq as (d' & Hpd' & Hd').
    subst other.
    destruct b; [rewrite filter_docs_ungelesene in Hd'|rewrite filter_docs_gelesene in Hd'];
      apply list_elem_of_In, filter_In in Hd' as [Hd' Hr']; apply list_elem_of_In in Hd';
      rewrite (Hflag d' Hd' (eq_sym Hpd')) in Hr'; discriminate.
Qed.

Lemma set_read_then_filter_witness :
  let s := State.Make Sample.topics None in
  "/d/a.pdf" ∈ map path (list_docs (State.topics s) "T") /\
  "/d/a.pdf" ∈ map path (filter_docs "gelesene"
                           (list_docs (State.topics (State.set_read s "T" "/d/a.pdf" true)) "T")).
Proof.
  intros s.
  assert (H : "/d/a.pdf" ∈ map path (list_docs (State.topics s) "T")).
  { apply list_elem_of_In. right. left. reflexivity. }
  split; [exact H|].
  apply (set_read_then_filter s "T" "/d/a.pdf" true H).
Defined.

(** X8. The two read-state filters split the documents of a topic: each
    document is selected by exactly one of "gelesene" and "ungelesene",
    both keep the order of the documents, and every other filter word
    ("alle" among them) selects all documents. *)
Theorem filters_partition (docs : list doc) :
  (filter_docs "gelesene" docs ++ filter_docs "ungelesene" docs)%list ≡ₚ docs /\
  (forall d, d ∈ docs ->
             (d ∈ filter_docs "gelesene" docs /\ (d ∉ filter_docs "ungelesene" docs)) \/
             ((d ∉ filter_docs "gelesene" docs) /\ d ∈ filter_docs "ungelesene" docs)) /\
  sublist (filter_docs "gelesene" docs) docs /\
  sublist (filter_docs "ungelesene" docs) docs /\
  (forall mode, mode <> "gelesene" -> mode <> "ungelesene" -> filter_docs mode docs = docs).
Proof.
  rewrite filter_docs_gelesene, filter_docs_ungelesene.
  split; [|split; [|split; [|split]]].
  - induction docs as [|d l IH]; cbn [List.filter]; [reflexivity|].
    destruct (read d); cbn [negb app].
    + constructor. exact IH.
    + rewrite <- Permutation_middle. constructor. exact IH.
  - intros d Hd. rewrite !list_elem_of_In, !filter_In, <- !list_elem_of_In.
    destruct (read d); [left|right]; cbn; intuition discriminate.
  - induction docs as [|d l IH]; cbn [List.filter]; [constructor|].
    destruct (read d); [apply sublist_skip|apply sublist_cons]; exact IH.
  - induction docs as [|d l IH]; cbn [List.filter]; [constructor|].
    destruct (negb (read d)); [apply sublist_skip|apply sublist_cons]; exact IH.
  - intros mode H1 H2. unfold filter_docs.
    destruct (String.eqb_spec mode "gelesene"); [contradiction|].
    destruct (String.eqb_spec mode "ungelesene"); [contradiction|reflexivity].
Qed.

Lemma filters_partition_witness :
  List.In (Doc "/d/a.pdf" false) [Doc "/d/b.pdf" true; Doc "/d/a.pdf" false] /\
  filter_docs "alle" [Doc "/d/b.pdf" true; Doc "/d/a.pdf" false]
  = [Doc "/d/b.pdf" true; Doc "/d/a.pdf" false].
Proof.
  split; [right; left; reflexivity|].
  apply (filters_partition [Doc "/d/b.pdf" true; Doc "/d/a.pdf" false]); discriminate.
Defined.

(** ** Dropped paths *)

Section DragAndDrop.

Import Dnd.

Lemma rstrip_lstrip s : rstrip (lstrip s) = lstrip (rstrip s).
Proof.
  induction s as [|a s IH]; [reflexivity|]. cbn [lstrip rstrip].
  destruct (is_space a) eqn:Ha.
  - rewrite IH. destruct (rstrip s) as [|b r]; [reflexivity|].
    cbn [lstrip]. rewrite Ha. reflexivity.
  - cbn [rstrip]. destruct (rstrip s) as [|b r]; rewrite ?Ha; cbn [lstrip]; rewrite Ha;
      reflexivity.
Qed.

Lemma lstrip_idem s : lstrip (lstrip s) = lstrip s.
Proof.
  induction s as [|a s IH]; [reflexivity|]. cbn [lstrip].
  destruct (is_space a) eqn:Ha; [exact IH|]. cbn [lstrip]. rewrite Ha. reflexivity.
Qed.

Lemma rstrip_idem s : rstrip (rstrip s) = rstrip s.
Proof.
  induction s as [|a s IH]; [reflexivity|]. cbn [rstrip].
  destruct (rstrip s) as [|b r] eqn:Hr.
  - destruct (is_space a) eqn:Ha; [reflexivity|]. cbn [rstrip]. rewrite Ha. reflexivity.
  - cbn [rstrip] in *. rewrite IH. reflexivity.
Qed.

Lemma strip_idem s : strip (strip s) = strip s.
Proof.
  unfold strip. rewrite rstrip_lstrip, rstrip_idem, lstrip_idem. reflexivity.
Qed.

Lemma nonempty_true s : nonempty s = true <-> s <> "".
Proof. destruct s; cbn; split; intros; congruence. Qed.

Lemma clean_clean res :
  Forall (fun p => p <> "" /\ strip p = p) (clean res).
Proof.
  unfold clean. apply Forall_map, Forall_forall. intros p Hp.
  apply list_elem_of_In, filter_In in Hp as [_ Hp]. apply nonempty_true in Hp.
  split; [exact Hp|apply strip_idem].
Qed.

Lemma clean_plain ps :
  Forall (fun p => p <> "" /\ strip p = p) ps -> clean ps = ps.
Proof.
  unfold clean. induction 1 as [|p ps [Hne Hp] _ IH]; [reflexivity|].
  cbn [List.filter]. rewrite Hp. apply nonempty_true in Hne. rewrite Hne.
  cbn [map]. rewrite Hp, IH. reflexivity.
Qed.

Lemma append_snoc (s t : string) a : s ++ String a t = (s ++ String a "") ++ t.
Proof. induction s as [|b s IH]; [reflexivity|]. rewrite !append_cons, IH. reflexivity. Qed.

Lemma append_empty_r (s : string) : s ++ "" = s.
Proof. induction s as [|b s IH]; [reflexivity|]. rewrite append_cons, IH. reflexivity. Qed.

Lemma has_char_cons c a s :
  has_char c (String a s) = (Ascii.eqb c a || has_char c s)%bool.
Proof. reflexivity. Qed.

(** Outside braces, a run of characters without space and braces is
    collected in [cur]. *)
Lemma run_outside p : forall rest res cur,
  has_char " " p = false -> has_char "{" p = false -> has_char "}" p = false ->
  split_loop (p ++ rest) res cur false = split_loop rest res (cur ++ p) false.
Proof.
  induction p as [|a p IH]; intros rest res cur Hs Ho Hc.
  - rewrite append_empty_r. reflexivity.
  - rewrite has_char_cons in Hs, Ho, Hc. apply orb_false_iff in Hs as [Hs1 Hs2].
    apply orb_false_iff in Ho as [Ho1 Ho2]. apply orb_false_iff in Hc as [Hc1 Hc2].
    rewrite append_cons. cbn [split_loop].
    rewrite (Ascii.eqb_sym a "{"), Ho1, (Ascii.eqb_sym a "}"), Hc1,
      (Ascii.eqb_sym a " "), Hs1. cbn [andb].
    rewrite IH by assumption. rewrite <- append_snoc. reflexivity.
Qed.

(** Inside braces, a run of characters without braces is collected in
    [cur], spaces included. *)
Lemma run_inside p : forall rest res cur,
  has_char "{" p = false -> has_char "}" p = false ->
  split_loop (p ++ rest) res cur true = split_loop rest res (cur ++ p) true.
Proof.
  induction p as [|a p IH]; intros rest res cur Ho Hc.
  - rewrite append_empty_r. reflexivity.
  - rewrite has_char_cons in Ho, Hc.
    apply orb_false_iff in Ho as [Ho1 Ho2]. apply orb_false_iff in Hc as [Hc1 Hc2].
    rewrite append_cons. cbn [split_loop].
    rewrite (Ascii.eqb_sym a "{"), Ho1, (Ascii.eqb_sym a "}"), Hc1. cbn [negb andb].
    rewrite andb_false_r.
    rewrite IH by assumption. rewrite <- append_snoc. reflexivity.
Qed.

(** An item followed by the end of the data or by a space and more
    items. *)
Lemma item_then p more res :
  plain p ->
  split_loop (item p) res "" false = (res ++ [p])%list /\
  split_loop (item p ++ " " ++ more) res "" false = split_loop more (res ++ [p])%list "" false.
Proof.
  intros (Hne & Ho & Hc & _). apply nonempty_true in Hne as Hne'. unfold item.
  destruct (has_char " " p) eqn:Hs.
  - split.
    + rewrite append_cons. cbn [split_loop Ascii.eqb Bool.eqb].
      change ("" ++ p ++ "}") with (p ++ "}").
      rewrite run_inside by assumption. reflexivity.
    + rewrite !append_cons. cbn [split_loop Ascii.eqb Bool.eqb].
      change ("" ++ p ++ "}") with (p ++ "}"). rewrite append_assoc3.
      rewrite run_inside by assumption. reflexivity.
  - split.
    + rewrite <- (append_empty_r p) at 1. rewrite run_outside by assumption.
      cbn [split_loop]. change ("" ++ p) with p. rewrite Hne'. reflexivity.
    + rewrite run_outside by assumption.
      change ("" ++ p) with p. rewrite append_cons. cbn [split_loop Ascii.eqb Bool.eqb].
      cbn [negb andb]. rewrite Hne'. reflexivity.
Qed.

Lemma split_items ps : forall res,
  Forall plain ps -> split_loop (items ps) res "" false = (res ++ ps)%list.
Proof.
  induction ps as [|p ps IH]; intros res Hall.
  - cbn. rewrite app_nil_r. reflexivity.
  - inversion Hall as [|? ? Hp Hps]; subst.
    destruct ps as [|q ps].
    + cbn [items]. apply (item_then p "" res Hp).
    + change (items (p :: q :: ps)) with (item p ++ " " ++ items (q :: ps)).
      rewrite (proj2 (item_then p (items (q :: ps)) res Hp)).
      rewrite IH by assumption. rewrite <- app_assoc. reflexivity.
Qed.

End DragAndDrop.

(** X9. Whatever the dropped data is, no path that [_split_dnd_paths]
    returns is empty or has white space at either end. *)
Theorem dnd_paths_are_clean (data : string) :
  Forall (fun p => p <> "" /\ Dnd.strip p = p /\
                   Dnd.lstrip p = p /\ Dnd.rstrip p = p)
         (Dnd._split_dnd_paths data).
Proof.
  unfold Dnd._split_dnd_paths.
  eapply Forall_impl; [apply clean_clean|]. cbn. intros p [Hne Hp].
  split; [exact Hne|]. split; [exact Hp|].
  assert (Hl : Dnd.lstrip p = p).
  { rewrite <- Hp at 1. unfold Dnd.strip. rewrite lstrip_idem. exact Hp. }
  split; [exact Hl|].
  rewrite <- Hp at 1. unfold Dnd.strip. rewrite rstrip_lstrip, rstrip_idem. exact Hp.
Qed.

(** X10. A list of paths that arrives as drop data, the items separated
    by one space and an item with a space written in braces, is split
    into the same list of paths: a path with spaces stays whole.  The
    paths must not be empty, hold no brace, and have no white space at
    their ends. *)
Theorem dnd_round_trip (ps : list string) :
  Forall Dnd.plain ps ->
  Dnd._split_dnd_paths (Dnd.items ps) = ps.
Proof.
  intros Hall. unfold Dnd._split_dnd_paths. rewrite split_items by assumption.
  cbn [app]. apply clean_plain.
  eapply Forall_impl; [exact Hall|]. cbn. intros p (Hne & _ & _ & Hp). auto.
Qed.

Lemma dnd_round_trip_witness :
  Forall Dnd.plain ["C:\Pfad mit Leerzeichen\file.pdf"; "/home/user/x.pdf"] /\
  Dnd.items ["C:\Pfad mit Leerzeichen\file.pdf"; "/home/user/x.pdf"]
  = "{C:\Pfad mit Leerzeichen\file.pdf} /home/user/x.pdf" /\
  Dnd._split_dnd_paths "{C:\Pfad mit Leerzeichen\file.pdf} /home/user/x.pdf"
  = ["C:\Pfad mit Leerzeichen\file.pdf"; "/home/user/x.pdf"].
Proof.
  assert (H : Forall Dnd.plain ["C:\Pfad mit Leerzeichen\file.pdf"; "/home/user/x.pdf"]).
  { repeat constructor; try discriminate; reflexivity. }
  split; [exact H|]. split; [reflexivity|].
  apply (dnd_round_trip _ H).
Defined.

(** X11. An opening brace throws away what was collected before it:
    characters that stand directly before a brace, with no space between,
    never reach the result. *)
Theorem dnd_text_before_brace_is_lost (a rest : string) :
  Dnd.has_char " " a = false ->
  Dnd.has_char "}" a = false ->
  Dnd._split_dnd_paths (a ++ "{" ++ rest) = Dnd._split_dnd_paths ("{" ++ rest).
Proof.
  intros Hs Hc. unfold Dnd._split_dnd_paths. f_equal.
  change ("{" ++ rest) with (String "{" rest).
  cbn [Dnd.split_loop Ascii.eqb Bool.eqb].
  assert (H : forall cur b,
             Dnd.split_loop (a ++ String "{" rest) [] cur b =
             Dnd.split_loop rest [] "" true); [|apply H].
  revert Hs Hc. induction a as [|ch a IH]; intros Hs Hc cur b.
  - reflexivity.
  - rewrite has_char_cons in Hs, Hc. apply orb_false_iff in Hs as [Hs1 Hs2].
    apply orb_false_iff in Hc as [Hc1 Hc2].
    rewrite append_cons. cbn [Dnd.split_loop].
    rewrite (Ascii.eqb_sym ch "}"), Hc1, (Ascii.eqb_sym ch " "), Hs1. cbn [andb].
    destruct (Ascii.eqb ch "{"); apply IH; assumption.
Qed.

Lemma dnd_text_before_brace_is_lost_witness :
  Dnd.has_char " " "abc" = false /\
  Dnd._split_dnd_paths "abc{def}" = ["def"].
Proof.
  split; [reflexivity|].
  exact (eq_trans (dnd_text_before_brace_is_lost "abc" "def}" eq_refl eq_refl) eq_refl).
Defined.

(** ** The run of the worker, beyond the output file *)

Section Runs.

Variable E : env.

Lemma rmtree_inside d p (fs : gmap string file) :
  PathLib.under d p = true -> rmtree d fs !! p = None.
Proof.
  intros Hp. unfold rmtree. apply map_lookup_filter_None. right.
  intros f _ H. cbn [fst] in H. congruence.
Qed.

Lemma after_loop_other out parts w1 p :
  p <> out -> files (after_loop E out parts w1) !! p = files w1 !! p.
Proof.
  intros Hp. unfold after_loop. destruct parts; [reflexivity|].
  destruct (merge_outcome_of E out); cbn [emit set_files files];
    rewrite ?lookup_insert_ne by congruence; reflexivity.
Qed.

Lemma no_tool_process tmpdir acc d w :
  no_tool E d ->
  exists line,
    process_doc (App E) tmpdir acc d w = (Ok (acc.1, push acc.2 line), w) /\
    is_ok line = false.
Proof.
  intros [Hpdf Hcat]. unfold process_doc. fold (ext_of d). rewrite Hpdf.
  unfold category_of in Hcat.
  destruct (ext_in (ext_of d) TXT_EXTS).
  { cbn [App txt_to_pdf]. unfold _txt_to_pdf. rewrite Hcat. cbn [negb].
    eexists. split; reflexivity. }
  destruct (ext_in (ext_of d) IMAGE_EXTS).
  { destruct Hcat as [Hr Hp]. cbn [App image_to_pdf]. unfold _image_to_pdf.
    rewrite Hr, Hp. eexists. split; reflexivity. }
  destruct (ext_in (ext_of d) WORD_EXTS).
  { destruct Hcat as (Hs & Hl & Hw). cbn [App office_to_pdf].
    unfold _office_to_pdf, try_candidates, try_candidate, word_strategy.
    rewrite Hs, Hl, Hw. eexists. split; reflexivity. }
  eexists. split; reflexivity.
Qed.

Lemma no_tool_collect tmpdir docs : forall acc w,
  Forall (no_tool E) docs ->
  exists log, collect (App E) tmpdir docs acc w = (Ok (acc.1, (acc.2 ++ log)%list), w) /\
              Forall (fun line => is_ok line = false) log /\
              length log = length docs.
Proof.
  induction docs as [|d rest IH]; intros acc w Hall; cbn [collect].
  - exists []. rewrite app_nil_r. destruct acc. repeat split; constructor.
  - inversion Hall as [|? ? Hd Hrest]; subst.
    destruct (no_tool_process tmpdir acc d w Hd) as (line & Hrun & Hline).
    unfold bind. rewrite Hrun.
    destruct (IH (acc.1, push acc.2 line) w Hrest) as (log & -> & Hlog & Hlen).
    exists (line :: log). cbn [fst snd length]. unfold push. rewrite <- app_assoc.
    split; [reflexivity|]. split; [constructor; assumption|]. rewrite Hlen. reflexivity.
Qed.

End Runs.

(** X12. A run of the worker always returns.  On an empty filtered list
    it sets the busy cursor, shows one message and resets the cursor, and
    no file changes.  Otherwise it sets the busy cursor, creates the
    temporary directory, shows one message, removes the directory and
    resets the cursor, in this order, and afterwards no file is left
    below the temporary directory. *)
Theorem worker_cleans_up (E : env) (topics : gmap string (list doc))
    (topic filter_mode : string) (w : world) :
  let docs := filter_docs filter_mode (list_docs topics topic) in
  let r := _create_collection_pdf_worker E topics topic filter_mode w in
  let d := mkdtemp E in
  r.1 = Ok tt /\
  match docs with
  | [] =>
      new_events w r.2 = [EvBusy true; EvInfo "Info" msg_no_input; EvBusy false] /\
      files r.2 = files w
  | _ =>
      (exists title msg,
          new_events w r.2 =
          [EvBusy true; EvMkdtemp d; EvInfo title msg; EvRmtree d; EvBusy false]) /\
      (forall p, PathLib.under d p = true -> files r.2 !! p = None)
  end.
Proof.
  intros docs r d. subst r.
  destruct docs as [|d0 ds] eqn:Hdocs; subst docs.
  - rewrite worker_empty by assumption. cbn [fst snd]. split; [reflexivity|].
    split; [|reflexivity].
    apply new_events_app. unfold emit. cbn [events]. rewrite <- !app_assoc. reflexivity.
  - destruct (collected_outcomes E (d0 :: ds) w) as (parts & log & w1 & Hrun & _ & Hfr).
    pose proof (worker_run E topics topic filter_mode w parts log w1) as Hw.
    cbv zeta in Hw. rewrite Hdocs in Hw.
    rewrite (Hw ltac:(discriminate) Hrun). clear Hw. cbn [fst snd].
    split; [reflexivity|]. split.
    + do 2 eexists. apply finish_events, Hfr.
    + intros p Hp. unfold finish, emit, set_files. cbn [files].
      apply rmtree_inside, Hp.
Qed.

(** X13. A run of the worker changes no file other than the output file
    and the files below its temporary directory: the documents of the
    catalog, and every other file, are as they were. *)
Theorem worker_touches_only_output (E : env) (topics : gmap string (list doc))
    (topic filter_mode : string) (w : world) (p : string) :
  let out := out_path_of E topic filter_mode in
  let r := _create_collection_pdf_worker E topics topic filter_mode w in
  PathLib.under (mkdtemp E) p = false ->
  p <> out ->
  files r.2 !! p = files w !! p.
Proof.
  intros out r Hp Hout. subst r.
  destruct (filter_docs filter_mode (list_docs topics topic)) as [|d0 ds] eqn:Hdocs.
  - rewrite worker_empty by assumption. reflexivity.
  - destruct (collected_outcomes E (d0 :: ds) w) as (parts & log & w1 & Hrun & _ & Hfr).
    pose proof (worker_run E topics topic filter_mode w parts log w1) as Hw.
    cbv zeta in Hw. rewrite Hdocs in Hw.
    rewrite (Hw ltac:(discriminate) Hrun). clear Hw. cbn [snd].
    rewrite finish_lookup by assumption.
    rewrite after_loop_other by assumption.
    destruct Hfr as [_ Hfr]. rewrite (Hfr p Hp). reflexivity.
Qed.

Lemma worker_touches_only_output_witness :
  let r := _create_collection_pdf_worker Sample.E Sample.topics "T" "alle" Sample.w in
  PathLib.under (mkdtemp Sample.E) "/d/a.pdf" = false /\
  "/d/a.pdf" <> out_path_of Sample.E "T" "alle" /\
  files r.2 !! "/d/a.pdf" = Some Sample.a_pdf.
Proof.
  intros r.
  assert (Hne : "/d/a.pdf" <> out_path_of Sample.E "T" "alle") by discriminate.
  split; [reflexivity|]. split; [exact Hne|].
  exact (worker_touches_only_output Sample.E Sample.topics "T" "alle" Sample.w
           "/d/a.pdf" eq_refl Hne).
Defined.

(** X14. When no tool of the installation can convert any document of a
    non-empty job, and none is a PDF, the run ends with
    [NothingToMerge]: every document is logged as skipped, no file is
    written, not even a temporary one, and the file system is left as it
    was but for the removal of the temporary directory. *)
Theorem no_tool_nothing_to_merge (E : env) (topics : gmap string (list doc))
    (topic filter_mode : string) (w : world) :
  let docs := filter_docs filter_mode (list_docs topics topic) in
  let r := _create_collection_pdf_worker E topics topic filter_mode w in
  docs <> [] ->
  Forall (no_tool E) docs ->
  (exists log, collected E docs w = (Ok ([], log), loop_start E w) /\
               Forall (fun line => is_ok line = false) log /\
               length log = length docs) /\
  job_results (new_events w r.2) = [NothingToMerge] /\
  files r.2 = rmtree (mkdtemp E) (files w).
Proof.
  intros docs r Hne Hall. subst r.
  destruct (no_tool_collect E (mkdtemp E) docs ([], []) (loop_start E w) Hall)
    as (log & Hrun & Hlog & Hlen).
  cbn [fst snd app] in Hrun.
  split; [exists log; auto|].
  rewrite (worker_run E topics topic filter_mode w [] log (loop_start E w) Hne Hrun).
  cbn [snd]. split.
  - rewrite finish_events by reflexivity. rewrite job_results_run, notification_result.
    reflexivity.
  - reflexivity.
Qed.

Lemma no_tool_nothing_to_merge_witness :
  let topics : gmap string (list doc) :=
    {["T" := [Doc "/d/n.txt" false; Doc "/d/x.docx" true; Doc "/d/y.zip" false]]} in
  let r := _create_collection_pdf_worker Sample.E_bare topics "T" "alle" Sample.w in
  Forall (no_tool Sample.E_bare) (filter_docs "alle" (list_docs topics "T")) /\
  job_results (new_events Sample.w r.2) = [NothingToMerge] /\
  files r.2 = rmtree (mkdtemp Sample.E_bare) (files Sample.w).
Proof.
  intros topics r.
  assert (Hall : Forall (no_tool Sample.E_bare) (filter_docs "alle" (list_docs topics "T"))).
  { repeat constructor. }
  split; [exact Hall|].
  pose proof (no_tool_nothing_to_merge Sample.E_bare topics "T" "alle" Sample.w) as H.
  cbv zeta in H. specialize (H ltac:(discriminate) Hall).
  destruct H as (_ & Hres & Hfiles). split; [exact Hres|exact Hfiles].
Defined.

(** ** The text renderer loses no character *)

Section Drawn.

Lemma strings_of_app (pg : page) (o : op) :
  strings_of (pg ++ [o])%list =
  (strings_of pg ++ match o with DrawString _ _ s => [s] | _ => [] end)%list.
Proof.
  unfold strings_of. rewrite omap_app. destruct o; reflexivity.
Qed.

Lemma drawn_drawString c x y s : drawn (drawString c x y s) = (drawn c ++ [s])%list.
Proof.
  unfold drawn, drawString. cbn [c_pages c_code]. rewrite strings_of_app, app_assoc.
  reflexivity.
Qed.

Lemma drawn_setFont c f s : drawn (setFont c f s) = drawn c.
Proof.
  unfold drawn, setFont. cbn [c_pages c_code]. rewrite strings_of_app, app_nil_r.
  reflexivity.
Qed.

Lemma drawn_showPage c : drawn (showPage c) = drawn c.
Proof.
  unfold drawn, showPage. cbn [c_pages c_code]. rewrite map_app, concat_app.
  cbn [map concat strings_of omap]. rewrite !app_nil_r. reflexivity.
Qed.

Lemma take_drop n s : Str.take n s ++ Str.drop (String.length (Str.take n s)) s = s.
Proof.
  revert s. induction n as [|n IH]; intros [|a s]; cbn [Str.take Str.drop String.length];
    try reflexivity.
  rewrite append_cons, IH. reflexivity.
Qed.

Lemma text_page_app (pg : page) (o : op) :
  text_page pg ->
  match o with
  | SetFont f s => f = "Helvetica" /\ s = 11
  | DrawString x _ _ => x = margin
  | _ => False
  end ->
  text_page (pg ++ [o])%list.
Proof.
  intros [Hh Hall] Ho. split.
  - destruct pg; [discriminate|exact Hh].
  - apply Forall_app. split; [exact Hall|]. constructor; [exact Ho|constructor].
Qed.

Lemma draw_line_drawn line cy :
  text_canvas cy.1 ->
  text_canvas (draw_line line cy).1 /\
  exists ps, drawn (draw_line line cy).1 = (drawn cy.1 ++ ps)%list /\ pieces_of line ps.
Proof.
  funelim (draw_line line cy); intros Hc.
  - split; [exact Hc|]. exists []. rewrite app_nil_r. split; [reflexivity|].
    repeat split; constructor.
  - destruct cy as [c y]. cbn [fst snd] in *.
    set (part := Str.take max_chars (String a s)) in *.
    set (line := Str.drop (String.length part) (String a s)) in *.
    assert (Hpart : (1 <= String.length part <= max_chars)%nat).
    { subst part. rewrite take_length. change max_chars with 80%nat.
      cbn [String.length]. lia. }
    assert (Hdraw : text_page (c_code c ++ [DrawString margin y part])%list).
    { apply text_page_app; [apply Hc|reflexivity]. }
    assert (Hstep : forall c' y',
               text_canvas c' -> drawn c' = (drawn c ++ [part])%list ->
               (text_canvas c' ->
                text_canvas (draw_line line (c', y')).1 /\
                exists ps, drawn (draw_line line (c', y')).1 = (drawn c' ++ ps)%list /\
                           pieces_of line ps) ->
               text_canvas (draw_line line (c', y')).1 /\
               exists ps, drawn (draw_line line (c', y')).1 = (drawn c ++ ps)%list /\
                          pieces_of (String a s) ps).
    { intros c' y' Hc' Hd Hrec. destruct (Hrec Hc') as (Hr & ps & Hps & Hj & Hl & Hall).
      split; [exact Hr|].
      exists (part :: ps). rewrite Hps, Hd, <- app_assoc. split; [reflexivity|].
      split; [|split].
      - cbn [joined fold_right]. fold (joined ps). rewrite Hj. apply take_drop.
      - cbn [length]. rewrite Hl. symmetry. apply rows_step.
      - constructor; assumption. }
    destruct (y - line_height <? margin).
    + apply Hstep; [| |exact H].
      * split.
        -- cbn [setFont showPage drawString c_pages c_code].
           apply Forall_app. split; [apply Hc|]. constructor; [exact Hdraw|constructor].
        -- cbn [setFont showPage drawString c_pages c_code]. split; [reflexivity|].
           constructor; [split; reflexivity|constructor].
      * rewrite drawn_setFont, drawn_showPage, drawn_drawString. reflexivity.
    + apply Hstep; [| |exact H0].
      * split; [apply Hc|exact Hdraw].
      * apply drawn_drawString.
Qed.

Lemma draw_lines_drawn lines : forall cy,
  text_canvas cy.1 ->
  text_canvas (draw_lines lines cy).1 /\
  exists pss, drawn (draw_lines lines cy).1 = (drawn cy.1 ++ concat pss)%list /\
              Forall2 pieces_of (map Str.rstrip_nl lines) pss.
Proof.
  induction lines as [|l ls IH]; intros cy Hc; cbn [draw_lines fold_left map].
  - split; [exact Hc|]. exists []. rewrite app_nil_r. split; [reflexivity|constructor].
  - destruct (draw_line_drawn (Str.rstrip_nl l) cy Hc) as (Hc1 & ps & Hps & Hp).
    destruct (IH (draw_line (Str.rstrip_nl l) cy) Hc1) as (Hc2 & pss & Hpss & Hall).
    split; [exact Hc2|]. exists (ps :: pss).
    change (fold_left _ ls ?x) with (draw_lines ls x).
    rewrite Hpss, Hps, <- app_assoc. split; [reflexivity|]. constructor; assumption.
Qed.

End Drawn.

(** X15. The text renderer loses no character and mixes no lines: the
    strings it draws are, line by line and in order, the pieces of the
    lines of the text without their line ends; the pieces of a line make
    up the line, none is empty or longer than 80 characters, and there
    is one per row.  Every page starts by setting the font, and every
    string starts at the left margin. *)
Theorem text_is_drawn_whole (out text : string) :
  let c := render_text out text in
  let lines := map Str.rstrip_nl (Str.readlines text) in
  (exists pss, drawn c = concat pss /\ Forall2 pieces_of lines pss) /\
  joined (drawn c) = joined lines /\
  length (drawn c) = text_rows text /\
  Forall (fun s => (1 <= String.length s <= 80)%nat) (drawn c) /\
  Forall text_page (c_pages c).
Proof.
  intros c lines.
  assert (Hc0 : text_canvas (setFont (Canvas out) "Helvetica" 11, snd A4 - margin).1).
  { split; [constructor|]. split; [reflexivity|].
    constructor; [split; reflexivity|constructor]. }
  destruct (draw_lines_drawn (Str.readlines text) _ Hc0) as ([Hpages Hcode] & pss & Hd & Hall).
  assert (Hdrawn : drawn c = concat pss).
  { subst c. unfold render_text. rewrite drawn_showPage, Hd. reflexivity. }
  fold lines in Hall.
  assert (Hjoin : forall l1 l2, joined (l1 ++ l2) = joined l1 ++ joined l2).
  { intros l1 l2. induction l1 as [|x l1 IH]; cbn [app joined fold_right]; [reflexivity|].
    fold (joined (l1 ++ l2)). fold (joined l1). rewrite IH.
    symmetry. apply append_assoc3. }
  split; [exists pss; auto|]. rewrite Hdrawn. clear Hdrawn Hd.
  split; [|split; [|split]].
  - induction Hall as [|l ps ls pss (Hj & _) _ IH]; [reflexivity|].
    cbn [concat]. rewrite Hjoin, Hj, IH. reflexivity.
  - assert (Hrows : text_rows text = sum_list (map rows lines)).
    { unfold text_rows, lines. rewrite List.map_map. reflexivity. }
    rewrite Hrows. clear Hrows.
    induction Hall as [|l ps ls pss (_ & Hl & _) _ IH]; [reflexivity|].
    cbn [concat map sum_list]. rewrite length_app, Hl, IH. reflexivity.
  - induction Hall as [|l ps ls pss (_ & _ & Hf) _ IH]; [constructor|].
    cbn [concat]. apply Forall_app. split; [exact Hf|exact IH].
  - subst c. unfold render_text. cbn [showPage c_pages].
    apply Forall_app. split; [exact Hpages|]. constructor; [exact Hcode|constructor].
Qed.

(** ** The two strategies of the image renderer *)

(** X16. The image renderer prefers reportlab: with reportlab, a picture
    that decodes is written as one page with the picture scaled and
    centred, whether Pillow is there or not.  Without reportlab and with
    Pillow the same picture is written by Pillow, as one raster page at
    150 dpi.  A file that does not decode as a picture, or does not
    exist, gives no PDF under either strategy, and the call leaves the
    file system as it was. *)
Theorem image_strategy_order (E : env) (tmpdir src : string) (w : world) :
  let t := temp_pdf CatImage tmpdir src in
  (forall f img,
      files w !! src = Some f -> as_image f = Some img ->
      fault E (OpRead src) = None ->
      fault E (OpCreate t) = None -> fault E (OpWrite t) = None ->
      (REPORTLAB_AVAILABLE E = true -> iw img <> 0 -> ih img <> 0 ->
       writes E CatImage tmpdir src w (reportlab_image_pages img)) /\
      (REPORTLAB_AVAILABLE E = false -> PIL_AVAILABLE E = true ->
       writes E CatImage tmpdir src w (pillow_image_pages img))) /\
  ((files w !! src = None \/ exists f, files w !! src = Some f /\ as_image f = None) ->
   _image_to_pdf E src tmpdir w = (Ok None, w)).
Proof.
  intros t. split.
  - intros f img Hf Him Hr Hc Hwr. split.
    + intros Hrl Hw Hh. apply (image_writes E tmpdir src w f img); assumption.
    + intros Hrl Hpil. unfold writes. cbn [converter].
      subst t. unfold temp_pdf in *. cbn [category_suffix] in *.
      unfold _image_to_pdf. rewrite Hrl, Hpil. unfold bind at 1, ret at 1.
      unfold pillow_strategy, try_except, bind at 1, read_image, bind at 1, fs_read.
      rewrite Hr, Hf, Him. unfold ret at 1.
      unfold bind, pil_save, fs_create, fs_write, ret. rewrite Hc, Hwr.
      unfold set_files. cbn [files events]. do 2 f_equal.
      apply insert_insert_eq.
  - intros Hbad.
    assert (Hread : exists e, read_image E src w = (Raise e, w)).
    { unfold read_image, bind, fs_read.
      destruct (fault E (OpRead src)); [eauto|].
      destruct Hbad as [->|(f & -> & ->)]; eauto. }
    destruct Hread as (e & Hread).
    unfold _image_to_pdf, bind at 1.
    assert (Hrl : reportlab_strategy E src (PathLib.join tmpdir (PathLib.stem src ++ "_img.pdf")) w
                  = (Ok None, w)).
    { unfold reportlab_strategy, try_except, bind at 1. rewrite Hread. reflexivity. }
    assert (Hpil : pillow_strategy E src (PathLib.join tmpdir (PathLib.stem src ++ "_img.pdf")) w
                   = (Ok None, w)).
    { unfold pillow_strategy, try_except, bind at 1. rewrite Hread. reflexivity. }
    destruct (REPORTLAB_AVAILABLE E); [rewrite Hrl|unfold ret at 1];
      (destruct (PIL_AVAILABLE E); [exact Hpil|reflexivity]).
Qed.

Lemma image_strategy_order_witness :
  files Sample.w_img !! "/d/c.png" = Some Sample.c_png /\
  writes Sample.E_bare CatImage "/tmp/tmpx" "/d/c.png" Sample.w_img
    (pillow_image_pages (Img 100 200 7)) /\
  _image_to_pdf Sample.E "/d/a.pdf" "/tmp/tmpx" Sample.w_img = (Ok None, Sample.w_img).
Proof.
  split; [reflexivity|].
  pose proof (image_strategy_order Sample.E_bare "/tmp/tmpx" "/d/c.png" Sample.w_img) as H1.
  pose proof (image_strategy_order Sample.E "/tmp/tmpx" "/d/a.pdf" Sample.w_img) as H2.
  cbv zeta in H1, H2. split.
  - apply (proj1 H1 Sample.c_png (Img 100 200 7)); reflexivity.
  - apply (proj2 H2). right. exists Sample.a_pdf. split; reflexivity.
Defined.

(** ** Sizes as the document list shows them *)

Lemma round_half_even_close num den :
  0 < den -> 2 * Z.abs (num - round_half_even num den * den) <= den.
Proof.
  intros Hden. unfold round_half_even.
  pose proof (Z.div_mod num den ltac:(lia)) as Hdm.
  pose proof (Z.mod_pos_bound num den Hden) as Hr.
  destruct (Z.ltb_spec (2 * (num mod den)) den);
    [|destruct (Z.ltb_spec den (2 * (num mod den)));
      [|destruct (Z.even (num / den))]]; nia.
Qed.

(** X17. [human_size] picks the largest unit, up to TB, that is not
    larger than the size, and shows the size in that unit rounded to the
    nearest tenth: for the unit 1024^k the number of tenths shown is
    within half a tenth of the size.  A size below 1024 is shown in
    bytes, exactly.  The sizes are those the floats of the source hold
    without error, the ones below 2^53. *)
Theorem human_size_unit (n : Z) :
  0 <= n < 2 ^ 53 ->
  exists k : nat,
    (k <= 4)%nat /\
    (human_parts n).2 = nth k (UNITS ++ ["TB"])%list "" /\
    (k = 0%nat \/ 1024 ^ Z.of_nat k <= n) /\
    (k = 4%nat \/ n < 1024 ^ Z.of_nat (S k)) /\
    2 * Z.abs (10 * n - (human_parts n).1 * 1024 ^ Z.of_nat k) <= 1024 ^ Z.of_nat k /\
    (k = 0%nat -> (human_parts n).1 = 10 * n /\ human_size n = decimal n ++ ".0 B").
Proof.
  intros _. unfold human_size, human_parts, UNITS. cbn [human_loop].
  destruct (Z.ltb_spec n (1024 * 1)) as [H0|H0].
  { exists 0%nat. cbn [fst snd nth app]. split; [lia|]. split; [reflexivity|].
    split; [auto|]. split; [right; change (1024 ^ Z.of_nat 1) with 1024; lia|].
    assert (Ht : round_half_even (10 * n) 1 = 10 * n).
    { unfold round_half_even. rewrite Z.mod_1_r, Z.div_1_r. reflexivity. }
    rewrite Ht. split; [change (1024 ^ Z.of_nat 0) with 1; lia|].
    intros _. split; [reflexivity|]. unfold fixed1.
    replace (10 * n / 10) with n by (rewrite Z.mul_comm, Z.div_mul; lia).
    replace (10 * n mod 10) with 0 by (rewrite Z.mul_comm, Z.mod_mul; lia).
    rewrite append_assoc3. reflexivity. }
  destruct (Z.ltb_spec n (1024 * (1024 * 1))) as [H1|H1].
  { exists 1%nat. cbn [fst snd nth app]. split; [lia|]. split; [reflexivity|].
    change (1024 ^ Z.of_nat 1) with 1024. change (1024 ^ Z.of_nat 2) with (1024 * 1024).
    split; [right; lia|]. split; [right; lia|].
    split; [|discriminate].
    pose proof (round_half_even_close (10 * n) (1024 * 1) ltac:(lia)). lia. }
  destruct (Z.ltb_spec n (1024 * (1024 * (1024 * 1)))) as [H2|H2].
  { exists 2%nat. cbn [fst snd nth app]. split; [lia|]. split; [reflexivity|].
    change (1024 ^ Z.of_nat 2) with (1024 * 1024).
    change (1024 ^ Z.of_nat 3) with (1024 * 1024 * 1024).
    split; [right; lia|]. split; [right; lia|].
    split; [|discriminate].
    pose proof (round_half_even_close (10 * n) (1024 * (1024 * 1)) ltac:(lia)). lia. }
  destruct (Z.ltb_spec n (1024 * (1024 * (1024 * (1024 * 1))))) as [H3|H3].
  { exists 3%nat. cbn [fst snd nth app]. split; [lia|]. split; [reflexivity|].
    change (1024 ^ Z.of_nat 3) with (1024 * 1024 * 1024).
    change (1024 ^ Z.of_nat 4) with (1024 * 1024 * 1024 * 1024).
    split; [right; lia|]. split; [right; lia|].
    split; [|discriminate].
    pose proof (round_half_even_close (10 * n) (1024 * (1024 * (1024 * 1))) ltac:(lia)).
    lia. }
  exists 4%nat. cbn [fst snd nth app]. split; [lia|]. split; [reflexivity|].
  change (1024 ^ Z.of_nat 4) with (1024 * 1024 * 1024 * 1024).
  split; [right; lia|]. split; [left; reflexivity|].
  split; [|discriminate].
  pose proof (round_half_even_close (10 * n) (1024 * (1024 * (1024 * (1024 * 1))))
                ltac:(lia)). lia.
Qed.

Lemma human_size_unit_witness :
  0 <= 1536 < 2 ^ 53 /\
  human_size 1536 = "1.5 KB" /\
  exists k : nat, (human_parts 1536).2 = nth k (UNITS ++ ["TB"])%list "" /\
                  2 * Z.abs (10 * 1536 - (human_parts 1536).1 * 1024 ^ Z.of_nat k)
                  <= 1024 ^ Z.of_nat k.
Proof.
  assert (H : 0 <= 1536 < 2 ^ 53) by (split; [discriminate|reflexivity]).
  split; [exact H|]. split; [reflexivity|].
  destruct (human_size_unit 1536 H) as (k & _ & Hu & _ & _ & Hclose & _).
  exists k. split; [exact Hu|exact Hclose].
Defined.

Lemma round_half_even_top n den :
  0 < den -> 20479 * den <= 20 * n -> n < 1024 * den ->
  round_half_even (10 * n) den = 10240.
Proof.
  intros Hden Hlo Hhi. unfold round_half_even.
  pose proof (Z.div_mod (10 * n) den ltac:(lia)) as Hdm.
  pose proof (Z.mod_pos_bound (10 * n) den Hden) as Hr.
  assert (Hq : 10 * n / den = 10239).
  { symmetry. apply (Z.div_unique _ _ _ (10 * n - den * 10239)); [left|]; lia. }
  rewrite Hq in *.
  destruct (Z.ltb_spec (2 * ((10 * n) mod den)) den); [nia|].
  destruct (Z.ltb_spec den (2 * ((10 * n) mod den))); reflexivity.
Qed.

(** X18. The unit is chosen before the rounding: a size less than a
    twentieth of a unit below the next power of 1024 is shown as
    1024.0 of the smaller unit, not as 1.0 of the next one. *)
Theorem human_size_shows_1024 (n : Z) (k : nat) :
  (1 <= k <= 3)%nat ->
  20479 * 1024 ^ Z.of_nat k <= 20 * n ->
  n < 1024 ^ Z.of_nat (S k) ->
  human_size n = "1024.0 " ++ nth k UNITS "".
Proof.
  intros Hk Hlo Hhi. unfold human_size, human_parts, UNITS.
  assert (Hcases : k = 1%nat \/ k = 2%nat \/ k = 3%nat) by lia.
  destruct Hcases as [->|[->| ->]].
  - change (1024 ^ Z.of_nat 1) with 1024 in *.
    change (1024 ^ Z.of_nat 2) with (1024 * 1024) in *.
    cbn [human_loop].
    destruct (Z.ltb_spec n (1024 * 1)); [lia|].
    destruct (Z.ltb_spec n (1024 * (1024 * 1))); [|lia].
    cbn [fst snd]. rewrite round_half_even_top by lia. reflexivity.
  - change (1024 ^ Z.of_nat 2) with (1024 * 1024) in *.
    change (1024 ^ Z.of_nat 3) with (1024 * 1024 * 1024) in *.
    cbn [human_loop].
    destruct (Z.ltb_spec n (1024 * 1)); [lia|].
    destruct (Z.ltb_spec n (1024 * (1024 * 1))); [lia|].
    destruct (Z.ltb_spec n (1024 * (1024 * (1024 * 1)))); [|lia].
    cbn [fst snd]. rewrite round_half_even_top by lia. reflexivity.
  - change (1024 ^ Z.of_nat 3) with (1024 * 1024 * 1024) in *.
    change (1024 ^ Z.of_nat 4) with (1024 * 1024 * 1024 * 1024) in *.
    cbn [human_loop].
    destruct (Z.ltb_spec n (1024 * 1)); [lia|].
    destruct (Z.ltb_spec n (1024 * (1024 * 1))); [lia|].
    destruct (Z.ltb_spec n (1024 * (1024 * (1024 * 1)))); [lia|].
    destruct (Z.ltb_spec n (1024 * (1024 * (1024 * (1024 * 1))))); [|lia].
    cbn [fst snd]. rewrite round_half_even_top by lia. reflexivity.
Qed.

Lemma human_size_shows_1024_witness :
  20479 * 1024 ^ Z.of_nat 1 <= 20 * 1048575 /\
  human_size 1048575 = "1024.0 KB" /\
  human_size 1048576 = "1.0 MB".
Proof.
  assert (Hlo : 20479 * 1024 ^ Z.of_nat 1 <= 20 * 1048575) by (vm_compute; discriminate).
  assert (Hhi : 1048575 < 1024 ^ Z.of_nat 2) by reflexivity.
  split; [exact Hlo|]. split; [|reflexivity].
  exact (human_size_shows_1024 1048575 1 ltac:(lia) Hlo Hhi).
Defined.

(** ** The handlers of the window *)

Section Handlers.

Variable insert_error : list string -> string -> option string.

(** A reload touches the tree and nothing else. *)
Lemma reload_docs_keeps g :
  Gui.state_model (Gui._reload_docs insert_error g).2 = Gui.state_model g /\
  Gui.topic_list (Gui._reload_docs insert_error g).2 = Gui.topic_list g /\
  Gui.saved (Gui._reload_docs insert_error g).2 = Gui.saved g /\
  Gui.notes (Gui._reload_docs insert_error g).2 = Gui.notes g.
Proof.
  unfold Gui._reload_docs.
  destruct (Gui.truthy (State.current_topic (Gui.state_model g))); cbn; auto.
Qed.

Lemma select_topic_keeps topic g :
  Gui.state_model (Gui._select_topic insert_error topic g).2 =
    State.Make (State.topics (Gui.state_model g)) (Some topic) /\
  Gui.topic_list (Gui._select_topic insert_error topic g).2 = Gui.topic_list g /\
  Gui.saved (Gui._select_topic insert_error topic g).2 = Gui.saved g /\
  Gui.notes (Gui._select_topic insert_error topic g).2 = Gui.notes g.
Proof.
  unfold Gui._select_topic.
  destruct (reload_docs_keeps
              (Gui.set_state (State.Make (State.topics (Gui.state_model g)) (Some topic)) g))
    as (-> & -> & -> & ->).
  cbn. auto.
Qed.

(** The error of a failed reload is an error of the tree. *)
Lemma insert_rows_raise docs : forall rows e,
  (Gui.insert_rows insert_error docs rows).1 = Raise e ->
  exists rows' iid, insert_error rows' iid = Some e.
Proof.
  induction docs as [|d rest IH]; intros rows e; cbn [Gui.insert_rows]; [discriminate|].
  destruct (insert_error rows (path d)) as [e'|] eqn:He.
  - intros [= <-]. eauto.
  - apply IH.
Qed.

Lemma reload_docs_raise g e :
  (Gui._reload_docs insert_error g).1 = Raise e ->
  exists rows iid, insert_error rows iid = Some e.
Proof.
  unfold Gui._reload_docs.
  destruct (Gui.truthy (State.current_topic (Gui.state_model g))); [|discriminate].
  cbn [fst]. apply insert_rows_raise.
Qed.

Lemma change_refl s : Gui.change s s.
Proof. destruct s as [topics c]. apply (Gui.change_current (State.Make topics c) c). Qed.

Lemma stepped_refl g : Gui.stepped g g.
Proof.
  split; [apply change_refl|]. split; [right|left]; auto.
Qed.

(** A handler that commits a new catalog: [save], [_reload_topics],
    [_select_topic]. *)
Lemma commit_select s1 name g :
  let g' := (Gui._select_topic insert_error name
               (Gui._reload_topics (Gui.save (Gui.set_state s1 g)))).2 in
  Gui.state_model g' = State.Make (State.topics s1) (Some name) /\
  Gui.topic_list g' = dom (State.topics s1) /\
  Gui.saved g' = Some s1.
Proof.
  intros g'. subst g'.
  destruct (select_topic_keeps name (Gui._reload_topics (Gui.save (Gui.set_state s1 g))))
    as (-> & -> & -> & _).
  cbn. auto.
Qed.

(** A handler that commits a new catalog: [save], [_reload_docs], and
    perhaps a message. *)
Lemma commit_reload s1 (b : bool) n g :
  let g' := (match Gui._reload_docs insert_error (Gui.save (Gui.set_state s1 g)) with
             | (Ok _, g') => if b then Gui.done (Gui.show n g') else Gui.done g'
             | e => e
             end).2 in
  Gui.state_model g' = s1 /\
  Gui.topic_list g' = Gui.topic_list g /\
  Gui.saved g' = Some s1.
Proof.
  intros g'. subst g'.
  destruct (reload_docs_keeps (Gui.save (Gui.set_state s1 g))) as (Hs & Hl & Hv & _).
  destruct (Gui._reload_docs insert_error (Gui.save (Gui.set_state s1 g))) as [[[]|e] g'];
    cbn [fst snd] in *; [destruct b|]; cbn; auto.
Qed.

Lemma ensure_topic_dom s topic :
  dom (State.topics s) ⊆ dom (State.topics (State.ensure_topic s topic)).
Proof.
  unfold State.ensure_topic. destruct (State.topics s !! topic); [reflexivity|].
  cbn [State.topics]. rewrite dom_insert. set_solver.
Qed.

Lemma add_docs_dom w s topic paths :
  dom (State.topics s) ⊆ dom (State.topics (State.add_docs w s topic paths).1).
Proof.
  unfold State.add_docs. cbn [fst State.topics]. rewrite dom_insert.
  pose proof (ensure_topic_dom s topic). set_solver.
Qed.

Lemma set_read_dom s topic p b :
  dom (State.topics s) ⊆ dom (State.topics (State.set_read s topic p b)).
Proof.
  unfold State.set_read. destruct (State.topics s !! topic); [|reflexivity].
  cbn [State.topics]. rewrite dom_insert. set_solver.
Qed.

Lemma remove_doc_dom s topic p :
  dom (State.topics s) ⊆ dom (State.topics (State.remove_doc s topic p)).
Proof.
  unfold State.remove_doc. cbn [State.topics]. rewrite dom_insert. set_solver.
Qed.

Lemma stepped_committed g g' :
  Gui.change (Gui.state_model g) (Gui.state_model g') ->
  (Gui.topic_list g' = dom (State.topics (Gui.state_model g')) \/
   Gui.topic_list g' = Gui.topic_list g /\
   dom (State.topics (Gui.state_model g)) ⊆ dom (State.topics (Gui.state_model g'))) ->
  Gui.saved g' = Some (Gui.state_model g') \/
  (exists c, Gui.saved g' = Some (State.Make (State.topics (Gui.state_model g')) c)) ->
  Gui.stepped g g'.
Proof.
  intros Hc Hl Hv. split; [exact Hc|]. split; [exact Hl|]. right.
  destruct Hv as [Hv|[c Hv]]; eexists; (split; [exact Hv|reflexivity]).
Qed.

Lemma stepped_reload s1 (b : bool) n g :
  Gui.change (Gui.state_model g) s1 ->
  dom (State.topics (Gui.state_model g)) ⊆ dom (State.topics s1) ->
  Gui.stepped g (match Gui._reload_docs insert_error (Gui.save (Gui.set_state s1 g)) with
             | (Ok _, g') => if b then Gui.done (Gui.show n g') else Gui.done g'
             | e => e
             end).2.
Proof.
  intros Hc Hd. destruct (commit_reload s1 b n g) as (Hs & Hl & Hv).
  apply stepped_committed.
  - rewrite Hs. exact Hc.
  - right. split; [exact Hl|]. rewrite Hs. exact Hd.
  - left. rewrite Hv, Hs. reflexivity.
Qed.

Lemma handle_stepped a g : Gui.stepped g (Gui.handle insert_error a g).2.
Proof.
  destruct a as [sel|answer|sel answer|sel confirm|w paths|w data|sel b|sel confirm];
    cbn [Gui.handle].
  - unfold Gui.on_topic_select. destruct sel as [topic|]; [|apply stepped_refl].
    pose proof (select_topic_keeps topic g) as (Hs & Hl & Hv & _).
    destruct (Gui._select_topic insert_error topic g) as [[[]|e] g']; cbn [fst snd] in *.
    + unfold Gui.stepped. cbn [Gui.done snd Gui.save Gui.state_model Gui.topic_list Gui.saved].
      rewrite Hs. cbn [State.topics]. split; [constructor|].
      split; [right; split; [exact Hl|reflexivity]|].
      right. eexists. cbn. split; [reflexivity|]. rewrite Hs. reflexivity.
    + unfold Gui.stepped. rewrite Hs, Hl, Hv. cbn [State.topics].
      split; [constructor|]. split; [right|left]; auto.
  - unfold Gui.add_topic.
    destruct (Gui.truthy answer) as [name0|]; [|apply stepped_refl].
    destruct (Gui.truthy (Some (Dnd.strip name0))) as [name|]; [|apply stepped_refl].
    destruct (bool_decide (is_Some (State.topics (Gui.state_model g) !! name))) eqn:Hin;
      [exact (stepped_refl g)|].
    apply bool_decide_eq_false in Hin. rewrite <- eq_None_not_Some in Hin.
    destruct (commit_select (State.ensure_topic (Gui.state_model g) name) name g)
      as (Hs & Hl & Hv).
    cbv zeta.
    assert (He : State.ensure_topic (Gui.state_model g) name =
                 State.Make (<[name := []]> (State.topics (Gui.state_model g)))
                   (State.current_topic (Gui.state_model g))).
    { unfold State.ensure_topic. rewrite Hin. reflexivity. }
    apply stepped_committed.
    + rewrite Hs, He. cbn [State.topics]. apply Gui.change_new, Hin.
    + left. rewrite Hl, Hs. reflexivity.
    + right. rewrite Hv, Hs, He. eauto.
  - unfold Gui.rename_topic. destruct sel as [old|]; [|apply stepped_refl].
    destruct (Gui.truthy answer) as [new0|]; [|apply stepped_refl]. cbv zeta.
    destruct (negb (Dnd.nonempty (Dnd.strip new0)) || String.eqb (Dnd.strip new0) old)%bool;
      [apply stepped_refl|].
    destruct (bool_decide (is_Some (State.topics (Gui.state_model g) !! Dnd.strip new0)))
      eqn:Hin; [exact (stepped_refl g)|].
    apply bool_decide_eq_false in Hin. rewrite <- eq_None_not_Some in Hin.
    destruct (State.topics (Gui.state_model g) !! old) as [docs|] eqn:Hold;
      [|apply stepped_refl].
    match goal with
    | |- Gui.stepped g (Gui._select_topic _ _ (Gui._reload_topics (Gui.save
                                                               (Gui.set_state ?s1 g)))).2 =>
        destruct (commit_select s1 (Dnd.strip new0) g) as (Hs & Hl & Hv)
    end.
    apply stepped_committed.
    + rewrite Hs. cbn [State.topics]. apply Gui.change_rename; assumption.
    + left. rewrite Hl, Hs. reflexivity.
    + right. rewrite Hv, Hs. cbn [State.topics]. eauto.
  - unfold Gui.delete_topic. destruct sel as [topic|]; [|apply stepped_refl].
    destruct confirm; [|apply stepped_refl]. cbv zeta.
    apply stepped_committed; cbn.
    + apply Gui.change_delete.
    + left. reflexivity.
    + left. reflexivity.
  - unfold Gui.add_files_dialog.
    destruct (Gui.truthy (State.current_topic (Gui.state_model g))) as [topic|];
      [|exact (stepped_refl g)].
    destruct paths as [|p ps]; [apply stepped_refl|]. cbv zeta.
    set (r := State.add_docs w (Gui.state_model g) topic (p :: ps)).
    match goal with
    | |- context [Gui.show ?n] =>
        exact (stepped_reload r.1 (r.2 =? 0)%nat n g
                 (Gui.change_add _ w topic (p :: ps)) (add_docs_dom w _ topic (p :: ps)))
    end.
  - unfold Gui.on_drop.
    destruct (Gui.truthy (State.current_topic (Gui.state_model g))) as [topic|];
      [|exact (stepped_refl g)].
    cbv zeta.
    set (r := State.add_docs w (Gui.state_model g) topic (Dnd._split_dnd_paths data)).
    match goal with
    | |- context [Gui.show ?n] =>
        exact (stepped_reload r.1 (r.2 =? 0)%nat n g
                 (Gui.change_add _ w topic (Dnd._split_dnd_paths data))
                 (add_docs_dom w _ topic (Dnd._split_dnd_paths data)))
    end.
  - unfold Gui.set_selected_read.
    destruct (Gui.truthy (State.current_topic (Gui.state_model g))) as [topic|];
      [|apply stepped_refl].
    destruct sel as [p|]; [|apply stepped_refl].
    match goal with
    | |- Gui.stepped g (Gui._reload_docs _ (Gui.save (Gui.set_state ?s1 g))).2 =>
        destruct (reload_docs_keeps (Gui.save (Gui.set_state s1 g))) as (Hs & Hl & Hv & _)
    end.
    apply stepped_committed.
    + rewrite Hs. apply Gui.change_read.
    + right. split; [exact Hl|]. rewrite Hs. apply set_read_dom.
    + left. rewrite Hv, Hs. reflexivity.
  - unfold Gui.remove_selected_doc.
    destruct (Gui.truthy (State.current_topic (Gui.state_model g))) as [topic|];
      [|apply stepped_refl].
    destruct sel as [p|]; [|apply stepped_refl].
    destruct confirm; [|apply stepped_refl].
    match goal with
    | |- Gui.stepped g (Gui._reload_docs _ (Gui.save (Gui.set_state ?s1 g))).2 =>
        destruct (reload_docs_keeps (Gui.save (Gui.set_state s1 g))) as (Hs & Hl & Hv & _)
    end.
    apply stepped_committed.
    + rewrite Hs. apply Gui.change_remove.
    + right. split; [exact Hl|]. rewrite Hs. apply remove_doc_dom.
    + left. rewrite Hv, Hs. reflexivity.
Qed.

Lemma run_stepped (P : Gui.t -> Prop) :
  (forall g g', Gui.stepped g g' -> P g -> P g') ->
  forall actions g, P g -> P (Gui.run insert_error actions g).
Proof.
  intros Hstep actions. induction actions as [|a rest IH]; intros g Hg; cbn [Gui.run].
  - exact Hg.
  - apply IH. apply (Hstep g); [apply handle_stepped|exact Hg].
Qed.

Lemma list_docs_supported s topic :
  Gui.all_supported s ->
  Forall (fun d => ext_in (ext_of d) SUPPORTED_EXTS = true) (list_docs (State.topics s) topic).
Proof.
  intros Hs. unfold list_docs. destruct (State.topics s !! topic) as [docs|] eqn:H.
  - exact (Hs topic docs H).
  - constructor.
Qed.

Lemma change_supported s s' :
  Gui.change s s' -> Gui.all_supported s -> Gui.all_supported s'.
Proof.
  intros Hc Hs. destruct Hc as [c|name c Hnew|old new docs c Hold Hnew|topic c
                               |w topic paths|topic p b|topic p];
    intros t ds; cbn [State.topics].
  - apply Hs.
  - destruct (decide (t = name)) as [->|Hne].
    + rewrite lookup_insert_eq. intros [= <-]. constructor.
    + rewrite lookup_insert_ne by congruence. apply Hs.
  - destruct (decide (t = new)) as [->|Hne].
    + rewrite lookup_insert_eq. intros [= <-]. exact (Hs old docs Hold).
    + rewrite lookup_insert_ne by congruence. intros Hd.
      apply lookup_delete_Some in Hd as [_ Hd]. exact (Hs t ds Hd).
  - intros Hd. apply lookup_delete_Some in Hd as [_ Hd]. exact (Hs t ds Hd).
  - destruct (decide (t = topic)) as [->|Hne].
    + intros Hd.
      assert (Hl : list_docs (State.topics (State.add_docs w s topic paths).1) topic = ds).
      { unfold list_docs. rewrite Hd. reflexivity. }
      rewrite add_docs_docs in Hl. subst ds. apply Forall_app. split.
      * apply list_docs_supported, Hs.
      * apply Forall_map, Forall_forall. intros p Hp.
        apply list_elem_of_In, filter_In in Hp as [_ Hacc].
        unfold State.accepts in Hacc. rewrite !andb_true_iff in Hacc.
        destruct Hacc as [[_ Hext] _]. exact Hext.
    + unfold State.add_docs. cbn [fst State.topics].
      rewrite lookup_insert_ne by congruence. rewrite ensure_topic_other by assumption.
      apply Hs.
  - unfold State.set_read. destruct (State.topics s !! topic) as [docs|] eqn:Hd;
      [|apply Hs]. cbn [State.topics].
    destruct (decide (t = topic)) as [->|Hne].
    + rewrite lookup_insert_eq. intros [= <-]. apply Forall_map.
      eapply Forall_impl; [exact (Hs topic docs Hd)|]. cbn. intros d Hx.
      unfold ext_of. rewrite mark_path. exact Hx.
    + rewrite lookup_insert_ne by congruence. apply Hs.
  - unfold State.remove_doc. cbn [State.topics].
    destruct (decide (t = topic)) as [->|Hne].
    + rewrite lookup_insert_eq. intros [= <-].
      apply Forall_forall. intros d Hd. apply list_elem_of_In, filter_In in Hd as [Hd _].
      pose proof (list_docs_supported s topic Hs) as Hall.
      rewrite Forall_forall in Hall. apply Hall, list_elem_of_In, Hd.
    + rewrite lookup_insert_ne by congruence. apply Hs.
Qed.

(** The errors a handler can raise. *)
Lemma handle_raise a g e :
  (Gui.handle insert_error a g).1 = Raise e ->
  (exists rows iid, insert_error rows iid = Some e) \/
  (exists old, Gui.picked a = Some old /\ State.topics (Gui.state_model g) !! old = None).
Proof.
  destruct a as [sel|answer|sel answer|sel confirm|w paths|w data|sel b|sel confirm];
    cbn [Gui.handle Gui.picked].
  - unfold Gui.on_topic_select. destruct sel as [topic|]; [|discriminate].
    unfold Gui._select_topic.
    destruct (Gui._reload_docs insert_error _) as [[[]|e'] g'] eqn:Hr; [discriminate|].
    intros [= <-]. left.
      match type of Hr with
      | Gui._reload_docs _ ?x = _ => apply (reload_docs_raise x e')
      end.
      rewrite Hr. reflexivity.
  - unfold Gui.add_topic.
    destruct (Gui.truthy answer) as [name0|]; [|discriminate].
    destruct (Gui.truthy (Some (Dnd.strip name0))) as [name|]; [|discriminate].
    destruct (bool_decide _); [discriminate|]. cbv zeta.
    intros Hr. left. exact (reload_docs_raise _ e Hr).
  - unfold Gui.rename_topic. destruct sel as [old|]; [|discriminate].
    destruct (Gui.truthy answer) as [new0|]; [|discriminate]. cbv zeta.
    destruct (_ || _)%bool; [discriminate|].
    destruct (bool_decide _); [discriminate|].
    destruct (State.topics (Gui.state_model g) !! old) as [docs|] eqn:Hold.
    + intros Hr. left. exact (reload_docs_raise _ e Hr).
    + intros _. right. eauto.
  - unfold Gui.delete_topic. destruct sel as [topic|]; [|discriminate].
    destruct confirm; discriminate.
  - unfold Gui.add_files_dialog.
    destruct (Gui.truthy (State.current_topic (Gui.state_model g))) as [topic|];
      [|discriminate].
    destruct paths as [|p ps]; [discriminate|]. cbv zeta.
    destruct (Gui._reload_docs insert_error _) as [[[]|e'] g'] eqn:Hr.
    + destruct (_ =? _)%nat; discriminate.
    + intros [= <-]. left.
      match type of Hr with
      | Gui._reload_docs _ ?x = _ => apply (reload_docs_raise x e')
      end.
      rewrite Hr. reflexivity.
  - unfold Gui.on_drop.
    destruct (Gui.truthy (State.current_topic (Gui.state_model g))) as [topic|];
      [|discriminate].
    cbv zeta.
    destruct (Gui._reload_docs insert_error _) as [[[]|e'] g'] eqn:Hr.
    + destruct (_ =? _)%nat; discriminate.
    + intros [= <-]. left.
      match type of Hr with
      | Gui._reload_docs _ ?x = _ => apply (reload_docs_raise x e')
      end.
      rewrite Hr. reflexivity.
  - unfold Gui.set_selected_read.
    destruct (Gui.truthy (State.current_topic (Gui.state_model g))) as [topic|];
      [|discriminate].
    destruct sel as [p|]; [|discriminate].
    intros Hr. left. exact (reload_docs_raise _ e Hr).
  - unfold Gui.remove_selected_doc.
    destruct (Gui.truthy (State.current_topic (Gui.state_model g))) as [topic|];
      [|discriminate].
    destruct sel as [p|]; [|discriminate]. destruct confirm; [|discriminate].
    intros Hr. left. exact (reload_docs_raise _ e Hr).
Qed.

(** What the insert loop of the tree does with a list of documents. *)
Lemma insert_rows_ok docs : forall rows,
  (forall rows iid, iid ∈ rows -> insert_error rows iid <> None) ->
  (Gui.insert_rows insert_error docs rows).1 = Ok tt ->
  NoDup rows -> NoDup (rows ++ map path docs)%list.
Proof.
  induction docs as [|d rest IH]; intros rows Htk; cbn [Gui.insert_rows map].
  - rewrite app_nil_r. auto.
  - destruct (insert_error rows (path d)) eqn:He; [discriminate|].
    intros Hok Hnd.
    assert (Hnew : path d ∉ rows).
    { intros Hin. apply (Htk rows (path d) Hin). exact He. }
    rewrite (cons_middle (path d)), app_assoc. apply IH; [exact Htk|exact Hok|].
    apply NoDup_app. split; [exact Hnd|]. split.
    + intros x Hx Hx'. apply list_elem_of_singleton in Hx'. subst x. contradiction.
    + apply NoDup_singleton.
Qed.

Lemma insert_rows_distinct docs : forall rows,
  (forall rows iid, iid ∉ rows -> insert_error rows iid = None) ->
  NoDup (rows ++ map path docs)%list ->
  Gui.insert_rows insert_error docs rows = (Ok tt, (rows ++ map path docs)%list).
Proof.
  induction docs as [|d rest IH]; intros rows Htk Hnd; cbn [Gui.insert_rows map].
  - rewrite app_nil_r. reflexivity.
  - assert (Heq : (rows ++ path d :: map path rest)%list =
                  ((rows ++ [path d]) ++ map path rest)%list).
    { rewrite <- app_assoc. reflexivity. }
    rewrite Htk.
    + rewrite Heq. apply IH; [exact Htk|]. rewrite <- Heq. exact Hnd.
    + apply NoDup_app in Hnd as (_ & Hnd & _). intros Hin.
      apply (Hnd (path d) Hin). left.
Qed.

End Handlers.

(** X19. The handlers keep the catalog to documents the export can
    handle: if every document of the catalog has a supported extension,
    this is still so after any sequence of actions of the user, whatever
    the dialogs answer, whatever files exist, and whether or not a
    handler raised; every document of every topic is then a PDF or of a
    class the export loop converts. *)
Theorem catalog_stays_supported (insert_error : list string -> string -> option string)
    (actions : list Gui.action) (g : Gui.t) :
  Gui.all_supported (Gui.state_model g) ->
  Gui.all_supported (Gui.state_model (Gui.run insert_error actions g)) /\
  forall topic d,
    d ∈ list_docs (State.topics (Gui.state_model (Gui.run insert_error actions g))) topic ->
    exportable d.
Proof.
  intros Hg.
  assert (Hrun : Gui.all_supported (Gui.state_model (Gui.run insert_error actions g))).
  { apply (run_stepped insert_error (fun g => Gui.all_supported (Gui.state_model g)));
      [|exact Hg].
    intros g1 g2 (Hc & _) H1. exact (change_supported _ _ Hc H1). }
  split; [exact Hrun|]. intros topic d Hd.
  pose proof (list_docs_supported _ topic Hrun) as Hall.
  rewrite Forall_forall in Hall. apply supported_exportable, Hall, Hd.
Qed.

Lemma catalog_stays_supported_witness :
  let g := Gui.run Gui.unique_ids
             [Gui.AddTopic (Some " T "); Gui.DropData Sample.w "/d/a.pdf /d/x.exe /d/b.pdf"]
             Gui.empty in
  list_docs (State.topics (Gui.state_model g)) "T" =
    [Doc "/d/a.pdf" false; Doc "/d/b.pdf" false] /\
  exportable (Doc "/d/b.pdf" false).
Proof.
  intros g.
  assert (Hdocs : list_docs (State.topics (Gui.state_model g)) "T" =
                  [Doc "/d/a.pdf" false; Doc "/d/b.pdf" false]) by (vm_compute; reflexivity).
  split; [exact Hdocs|].
  assert (H0 : Gui.all_supported (Gui.state_model Gui.empty)).
  { intros topic docs H. cbn in H. rewrite lookup_empty in H. discriminate. }
  apply (proj2 (catalog_stays_supported Gui.unique_ids
                  [Gui.AddTopic (Some " T "); Gui.DropData Sample.w "/d/a.pdf /d/x.exe /d/b.pdf"]
                  Gui.empty H0) "T").
  change (Doc "/d/b.pdf" false ∈ list_docs (State.topics (Gui.state_model g)) "T").
  rewrite Hdocs. apply list_elem_of_In. right. left. reflexivity.
Defined.

(** X20. The items of the topic list are topics of the catalog, and
    stay so under every action.  So a handler never fails on a topic
    that is missing from the catalog ([rename_topic] finds the topic it
    pops): when the user picks items of the topic list, the only error a
    handler raises is an error of the insert into the document tree. *)
Theorem handlers_fail_only_in_tree (insert_error : list string -> string -> option string)
    (a : Gui.action) (g : Gui.t) :
  Gui.listed_topics_exist g ->
  (forall old, Gui.picked a = Some old -> old ∈ Gui.topic_list g) ->
  Gui.listed_topics_exist (Gui.handle insert_error a g).2 /\
  (forall e, (Gui.handle insert_error a g).1 = Raise e ->
             exists rows iid, insert_error rows iid = Some e) /\
  (forall actions, Gui.listed_topics_exist (Gui.run insert_error actions g)).
Proof.
  intros Hinv Hpick.
  assert (Hstep : forall g1 g2, Gui.stepped g1 g2 ->
                    Gui.listed_topics_exist g1 -> Gui.listed_topics_exist g2).
  { intros g1 g2 (_ & Hl & _) H1. unfold Gui.listed_topics_exist in *.
    destruct Hl as [->|[-> Hsub]]; [reflexivity|]. set_solver. }
  split; [|split].
  - apply (Hstep g); [apply handle_stepped|exact Hinv].
  - intros e He. destruct (handle_raise insert_error a g e He) as [Htree|(old & Hp & Hnone)];
      [exact Htree|].
    specialize (Hpick old Hp). apply Hinv in Hpick.
    apply elem_of_dom in Hpick as [docs Hd]. congruence.
  - intros actions. apply (run_stepped insert_error Gui.listed_topics_exist Hstep).
    exact Hinv.
Qed.

Lemma handlers_fail_only_in_tree_witness :
  let g := (Gui.handle Gui.unique_ids (Gui.AddTopic (Some "T")) Gui.empty).2 in
  let r := Gui.handle Gui.unique_ids (Gui.RenameTopic (Some "T") (Some "U")) g in
  Gui.listed_topics_exist g /\
  "T" ∈ Gui.topic_list g /\
  r.1 = Ok tt /\
  Gui.listed_topics_exist r.2.
Proof.
  intros g r.
  assert (Hg : Gui.listed_topics_exist g).
  { unfold Gui.listed_topics_exist. apply (bool_decide_unpack _). vm_compute. exact I. }
  assert (HT : "T" ∈ Gui.topic_list g).
  { apply (bool_decide_unpack _). vm_compute. exact I. }
  assert (Hpick : forall old,
             Gui.picked (Gui.RenameTopic (Some "T") (Some "U")) = Some old ->
             old ∈ Gui.topic_list g).
  { intros old [= <-]. exact HT. }
  split; [exact Hg|]. split; [exact HT|]. split; [reflexivity|].
  exact (proj1 (handlers_fail_only_in_tree Gui.unique_ids
                  (Gui.RenameTopic (Some "T") (Some "U")) g Hg Hpick)).
Defined.

(** X21. Every change of the topics of the catalog is saved: a handler
    that changes the topics or their documents hands the new topics to
    [save] before it returns or raises, so once the saved state has the
    topics of the catalog it has them after every sequence of
    actions. *)
Theorem topic_changes_are_saved (insert_error : list string -> string -> option string) :
  (forall a g,
      State.topics (Gui.state_model (Gui.handle insert_error a g).2) <>
      State.topics (Gui.state_model g) ->
      Gui.topics_saved (Gui.handle insert_error a g).2) /\
  (forall actions g, Gui.topics_saved g -> Gui.topics_saved (Gui.run insert_error actions g)).
Proof.
  split.
  - intros a g Hne. destruct (handle_stepped insert_error a g) as (_ & _ & [[Heq _]|Hs]);
      [contradiction|exact Hs].
  - intros actions. apply (run_stepped insert_error Gui.topics_saved).
    intros g1 g2 (_ & _ & [[Heq Hv]|Hs]) H1; [|exact Hs].
    destruct H1 as (s & Hsaved & Htopics). exists s. rewrite Hv, Heq. auto.
Qed.

(** X22. [add_topic] saves before it selects.  When the answer of the
    dialog, stripped, is a new name, the handler returns, the catalog
    has the new topic without documents, the topic is the current one,
    the topic list shows it and the document tree is empty; but the
    state handed to [save] still has the current topic of before, so it
    differs from the state of the window unless that topic was already
    current. *)
Theorem add_topic_saves_before_select
    (insert_error : list string -> string -> option string)
    (answer : string) (g : Gui.t) :
  let name := Dnd.strip answer in
  let s := Gui.state_model g in
  let r := Gui.add_topic insert_error (Some answer) g in
  name <> "" ->
  State.topics s !! name = None ->
  r.1 = Ok tt /\
  Gui.state_model r.2 = State.Make (<[name := []]> (State.topics s)) (Some name) /\
  Gui.saved r.2 = Some (State.Make (<[name := []]> (State.topics s)) (State.current_topic s)) /\
  Gui.topic_list r.2 = dom (<[name := []]> (State.topics s)) /\
  Gui.doc_tree r.2 = [] /\
  (State.current_topic s <> Some name -> Gui.saved r.2 <> Some (Gui.state_model r.2)).
Proof.
  intros name s r Hname Hnew. subst r.
  assert (Hans : Gui.truthy (Some answer) = Some answer).
  { destruct answer; [|reflexivity]. contradiction. }
  assert (Hstrip : Gui.truthy (Some name) = Some name).
  { destruct name; [contradiction|reflexivity]. }
  unfold Gui.add_topic. rewrite Hans. fold name. rewrite Hstrip.
  rewrite bool_decide_false by (fold s; rewrite Hnew; apply is_Some_None).
  cbv zeta. fold s.
  assert (He : State.ensure_topic s name =
               State.Make (<[name := []]> (State.topics s)) (State.current_topic s)).
  { unfold State.ensure_topic. rewrite Hnew. reflexivity. }
  rewrite He. unfold Gui._select_topic, Gui._reload_docs.
  cbn [Gui.set_state Gui.save Gui._reload_topics Gui.state_model State.current_topic
       State.topics Gui.topic_list Gui.saved Gui.doc_tree Gui.notes].
  rewrite Hstrip. unfold list_docs. rewrite lookup_insert_eq.
  cbn [default Gui.insert_rows fst snd Gui.set_tree Gui.state_model Gui.saved
       Gui.topic_list Gui.doc_tree].
  repeat split. intros Hcur [= Heq]. congruence.
Qed.

Lemma add_topic_saves_before_select_witness :
  let r := Gui.add_topic Gui.unique_ids (Some " Neu ") Gui.empty in
  Dnd.strip " Neu " = "Neu" /\
  Gui.state_model r.2 = State.Make {["Neu" := []]} (Some "Neu") /\
  Gui.saved r.2 = Some (State.Make {["Neu" := []]} None).
Proof.
  intros r. split; [reflexivity|].
  pose proof (add_topic_saves_before_select Gui.unique_ids " Neu " Gui.empty) as H.
  cbv zeta in H. specialize (H ltac:(discriminate) eq_refl).
  destruct H as (_ & Hs & Hv & _). split; [exact Hs|exact Hv].
Defined.

(** X23. The document tree takes a path as item id once.  Under this
    rule of the toolkit a reload of the documents of the current topic
    raises if two documents of the topic have the same path; and if the
    tree takes every new id, the reload of a topic of distinct paths
    returns with one row per document, in order. *)
Theorem reload_needs_distinct_paths
    (insert_error : list string -> string -> option string) (g : Gui.t) (topic : string) :
  let docs := list_docs (State.topics (Gui.state_model g)) topic in
  Gui.truthy (State.current_topic (Gui.state_model g)) = Some topic ->
  ((forall rows iid, iid ∈ rows -> insert_error rows iid <> None) ->
   ~ NoDup (map path docs) ->
   exists e, (Gui._reload_docs insert_error g).1 = Raise e) /\
  ((forall rows iid, iid ∉ rows -> insert_error rows iid = None) ->
   NoDup (map path docs) ->
   Gui._reload_docs insert_error g = (Ok tt, Gui.set_tree (map path docs) g)).
Proof.
  intros docs Hcur. unfold Gui._reload_docs. rewrite Hcur. fold docs. cbn [fst snd]. split.
  - intros Htk Hdup.
    destruct (Gui.insert_rows insert_error docs []).1 as [[]|e] eqn:Hr; [|eauto].
    exfalso. apply Hdup.
    apply (insert_rows_ok insert_error docs [] Htk Hr). constructor.
  - intros Htk Hnd. rewrite (insert_rows_distinct insert_error docs [] Htk Hnd).
    reflexivity.
Qed.

Lemma reload_needs_distinct_paths_witness :
  let g := (Gui.handle Gui.unique_ids (Gui.AddTopic (Some "T")) Gui.empty).2 in
  let r := Gui.on_drop Gui.unique_ids Sample.w "/d/a.pdf /d/a.pdf" g in
  list_docs (State.topics (Gui.state_model r.2)) "T" =
    [Doc "/d/a.pdf" false; Doc "/d/a.pdf" false] /\
  r.1 = Raise "Item /d/a.pdf already exists" /\
  exists e, (Gui._reload_docs Gui.unique_ids r.2).1 = Raise e.
Proof.
  intros g r. split; [reflexivity|]. split; [reflexivity|].
  apply (reload_needs_distinct_paths Gui.unique_ids r.2 "T" eq_refl).
  - intros rows iid Hin. unfold Gui.unique_ids. rewrite bool_decide_true by exact Hin.
    discriminate.
  - intros Hnd. apply NoDup_cons in Hnd as [Hnotin _]. apply Hnotin. left.
Defined.

(** X24. A drop, end to end.  When a topic is current and the dropped
    data lists plain paths, separated by one space and with braces
    round a path that has a space, [on_drop] appends to the topic one
    unread document for each listed path that is an existing file with a
    supported extension and is not yet in the topic, hands the new
    catalog to [save], and, if the tree takes the rows, returns; the
    message that nothing was added is shown exactly when no path was
    accepted. *)
Theorem drop_adds_acceptable_files
    (insert_error : list string -> string -> option string)
    (w : world) (ps : list string) (g : Gui.t) (topic : string) :
  let s := Gui.state_model g in
  let old := list_docs (State.topics s) topic in
  let new := List.filter (State.accepts w (map path old)) ps in
  let r := Gui.on_drop insert_error w (Dnd.items ps) g in
  Gui.truthy (State.current_topic s) = Some topic ->
  Forall Dnd.plain ps ->
  list_docs (State.topics (Gui.state_model r.2)) topic =
    (old ++ map (fun p => Doc p false) new)%list /\
  Gui.saved r.2 = Some (Gui.state_model r.2) /\
  (r.1 = Ok tt ->
   Gui.notes r.2 =
   (Gui.notes g ++
    match new with
    | [] => [Gui.ShowInfo "Info"
               "Keine neuen unterstützten Dateien per Drag&Drop hinzugefügt."]
    | _ => []
    end)%list).
Proof.
  intros s old new r Hcur Hplain. subst r.
  assert (Hsplit : Dnd._split_dnd_paths (Dnd.items ps) = ps).
  { unfold Dnd._split_dnd_paths. rewrite split_items by assumption.
    cbn [app]. apply clean_plain.
    eapply Forall_impl; [exact Hplain|]. cbn. intros p (Hne & _ & _ & Hp). auto. }
  unfold Gui.on_drop. fold s. rewrite Hcur, Hsplit. cbv zeta.
  set (a := State.add_docs w s topic ps).
  assert (Hcount : a.2 = length new).
  { subst a. unfold State.add_docs. cbn [snd]. rewrite add_loop_spec, ensure_topic_docs.
    reflexivity. }
  assert (Hdocs : list_docs (State.topics a.1) topic =
                  (old ++ map (fun p => Doc p false) new)%list) by apply add_docs_docs.
  destruct (reload_docs_keeps insert_error (Gui.save (Gui.set_state a.1 g)))
    as (Hs & _ & Hv & Hn).
  cbn [Gui.save Gui.set_state Gui.state_model Gui.saved Gui.notes] in Hs, Hv, Hn.
  destruct (Gui._reload_docs insert_error (Gui.save (Gui.set_state a.1 g)))
    as [[[]|e] g'] eqn:Hr; cbn [fst snd] in *; cbv beta iota.
  - rewrite Hcount. clearbody new a. clear Hcount.
    destruct new as [|p0 rest];
      cbn [length Nat.eqb Gui.done fst snd Gui.show Gui.state_model Gui.saved Gui.notes];
      rewrite Hs, Hv, Hn; cbn [map] in *; rewrite ?app_nil_r in *; auto.
  - rewrite Hs, Hv. split; [exact Hdocs|]. split; [reflexivity|discriminate].
Qed.

Lemma drop_adds_acceptable_files_witness :
  let g := (Gui.handle Gui.unique_ids (Gui.AddTopic (Some "T")) Gui.empty).2 in
  let r := Gui.on_drop Gui.unique_ids Sample.w
             (Dnd.items ["/d/a.pdf"; "/d/kein bild.png"]) g in
  Forall Dnd.plain ["/d/a.pdf"; "/d/kein bild.png"] /\
  Dnd.items ["/d/a.pdf"; "/d/kein bild.png"] = "/d/a.pdf {/d/kein bild.png}" /\
  list_docs (State.topics (Gui.state_model r.2)) "T" = [Doc "/d/a.pdf" false].
Proof.
  intros g r.
  assert (H : Forall Dnd.plain ["/d/a.pdf"; "/d/kein bild.png"]).
  { repeat constructor; try discriminate; reflexivity. }
  split; [exact H|]. split; [reflexivity|].
  exact (proj1 (drop_adds_acceptable_files Gui.unique_ids Sample.w
                  ["/d/a.pdf"; "/d/kein bild.png"] g "T" eq_refl H)).
Defined.
